(** * glideinWMS factory: credentialClass.py

    A shallow embedding of [factory/credentialClass.py] (Python 3) and the
    properties of its credential pipeline: the credential-set validator
    ([check_security_credentials]), the frontend authenticator
    ([get_key_obj], [validate_frontend]), the credential store
    ([compress_credential], [safe_update], [update_credential_file]), the
    global credential processor ([process_global]) and the
    [SubmitCredentials] holder.

    Python values are a small tagged union, exceptions are an inductive
    type, and effectful code runs in a state-and-exception monad over a
    world made of the file system, the log and the descriptor counter.
    As in Python, what a statement did before it raised stays done. *)

From Stdlib Require Import Strings.Byte Strings.Ascii.
From stdpp Require Import base strings list gmap.

Open Scope string_scope.

(* ===================================================================== *)
(** ** Python values, exceptions, results *)
(* ===================================================================== *)

Abbreviation bytes := (list byte).

#[global] Instance byte_eq_decision : EqDecision byte := Byte.byte_eq_dec.

(** [b"..."] literals. *)
Definition b_ (s : string) : bytes := String.list_byte_of_string s.

Inductive exn : Type :=
| CredentialError (msg : string)
| TypeError (msg : string)
| ValueError (msg : string)
| AttributeError (msg : string)
| KeyError (key : string)
| OSError (what : string)
| UnicodeDecodeError.

(** Outcome of a call: a returned value or a raised exception. *)
Inductive result (A : Type) : Type :=
| Ok (a : A)
| Err (e : exn).
Arguments Ok {A} a.
Arguments Err {A} e.

Definition is_OSError (e : exn) : bool :=
  match e with OSError _ => true | _ => false end.

(** The [Credential] class hierarchy (lines 52-202): six concrete
    subclasses.  A field holds whatever the caller passed; [None] is
    Python's [None]. *)
Abbreviation field := (option string).

Record common_fields := CommonFields {
  sec_class : field;
  trust_dom : field;
  vm_id : field;
  vm_type : field;
  pilot_proxy : field;
  creation_script : field;
  update_frequency : field
}.

Inductive Credential : Type :=
| scitoken (cred_loc : field) (c : common_fields)
| grid_proxy (cred_loc : field) (c : common_fields)
| cert_pair (cert certkey : field) (c : common_fields)
| key_pair (pub_key priv_key : field) (c : common_fields) (rem_user : field)
| username_password (username password : field) (c : common_fields)
| auth_file (file : field) (c : common_fields).

Definition get_cred_type (c : Credential) : string :=
  match c with
  | scitoken _ _ => "scitoken"
  | grid_proxy _ _ => "grid_proxy"
  | cert_pair _ _ _ => "cert_pair"
  | key_pair _ _ _ _ => "key_pair"
  | username_password _ _ _ => "username_password"
  | auth_file _ _ => "auth_file"
  end.

(** The values that flow through the functions below. *)
Inductive pyval : Type :=
| VNone
| VInt (n : Z)                    (* e.g. the descriptor returned by os.open *)
| VStr (s : string)
| VBytes (b : bytes)
| VCred (c : Credential)
| VTextFile (path : string).      (* the file object of builtin open(path) *)

(** [isinstance(v, Credential)] *)
Definition isinstance_Credential (v : pyval) : bool :=
  match v with VCred _ => true | _ => false end.

(** Python's [==] on values: a [bytes] never equals a [str]. *)
Definition py_eq (a b : pyval) : bool :=
  match a, b with
  | VNone, VNone => true
  | VInt x, VInt y => bool_decide (x = y)
  | VStr x, VStr y => bool_decide (x = y)
  | VBytes x, VBytes y => bool_decide (x = y)
  | VCred x, VCred y => false     (* object identity; never compared here *)
  | VTextFile x, VTextFile y => false
  | _, _ => false
  end.

(* ===================================================================== *)
(** ** The world: file system, log, open descriptors *)
(* ===================================================================== *)

(** A path names a regular file (permission bits and content) or a
    directory.  The directories above a path are taken to exist and to
    grant access, so the errors of the primitives below are those of the
    node at the path itself. *)
Inductive node : Type :=
| File (mode : N) (data : bytes)
| Dir.

Abbreviation filesystem := (gmap string node).

Inductive log_entry : Type :=
| LogDebug (msg : string)
| LogWarning (msg : string)
| LogError (msg : string)
| LogException (msg : string).

Record world := World {
  fs : filesystem;
  log : list log_entry;       (* logSupport.log, oldest first *)
  nfds : nat                  (* descriptors handed out by os.open so far *)
}.

Definition set_fs (f : filesystem → filesystem) (w : world) : world :=
  World (f (fs w)) (log w) (nfds w).

(** State-and-exception monad: the world after the call, and its outcome. *)
Definition M (A : Type) : Type := world → world * result A.

Definition ret {A} (a : A) : M A := λ w, (w, Ok a).
Definition raise {A} (e : exn) : M A := λ w, (w, Err e).
Definition bind {A B} (m : M A) (k : A → M B) : M B :=
  λ w, match m w with
       | (w', Ok a) => k a w'
       | (w', Err e) => (w', Err e)
       end.
Definition lift {A} (r : result A) : M A := λ w, (w, r).

Notation "'let*' x ':=' c 'in' k" := (bind c (λ x, k))
  (at level 10, x pattern, c at level 100, k at level 200,
   format "'[v' 'let*'  x  ':='  c  'in' '/' k ']'").
Notation "c ';;;' k" := (bind c (λ _, k))
  (at level 100, k at level 200, right associativity).

(** [try: body / except <handled>: handler]; an unhandled exception
    propagates. *)
Definition try_except {A} (body : M A) (handled : exn → bool)
    (handler : exn → M A) : M A :=
  λ w, match body w with
       | (w', Ok a) => (w', Ok a)
       | (w', Err e) => if handled e then handler e w' else (w', Err e)
       end.

(** A bare [except:] handles everything. *)
Definition any_exn (e : exn) : bool := true.

(** [for x in l: body]; [continue] is the body returning early. *)
Fixpoint for_each {A} (l : list A) (body : A → M unit) : M unit :=
  match l with
  | [] => ret tt
  | x :: l' => body x ;;; for_each l' body
  end.

Definition log_write (e : log_entry) : M unit :=
  λ w, (World (fs w) (log w ++ [e]) (nfds w), Ok tt).

(** A computation that leaves the file system as it found it, whatever
    its outcome. *)
Definition fs_preserving {A} (m : M A) : Prop := ∀ w, fs (m w).1 = fs w.

(** Dictionaries.  A request ClassAd is a [dict] whose key order (the
    insertion order) drives the loop of [process_global], so it is kept as
    an association list; [params] is only probed for keys. *)
Abbreviation classad_t := (list (string * string)).

Fixpoint dict_get (d : classad_t) (k : string) : option string :=
  match d with
  | [] => None
  | (k', v) :: d' => if bool_decide (k' = k) then Some v else dict_get d' k
  end.

Definition dict_keys (d : classad_t) : list string := d.*1.

Definition dict_in (k : string) (d : classad_t) : bool :=
  bool_decide (is_Some (dict_get d k)).

(** [d[k]], raising [KeyError] *)
Definition getitem (d : classad_t) (k : string) : result string :=
  match dict_get d k with
  | Some v => Ok v
  | None => Err (KeyError k)
  end.

(* ===================================================================== *)
(** ** Credential-set validator (lines 35-43, 578-718) *)
(* ===================================================================== *)

Definition SUPPORTED_AUTH_METHODS : list string :=
  [ "grid_proxy"; "cert_pair"; "key_pair"; "auth_file";
    "username_password"; "idtoken"; "scitoken" ].

(** [s.split(sep)] for a one-character separator. *)
Fixpoint split_on (sep : ascii) (s : string) : list string :=
  match s with
  | EmptyString => [EmptyString]
  | String c s' =>
      if bool_decide (c = sep) then EmptyString :: split_on sep s'
      else match split_on sep s' with
           | [] => [String c EmptyString]
           | h :: t => String c h :: t
           end
  end.

Definition relevant_keys : gset string :=
  {[ "SubmitProxy"; "GlideinProxy"; "Username"; "Password"; "PublicCert";
     "PrivateCert"; "PublicKey"; "PrivateKey"; "VMId"; "VMType"; "AuthFile" ]}.

(** Truth value of a set: non-empty. *)
Definition set_truthy (X : gset string) : bool := bool_decide (X ≠ ∅).

Definition in_list (k : string) (l : list string) : bool := bool_decide (k ∈ l).

Definition in_params (k : string) (params : gmap string string) : bool :=
  bool_decide (k ∈ dom params).

Definition msg_not_required (client_int_name entry_name : string) : string :=
  "Request from " ++ client_int_name ++
  " has credentials not required by the entry " ++ entry_name ++
  ", skipping request".

Definition msg_no_proxy (client_int_name entry_name : string) : string :=
  "Request from client " ++ client_int_name ++
  " did not provide a proxy as required by the entry " ++ entry_name ++
  ", skipping request".

Definition msg_no_glidein_proxy (client_int_name : string) : string :=
  "Glidein proxy cannot be found for client " ++ client_int_name ++
  ", skipping request".

Definition msg_missing (what client_int_name entry_name : string) : string :=
  "Client '" ++ client_int_name ++ "' did not specify the " ++ what ++
  " in the request, this is required by entry " ++ entry_name ++ ", skipping ".

Definition msg_inconsistency : string :=
  "Inconsistency between SUPPORTED_AUTH_METHODS and check_security_credentials".

(** The [valid_keys] of each branch. *)
Definition valid_keys_grid_proxy : gset string := {[ "SubmitProxy" ]}.
Definition valid_keys_cert_pair : gset string :=
  {[ "GlideinProxy"; "PublicCert"; "PrivateCert"; "VMId"; "VMType" ]}.
Definition valid_keys_key_pair : gset string :=
  {[ "GlideinProxy"; "PublicKey"; "PrivateKey"; "VMId"; "VMType" ]}.
Definition valid_keys_auth_file : gset string :=
  {[ "GlideinProxy"; "AuthFile"; "VMId"; "VMType" ]}.
Definition valid_keys_username_password : gset string :=
  {[ "GlideinProxy"; "Username"; "Password"; "VMId"; "VMType" ]}.

(** The tail shared by the four non-proxy sub-methods: the required keys,
    then no relevant key outside the allow-list. *)
Definition require_and_allow (required : bool) (what : string)
    (valid_keys : gset string) (params : gmap string string)
    (client_int_name entry_name : string) : M unit :=
  if negb required then
    raise (CredentialError (msg_missing what client_int_name entry_name))
  else
    let invalid_keys := relevant_keys ∖ valid_keys in
    if set_truthy (dom params ∩ invalid_keys) then
      raise (CredentialError (msg_not_required client_int_name entry_name))
    else ret tt.

Definition check_security_credentials (auth_method : string)
    (params : gmap string string) (client_int_name entry_name : string)
    (scitoken_passthru : bool) : M unit :=
  let auth_method_list := split_on "+"%char auth_method in
  if negb (set_truthy (list_to_set auth_method_list
                         ∩ list_to_set SUPPORTED_AUTH_METHODS)) then
    (* the message lists both method lists *)
    log_write (LogWarning
      ("None of the supported auth methods in provided auth methods: "
         ++ auth_method))
  else
    let params_keys := dom params in
    if in_list "scitoken" auth_method_list
       || (in_params "frontend_scitoken" params && scitoken_passthru) then
      ret tt
    else if in_list "grid_proxy" auth_method_list then
      if negb scitoken_passthru then
        if in_params "SubmitProxy" params then
          let valid_keys := valid_keys_grid_proxy in
          let invalid_keys := relevant_keys ∖ valid_keys in
          if set_truthy (params_keys ∩ invalid_keys) then
            raise (CredentialError (msg_not_required client_int_name entry_name))
          else ret tt
        else
          raise (CredentialError (msg_no_proxy client_int_name entry_name))
      else ret tt
    else
      if negb (in_params "GlideinProxy" params) && negb scitoken_passthru then
        raise (CredentialError (msg_no_glidein_proxy client_int_name))
      else if in_list "cert_pair" auth_method_list then
        require_and_allow
          (in_params "PublicCert" params && in_params "PrivateCert" params)
          "certificate pair"
          valid_keys_cert_pair
          params client_int_name entry_name
      else if in_list "key_pair" auth_method_list then
        require_and_allow
          (in_params "PublicKey" params && in_params "PrivateKey" params)
          "key pair"
          valid_keys_key_pair
          params client_int_name entry_name
      else if in_list "auth_file" auth_method_list then
        require_and_allow
          (in_params "AuthFile" params)
          "auth_file"
          valid_keys_auth_file
          params client_int_name entry_name
      else if in_list "username_password" auth_method_list then
        require_and_allow
          (in_params "Username" params && in_params "Password" params)
          "username and password"
          valid_keys_username_password
          params client_int_name entry_name
      else
        raise (CredentialError msg_inconsistency).

(* ===================================================================== *)
(** ** External collaborators *)
(* ===================================================================== *)

(** [glideFactoryLib], imported by the module and not part of it. *)
Class FactoryLib := {
  is_str_safe : string → bool;
  escapeParam : string → string;
  (* glideFactoryLib.factoryConfig.get_client_proxies_dir *)
  get_client_proxies_dir : string → string
}.

(** What the Python runtime and its standard library contribute. *)
Class PyRuntime := {
  (* text-mode read: the locale's codec and universal newlines *)
  text_decode : bytes → result string;
  (* the gzip member header; it carries the time of the call *)
  gzip_header : bytes;
  (* the deflate stream of the data, followed by CRC32 and ISIZE *)
  gzip_body : bytes → bytes;
  (* base64.b64encode on bytes *)
  b64encode_bytes : bytes → bytes
}.

(** The symmetric key of one request, the factory key, the frontend
    policy and the factory descript, as the objects passed around. *)
Record SymKeyObj := {
  decrypt_hex : string → result bytes
}.

Record PubKeyObj := {
  extract_sym_key : string → result SymKeyObj
}.

Record FrontendDescript := {
  get_identity : string → option string;
  get_username : string → string → option string
}.

Record GlideinDescript := {
  (* glidein_descript.data["PubKeyObj"]; [None] is Python's None *)
  data_PubKeyObj : option PubKeyObj
}.

(** [bytes.decode("utf-8")].  A [str] is represented by its UTF-8
    encoding, so decoding is a validity check. *)
Definition in_range (lo hi : N) (b : byte) : bool :=
  let n := Byte.to_N b in (lo <=? n)%N && (n <=? hi)%N.

Definition is_cont (b : byte) : bool := in_range 128 191 b.

Fixpoint valid_utf8 (l : bytes) : bool :=
  match l with
  | [] => true
  | b0 :: t0 =>
      if in_range 0 127 b0 then valid_utf8 t0
      else match t0 with
      | [] => false
      | b1 :: t1 =>
          if in_range 194 223 b0 then is_cont b1 && valid_utf8 t1
          else match t1 with
          | [] => false
          | b2 :: t2 =>
              if in_range 224 239 b0 then
                (if in_range 224 224 b0 then in_range 160 191 b1
                 else if in_range 237 237 b0 then in_range 128 159 b1
                 else is_cont b1)
                && is_cont b2 && valid_utf8 t2
              else match t2 with
              | [] => false
              | b3 :: t3 =>
                  if in_range 240 244 b0 then
                    (if in_range 240 240 b0 then in_range 144 191 b1
                     else if in_range 244 244 b0 then in_range 128 143 b1
                     else is_cont b1)
                    && is_cont b2 && is_cont b3 && valid_utf8 t3
                  else false
              end
          end
      end
  end.

Definition decode_utf8 (b : bytes) : result string :=
  if valid_utf8 b then Ok (String.string_of_list_byte b)
  else Err UnicodeDecodeError.

(* ===================================================================== *)
(** ** File-system and library primitives *)
(* ===================================================================== *)

Definition os_path_isfile (p : string) : M bool :=
  λ w, (w, Ok match fs w !! p with Some (File _ _) => true | _ => false end).

Fixpoint ends_with_slash (s : string) : bool :=
  match s with
  | EmptyString => false
  | String c EmptyString => bool_decide (c = "/"%char)
  | String _ s' => ends_with_slash s'
  end.

(** [os.path.join(a, b)] (POSIX) *)
Definition os_path_join (a b : string) : string :=
  if String.prefix "/" b then b
  else if bool_decide (a = EmptyString) || ends_with_slash a then a ++ b
  else a ++ "/" ++ b.

Fixpoint has_slash (s : string) : bool :=
  match s with
  | EmptyString => false
  | String c s' => bool_decide (c = "/"%char) || has_slash s'
  end.

(** [os.path.basename] *)
Fixpoint basename (s : string) : string :=
  match s with
  | EmptyString => EmptyString
  | String c s' =>
      if has_slash s' then basename s'
      else if bool_decide (c = "/"%char) then s' else s
  end.

(** [os.open(p, os.O_CREAT | os.O_WRONLY, mode)]: creates an empty file
    when there is none, does not truncate an existing one, and returns an
    integer descriptor. *)
Definition os_open_creat_wronly (p : string) (mode : N) : M pyval :=
  λ w, match fs w !! p with
       | Some Dir => (w, Err (OSError "EISDIR"))
       | Some (File _ _) =>
           (World (fs w) (log w) (S (nfds w)), Ok (VInt (3 + Z.of_nat (nfds w))))
       | None =>
           (World (<[p := File mode []]> (fs w)) (log w) (S (nfds w)),
            Ok (VInt (3 + Z.of_nat (nfds w))))
       end.

(** builtin [open(p)]: text mode, for reading *)
Definition builtin_open (p : string) : M pyval :=
  λ w, match fs w !! p with
       | Some (File _ _) => (w, Ok (VTextFile p))
       | Some Dir => (w, Err (OSError "EISDIR"))
       | None => (w, Err (OSError "ENOENT"))
       end.

(** What entering a [with] block raises on the descriptor of [os.open]
    ([AttributeError: __enter__] before Python 3.11). *)
Definition enter_int_error : exn :=
  TypeError "'int' object does not support the context manager protocol".

(** Entering a [with] block: only a file object is a context manager. *)
Definition context_enter (v : pyval) : M pyval :=
  match v with
  | VTextFile _ => ret v
  | VInt _ => raise enter_int_error
  | VNone =>
      raise (TypeError "'NoneType' object does not support the context manager protocol")
  | VStr _ =>
      raise (TypeError "'str' object does not support the context manager protocol")
  | VBytes _ =>
      raise (TypeError "'bytes' object does not support the context manager protocol")
  | VCred _ =>
      raise (TypeError "object does not support the context manager protocol")
  end.

(** [with ctx as x: body].  The context expression is evaluated first, so
    its effects stay when entering fails.  Leaving a file object closes it,
    which does not show in the world. *)
Definition with_as {A} (ctx : M pyval) (body : pyval → M A) : M A :=
  let* v := ctx in
  let* x := context_enter v in
  body x.

(** [fl.read()] *)
Definition method_read {rt : PyRuntime} (fl : pyval) : M pyval :=
  match fl with
  | VTextFile p =>
      λ w, match fs w !! p with
           | Some (File _ d) =>
               (w, match text_decode d with
                   | Ok s => Ok (VStr s)
                   | Err e => Err e
                   end)
           | _ => (w, Err (OSError "EBADF"))
           end
  | VInt _ => raise (AttributeError "'int' object has no attribute 'read'")
  | _ => raise (AttributeError "object has no attribute 'read'")
  end.

(** [file.write(data)] *)
Definition method_write (file : pyval) (data : pyval) : M unit :=
  match file with
  | VTextFile _ => raise (OSError "not writable")
  | VInt _ => raise (AttributeError "'int' object has no attribute 'write'")
  | _ => raise (AttributeError "object has no attribute 'write'")
  end.

(** [os.remove(p)] *)
Definition os_remove (p : string) : M unit :=
  λ w, match fs w !! p with
       | Some (File _ _) => (set_fs (delete p) w, Ok tt)
       | Some Dir => (w, Err (OSError "EISDIR"))
       | None => (w, Err (OSError "ENOENT"))
       end.

(** [shutil.copy2(src, dst)]: content and permission bits; into the
    directory when [dst] is one.  [shutil.Error] is an [OSError]. *)
Definition shutil_copy2 (src dst : string) : M unit :=
  λ w, match fs w !! src with
       | Some (File mode d) =>
           let target := match fs w !! dst with
                         | Some Dir => os_path_join dst (basename src)
                         | _ => dst
                         end in
           if bool_decide (target = src) then (w, Err (OSError "SameFileError"))
           else match fs w !! target with
                | Some Dir => (w, Err (OSError "EISDIR"))
                | _ => (set_fs <[target := File mode d]> w, Ok tt)
                end
       | Some Dir => (w, Err (OSError "EISDIR"))
       | None => (w, Err (OSError "ENOENT"))
       end.

(** [os.rename(src, dst)]: replaces a regular file atomically. *)
Definition os_rename (src dst : string) : M unit :=
  λ w, match fs w !! src, fs w !! dst with
       | None, _ => (w, Err (OSError "ENOENT"))
       | Some (File _ _), Some Dir => (w, Err (OSError "EISDIR"))
       | Some Dir, Some (File _ _) => (w, Err (OSError "ENOTDIR"))
       | Some Dir, Some Dir => (w, Err (OSError "ENOTEMPTY"))
       | Some n, _ => (set_fs (λ f, <[dst := n]> (delete src f)) w, Ok tt)
       end.

(** An [io.StringIO]: a text buffer. *)
Record StringIO := {
  sio_closed : bool;
  sio_value : string
}.

Definition StringIO_new : StringIO := {| sio_closed := false; sio_value := EmptyString |}.

Definition StringIO_write (v : pyval) (f : StringIO) : result StringIO :=
  match v with
  | VStr s =>
      if sio_closed f then Err (ValueError "I/O operation on closed file")
      else Ok {| sio_closed := false; sio_value := sio_value f ++ s |}
  | _ => Err (TypeError "string argument expected")
  end.

Definition StringIO_close (f : StringIO) : StringIO :=
  {| sio_closed := true; sio_value := sio_value f |}.

Definition StringIO_getvalue (f : StringIO) : result pyval :=
  if sio_closed f then Err (ValueError "I/O operation on closed file")
  else Ok (VStr (sio_value f)).

(** A [gzip.GzipFile(fileobj=..., mode="wb")]: the constructor writes the
    member header to [fileobj]; [close] flushes the compressed data and
    the trailer to it and leaves [fileobj] open. *)
Record GzipFile := {
  gz_fileobj : StringIO;
  gz_data : bytes
}.

Definition GzipFile_wb {rt : PyRuntime} (fileobj : StringIO) : result GzipFile :=
  match StringIO_write (VBytes gzip_header) fileobj with
  | Ok f => Ok {| gz_fileobj := f; gz_data := [] |}
  | Err e => Err e
  end.

Definition GzipFile_write (data : pyval) (g : GzipFile) : result GzipFile :=
  match data with
  | VBytes b => Ok {| gz_fileobj := gz_fileobj g; gz_data := gz_data g ++ b |}
  | _ => Err (TypeError "a bytes-like object is required")
  end.

Definition GzipFile_close {rt : PyRuntime} (g : GzipFile) : result StringIO :=
  StringIO_write (VBytes (gzip_body (gz_data g))) (gz_fileobj g).

(** [base64.b64encode(v)] *)
Definition b64encode {rt : PyRuntime} (v : pyval) : result pyval :=
  match v with
  | VBytes b => Ok (VBytes (b64encode_bytes b))
  | _ => Err (TypeError "a bytes-like object is required")
  end.

(** [prefix % v] for a bytes template ending in [%s] *)
Definition bytes_percent_s (prefix : bytes) (v : pyval) : result pyval :=
  match v with
  | VBytes b => Ok (VBytes (prefix ++ b))
  | _ => Err (TypeError "%b requires a bytes-like object")
  end.

(** Sequencing of plain outcomes (no world involved). *)
Definition rbind {A B} (r : result A) (k : A → result B) : result B :=
  match r with
  | Ok a => k a
  | Err e => Err e
  end.

Notation "'let?' x ':=' r 'in' k" := (rbind r (λ x, k))
  (at level 10, x pattern, r at level 100, k at level 200,
   format "'[v' 'let?'  x  ':='  r  'in' '/' k ']'").

(* ===================================================================== *)
(** ** Credential store (lines 381-450) *)
(* ===================================================================== *)

Section Store.
Context {rt : PyRuntime} {lib : FactoryLib}.

(** The body of the inner [with]: [f.write(credential_data)], then
    [GzipFile.__exit__] closes [f] whether or not the write raised. *)
Definition gzip_block (credential_data : pyval) (f : GzipFile) : result StringIO :=
  match GzipFile_write credential_data f with
  | Ok f' => GzipFile_close f'
  | Err e => match GzipFile_close f with
             | Ok _ => Err e
             | Err e' => Err e'
             end
  end.

Definition compress_credential (credential_data : pyval) : result pyval :=
  (* with StringIO() as cfile: *)
  match (let? f := GzipFile_wb StringIO_new in gzip_block credential_data f) with
  | Err e => Err e
  | Ok cfile =>
      (* cfile.__exit__ has run when the return statement is reached *)
      let cfile := StringIO_close cfile in
      let? v := StringIO_getvalue cfile in
      b64encode v
  end.

(** [0o600]: read and write for the owner only *)
Definition mode_0o600 : N := 6 * 64.

Definition safe_update (fname : string) (credential_data : pyval) : M unit :=
  let* isfile := os_path_isfile fname in
  if negb isfile then
    (* new file, create *)
    with_as (os_open_creat_wronly fname mode_0o600)
            (λ file, method_write file credential_data)
  else
    (* old file exists, check if same content *)
    let* old_data := with_as (builtin_open fname) (λ fl, method_read fl) in
    if negb (py_eq credential_data old_data) then
      try_except (os_remove (fname ++ ".old")) is_OSError (λ _, ret tt) ;;;
      with_as (os_open_creat_wronly (fname ++ ".new") mode_0o600)
              (λ file, method_write file credential_data) ;;;
      try_except (shutil_copy2 fname (fname ++ ".old")) is_OSError (λ _, ret tt) ;;;
      os_rename (fname ++ ".new") fname
    else ret tt.

Definition update_credential_file (username client_id : string)
    (credential_data : pyval) (request_clientname : string) : M (string * string) :=
  let proxy_dir := get_client_proxies_dir username in
  let fname_short :=
    "credential_" ++ request_clientname ++ "_" ++ escapeParam client_id in
  let fname := os_path_join proxy_dir fname_short in
  let fname_compressed := fname ++ "_compressed" in
  log_write (LogDebug ("updating credential file " ++ fname)) ;;;
  safe_update fname credential_data ;;;
  let* compressed_credential := lift (compress_credential credential_data) in
  let* line := lift (bytes_percent_s (b_ "glidein_credentials=") compressed_credential) in
  safe_update fname_compressed line ;;;
  ret (fname, fname_compressed).

(* ===================================================================== *)
(** ** Frontend authenticator (lines 453-529) *)
(* ===================================================================== *)

Definition msg_no_key : string :=
  "Classad does not contain a key.  We cannot decrypt.".
Definition msg_extraction_failed : string := "Symmetric key extraction failed.".
Definition msg_identity_undecryptable : string := "Cannot decrypt ReqEncIdentity.".
Definition msg_name_undecryptable : string :=
  "Cannot decrypt GlideinEncParamSecurityName.".
Definition msg_invalid_identity (enc_identity authenticated_identity : string) : string :=
  "Client provided invalid ReqEncIdentity(" ++ enc_identity ++ "!=" ++
  authenticated_identity ++ "). Skipping for security reasons.".
Definition msg_not_authorized (frontend_sec_name : string) : string :=
  "This frontend is not authorized by the factory.  Supplied security name: "
  ++ frontend_sec_name.
Definition msg_identity_mismatch : string :=
  "This frontend Authenticated Identity, does not match the expected identity".

Definition get_key_obj (pub_key_obj : PubKeyObj) (classad : classad_t) : M SymKeyObj :=
  if dict_in "ReqEncKeyCode" classad then
    try_except
      (lift (let? code := getitem classad "ReqEncKeyCode" in
             extract_sym_key pub_key_obj code))
      any_exn
      (λ _, log_write (LogDebug "classad, pub_key_obj") ;;;
            log_write (LogException msg_extraction_failed) ;;;
            raise (CredentialError msg_extraction_failed))
  else raise (CredentialError msg_no_key).

(** [sym_key_obj.decrypt_hex(classad[name]).decode("utf-8")] *)
Definition decrypt_str (sym_key_obj : SymKeyObj) (classad : classad_t)
    (name : string) : result string :=
  let? c := getitem classad name in
  let? b := decrypt_hex sym_key_obj c in
  decode_utf8 b.

Definition validate_frontend (classad : classad_t)
    (frontend_descript : FrontendDescript) (pub_key_obj : PubKeyObj)
    : M (SymKeyObj * string) :=
  let* sym_key_obj := get_key_obj pub_key_obj classad in
  let* authenticated_identity := lift (getitem classad "AuthenticatedIdentity") in
  let* enc_identity :=
    try_except (lift (decrypt_str sym_key_obj classad "ReqEncIdentity")) any_exn
      (λ _, log_write (LogException msg_identity_undecryptable) ;;;
            raise (CredentialError msg_identity_undecryptable)) in
  if negb (bool_decide (enc_identity = authenticated_identity)) then
    raise (CredentialError (msg_invalid_identity enc_identity authenticated_identity))
  else
    let* frontend_sec_name :=
      try_except
        (lift (decrypt_str sym_key_obj classad "GlideinEncParamSecurityName"))
        any_exn
        (λ _, log_write (LogException msg_name_undecryptable) ;;;
              raise (CredentialError msg_name_undecryptable)) in
    match get_identity frontend_descript frontend_sec_name with
    | None => raise (CredentialError (msg_not_authorized frontend_sec_name))
    | Some expected_identity =>
        if negb (bool_decide (authenticated_identity = expected_identity)) then
          raise (CredentialError msg_identity_mismatch)
        else ret (sym_key_obj, frontend_sec_name)
    end.

(* ===================================================================== *)
(** ** Global credential processor (lines 532-574) *)
(* ===================================================================== *)

Definition msg_no_public_key : string :=
  "Factory has no public key.  We cannot decrypt.".
Definition msg_globals : string :=
  "Error occurred processing the globals classads.".
Definition msg_no_mapping (cred_id client security_class : string) : string :=
  "Cannot find a mapping for credential " ++ cred_id ++ " of client " ++ client
  ++ ". Skipping it. The security" ++ "class field is set to " ++ security_class
  ++ " in the frontend. Please, verify the glideinWMS.xml and"
  ++ " make sure it is mapped correctly".

Definition class_prefix : string := "GlideinEncParamSecurityClass".

(** [key[n:]] *)
Fixpoint str_drop (n : nat) (s : string) : string :=
  match n, s with
  | O, _ => s
  | S n', String _ s' => str_drop n' s'
  | S _, EmptyString => EmptyString
  end.

(** [list(filter(re.compile("^GlideinEncParamSecurityClass").match, keys))] *)
Definition mkeys (classad : classad_t) : list string :=
  List.filter (String.prefix class_prefix) (dict_keys classad).

(** One turn of the loop over the embedded credential ids. *)
Definition process_key (classad : classad_t) (frontend_descript : FrontendDescript)
    (sym_key_obj : SymKeyObj) (frontend_sec_name request_clientname : string)
    (key : string) : M unit :=
  let prefix_len := String.length class_prefix in
  let cred_id := str_drop prefix_len key in
  let* cred_data :=
    lift (let? c := getitem classad ("GlideinEncParam" ++ cred_id) in
          decrypt_hex sym_key_obj c) in
  let* security_class := lift (decrypt_str sym_key_obj classad key) in
  match get_username frontend_descript frontend_sec_name security_class with
  | None =>
      let* client := lift (getitem classad "ClientName") in
      log_write (LogError (msg_no_mapping cred_id client security_class))
      (* continue *)
  | Some username =>
      log_write (LogDebug ("updating credential for " ++ username)) ;;;
      update_credential_file username cred_id (VBytes cred_data) request_clientname ;;;
      ret tt
  end.

(** The body of the [try] block. *)
Definition process_global_body (classad : classad_t)
    (frontend_descript : FrontendDescript) (pub_key_obj : PubKeyObj) : M unit :=
  let* (sym_key_obj, frontend_sec_name) :=
    validate_frontend classad frontend_descript pub_key_obj in
  let* request_clientname := lift (getitem classad "ClientName") in
  for_each (mkeys classad)
    (process_key classad frontend_descript sym_key_obj frontend_sec_name
                 request_clientname).

Definition process_global (classad : classad_t)
    (glidein_descript : GlideinDescript) (frontend_descript : FrontendDescript)
    : M unit :=
  match data_PubKeyObj glidein_descript with
  | None => raise (CredentialError msg_no_public_key)
  | Some pub_key_obj =>
      try_except (process_global_body classad frontend_descript pub_key_obj)
        any_exn
        (λ _, log_write (LogDebug "classad, frontend_descript, pub_key_obj") ;;;
              log_write (LogException msg_globals) ;;;
              raise (CredentialError msg_globals))
  end.

(** The data and the security class of the embedded id of [key] decrypt
    to [cred_data] and [security_class]. *)
Definition decrypts_to (classad : classad_t) (sym_key_obj : SymKeyObj)
    (key : string) (cred_data : bytes) (security_class : string) : Prop :=
  (let? c := getitem classad
               ("GlideinEncParam" ++ str_drop (String.length class_prefix) key) in
   decrypt_hex sym_key_obj c) = Ok cred_data
  ∧ decrypt_str sym_key_obj classad key = Ok security_class.

End Store.

(* ===================================================================== *)
(** ** Credentials and SubmitCredentials (lines 64-69, 205-243) *)
(* ===================================================================== *)

(** [Credentials(dict)]: [__setitem__] refuses a value that is not a
    [Credential]. *)
Abbreviation Credentials := (gmap string pyval).

Definition Credentials_setitem (k : string) (v : pyval) (d : Credentials)
    : result Credentials :=
  if negb (isinstance_Credential v) then Err (TypeError "Value must be a credential")
  else Ok (<[k := v]> d).

Module SubmitCredentials.

Record t := Build {
  username : string;
  security_class : string;
  id : option string;          (* id used for tracking the submit credentials *)
  cred_dir : string;           (* location of credentials *)
  security_credentials : Credentials;
  identity_credentials : Credentials
}.

(** [__init__] *)
Definition init (username security_class : string) : t :=
  Build username security_class None EmptyString ∅ ∅.

Definition set_security_credentials (self : t) (d : Credentials) : t :=
  Build (username self) (security_class self) (id self) (cred_dir self)
        d (identity_credentials self).

Definition set_identity_credentials (self : t) (d : Credentials) : t :=
  Build (username self) (security_class self) (id self) (cred_dir self)
        (security_credentials self) d.

(** Each method returns the updated object and the returned boolean. *)
Definition add_security_credential {lib : FactoryLib} (self : t)
    (cred_type filename prefix : string) : M (t * bool) :=
  if negb (is_str_safe filename) then ret (self, false)
  else
    let cred_fname := os_path_join (cred_dir self) (prefix ++ filename) in
    let* isfile := os_path_isfile cred_fname in
    if negb isfile then ret (self, false)
    else
      let* d := lift (Credentials_setitem cred_type (VStr cred_fname)
                        (security_credentials self)) in
      ret (set_security_credentials self d, true).

Definition add_factory_credential (self : t) (cred_type absfname : string)
    : M (t * bool) :=
  let* isfile := os_path_isfile absfname in
  if negb isfile then ret (self, false)
  else
    let* d := lift (Credentials_setitem cred_type (VStr absfname)
                      (security_credentials self)) in
    ret (set_security_credentials self d, true).

Definition add_identity_credential (self : t) (cred_type : string)
    (cred_str : pyval) : M (t * bool) :=
  let* d := lift (Credentials_setitem cred_type cred_str
                    (identity_credentials self)) in
  ret (set_identity_credentials self d, true).

End SubmitCredentials.

(* ===================================================================== *)
(** ** Builtins used by the factory and the descript readers *)
(* ===================================================================== *)

(** Keyword arguments of a call: name to value. *)
Abbreviation kwargs := (gmap string field).

(** Builtins whose result is taken as given. *)
Class PyBuiltins := {
  (* eval of a descript value: a dict of str to str in insertion order,
     or whatever evaluating the text raises *)
  py_eval : string → result classad_t;
  (* repr of a dict of keyword arguments *)
  repr_kwargs : kwargs → string;
  (* str.strip() *)
  str_strip : string → string
}.

(* ===================================================================== *)
(** ** Credential factory (lines 246-258) *)
(* ===================================================================== *)

(** A subclass of [Credential] as [create_cred] sees it: the name its
    [get_cred_type] returns, the parameters of its [__init__] (none has
    a default) and the object [__init__] builds. *)
Record cred_class := CredClass {
  cls_cred_type : string;
  cls_params : list string;
  cls_init : kwargs → Credential
}.

(** The argument passed under [name]. *)
Definition kwarg (krx : kwargs) (name : string) : field := default None (krx !! name).

Definition common_params : list string :=
  [ "sec_class"; "trust_dom"; "vm_id"; "vm_type"; "pilot_proxy";
    "creation_script"; "update_freq" ].

Definition common_of (krx : kwargs) : common_fields :=
  CommonFields (kwarg krx "sec_class") (kwarg krx "trust_dom")
               (kwarg krx "vm_id") (kwarg krx "vm_type")
               (kwarg krx "pilot_proxy") (kwarg krx "creation_script")
               (kwarg krx "update_freq").

(** [Credential.__subclasses__()], in the order of definition. *)
Definition Credential_subclasses : list cred_class :=
  [ CredClass "scitoken" ("cred_loc" :: common_params)
      (λ krx, scitoken (kwarg krx "cred_loc") (common_of krx));
    CredClass "grid_proxy" ("cred_loc" :: common_params)
      (λ krx, grid_proxy (kwarg krx "cred_loc") (common_of krx));
    CredClass "cert_pair" ("cert" :: "certkey" :: common_params)
      (λ krx, cert_pair (kwarg krx "cert") (kwarg krx "certkey") (common_of krx));
    CredClass "key_pair" ("pub_key" :: "priv_key" :: common_params ++ ["rem_user"])
      (λ krx, key_pair (kwarg krx "pub_key") (kwarg krx "priv_key")
                       (common_of krx) (kwarg krx "rem_user"));
    CredClass "username_password" ("username" :: "password" :: common_params)
      (λ krx, username_password (kwarg krx "username") (kwarg krx "password")
                                (common_of krx));
    (* rem_user is a parameter of auth_file.__init__ that it does not store *)
    CredClass "auth_file" ("file" :: common_params ++ ["rem_user"])
      (λ krx, auth_file (kwarg krx "file") (common_of krx)) ]%list.

(** Calling the class with keyword arguments: every parameter must be
    passed, and nothing else. *)
Definition call_class (cls : cred_class) (krx : kwargs) : result Credential :=
  if bool_decide (dom krx = list_to_set (cls_params cls)) then Ok (cls_init cls krx)
  else Err (TypeError "__init__() got missing or unexpected arguments").

Definition create_cred {bi : PyBuiltins} (cred_type : string) (krx : kwargs)
    : result Credential :=
  let class_dict : gmap string cred_class :=
    foldl (λ d i, <[cls_cred_type i := i]> d) ∅ Credential_subclasses in
  match class_dict !! cred_type with
  | None => Err (CredentialError ("Unknown Credential type: " ++ cred_type))
  | Some cls =>
      match call_class cls krx with
      | Err (TypeError _) =>
          Err (CredentialError ("Incorrect parameters for credential "
                                  ++ cred_type ++ ": " ++ repr_kwargs krx))
      | r => r
      end
  end.

(** The fields every credential has. *)
Definition cred_common (c : Credential) : common_fields :=
  match c with
  | scitoken _ f | grid_proxy _ f | cert_pair _ _ f | key_pair _ _ f _
  | username_password _ _ f | auth_file _ f => f
  end.

(* ===================================================================== *)
(** ** Local SciToken lookup (lines 261-299) *)
(* ===================================================================== *)

(** An [ElementMergedDescript]: the entry-level and the frontend-level
    descript data. *)
Record ElementMergedDescript := {
  element_data : gmap string string;
  frontend_data : gmap string string
}.

(** Truth value of the result of [dict.get]: [None] and the empty string
    are false. *)
Definition py_truthy (o : option string) : bool :=
  match o with
  | Some s => negb (bool_decide (s = EmptyString))
  | None => false
  end.

(** [data.get(key)] at the entry level, else at the frontend level. *)
Definition descript_get (elementDescript : ElementMergedDescript) (key : string)
    : option string :=
  let v := element_data elementDescript !! key in
  if negb (py_truthy v) then frontend_data elementDescript !! key else v.

(** [os.path.exists(p)]; the empty path never exists. *)
Definition os_path_exists (p : string) : M bool :=
  λ w, (w, Ok (negb (bool_decide (p = EmptyString))
               && bool_decide (is_Some (fs w !! p)))).

(** The loop of [get_scitoken] over the file names of [cred_type_map]:
    the last file of type [scitoken] in the trust domain wins. *)
Fixpoint scitoken_path (cfnames : list string)
    (cred_type_map trust_domain_map : classad_t) (trust_domain : string)
    (scitoken_fullpath : string) : result string :=
  match cfnames with
  | [] => Ok scitoken_fullpath
  | cfname :: rest =>
      let? cred_type := getitem cred_type_map cfname in
      if bool_decide (cred_type = "scitoken") then
        let? domain := getitem trust_domain_map cfname in
        scitoken_path rest cred_type_map trust_domain_map trust_domain
          (if bool_decide (domain = trust_domain) then cfname
           else scitoken_fullpath)
      else
        scitoken_path rest cred_type_map trust_domain_map trust_domain
          scitoken_fullpath
  end.

(** Reading a text file line by line into one string. *)
Definition read_all {rt : PyRuntime} (fbuf : pyval) : M string :=
  let* v := method_read fbuf in
  match v with
  | VStr s => ret s
  | _ => raise (TypeError "can only concatenate str")
  end.

Definition get_scitoken {rt : PyRuntime} {bi : PyBuiltins}
    (elementDescript : ElementMergedDescript) (trust_domain : string)
    : M (option string) :=
  let cred_type_data := descript_get elementDescript "ProxyTypes" in
  let trust_domain_data := descript_get elementDescript "ProxyTrustDomains" in
  let* scitoken_fullpath :=
    match trust_domain_data, cred_type_data with
    | Some tdd, Some ctd =>
        if py_truthy trust_domain_data && py_truthy cred_type_data then
          lift (let? cred_type_map := py_eval ctd in
                let? trust_domain_map := py_eval tdd in
                scitoken_path (dict_keys cred_type_map) cred_type_map
                              trust_domain_map trust_domain EmptyString)
        else ret EmptyString
    | _, _ => ret EmptyString
    end in
  let* found := os_path_exists scitoken_fullpath in
  if found then
    try_except
      (log_write (LogDebug ("found scitoken " ++ scitoken_fullpath)) ;;;
       let* stkn := with_as (builtin_open scitoken_fullpath) read_all in
       ret (Some (str_strip stkn)))
      any_exn
      (* the message carries the text of the exception *)
      (λ err, log_write (LogException "failed to read scitoken") ;;; ret None)
  else ret None.

(* ===================================================================== *)
(** ** Credential generator plugins (lines 34, 302-363) *)
(* ===================================================================== *)

(** The [entry] dictionary handed to a plugin. *)
Record plugin_entry := PluginEntry {
  entry_name : option string;
  entry_gatekeeper : option string;
  entry_factory : option string
}.

(** What loading or calling a plugin raises: [ModuleNotFoundError] has a
    handler of its own, everything else goes to [except Exception]. *)
Inductive plugin_exn : Type :=
| PModuleNotFoundError
| PException (e : exn).

Inductive presult (A : Type) : Type :=
| POk (a : A)
| PErr (e : plugin_exn).
Arguments POk {A} a.
Arguments PErr {A} e.

(** A plugin module: [get_credential(log, group, entry, trust_domain)]
    returns a token and its remaining lifetime. *)
Record Plugin := {
  get_credential : string → plugin_entry → string → presult (string * Z)
}.

(** [importlib.import_module] over the plugin directory. *)
Class PluginSource := {
  import_module : string → presult Plugin
}.

(** The module-level dictionary [plugins]. *)
Abbreviation plugin_cache := (gmap string Plugin).

(** A glidein element; [attrs] is [None] when the key is missing. *)
Record GlideinEl := {
  attrs : option (gmap string string)
}.

Definition entry_of (a : gmap string string) : plugin_entry :=
  PluginEntry (a !! "EntryName") (a !! "GLIDEIN_Gatekeeper")
              (a !! "AuthenticatedIdentity").

(** The body of the [try]: load the plugin unless it is cached, build the
    entry, ask for a credential. *)
Definition run_generator {ps : PluginSource} (generator group_name : string)
    (glidein_el : GlideinEl) (trust_domain : string) (plugins : plugin_cache)
    : plugin_cache * presult string :=
  let loaded :=
    match plugins !! generator with
    | Some p => POk (plugins, p)
    | None =>
        match import_module generator with
        | POk p => POk (<[generator := p]> plugins, p)
        | PErr e => PErr e
        end
    end in
  match loaded with
  | PErr e => (plugins, PErr e)
  | POk (plugins', p) =>
      match attrs glidein_el with
      | None => (plugins', PErr (PException (KeyError "attrs")))
      | Some a =>
          match get_credential p group_name (entry_of a) trust_domain with
          | POk (stkn, _) => (plugins', POk stkn)
          | PErr e => (plugins', PErr e)
          end
      end
  end.

Definition logged (e : log_entry) (w : world) : world := (log_write e w).1.

(** The loop over the file names of [generators_map]; the state is the
    plugin cache and the world. *)
Fixpoint generators_loop {ps : PluginSource} (cfnames : list string)
    (generators_map trust_domain_map : classad_t) (glidein_el : GlideinEl)
    (group_name trust_domain : string) (plugins : plugin_cache) (w : world)
    : (plugin_cache * world) * result (option string) :=
  match cfnames with
  | [] => ((plugins, w), Ok None)
  | cfname :: rest =>
      match getitem trust_domain_map cfname with
      | Err e => ((plugins, w), Err e)
      | Ok domain =>
          if bool_decide (domain = trust_domain) then
            match getitem generators_map cfname with
            | Err e => ((plugins, w), Err e)
            | Ok generator =>
                let w :=
                  logged (LogDebug ("found credential generator plugin "
                                      ++ generator)) w in
                match run_generator generator group_name glidein_el
                                    trust_domain plugins with
                | (plugins, POk stkn) => ((plugins, w), Ok (Some stkn))
                | (plugins, PErr PModuleNotFoundError) =>
                    generators_loop rest generators_map trust_domain_map
                      glidein_el group_name trust_domain plugins
                      (logged (LogWarning
                                 ("Failed to load credential generator plugin "
                                    ++ generator)) w)
                | (plugins, PErr (PException _)) =>
                    (* the message carries the text of the exception *)
                    generators_loop rest generators_map trust_domain_map
                      glidein_el group_name trust_domain plugins
                      (logged (LogWarning "Failed to generate credential") w)
                end
            end
          else
            generators_loop rest generators_map trust_domain_map glidein_el
              group_name trust_domain plugins w
      end
  end.

Definition generate_credential {bi : PyBuiltins} {ps : PluginSource}
    (elementDescript : ElementMergedDescript) (glidein_el : GlideinEl)
    (group_name trust_domain : string) (plugins : plugin_cache) (w : world)
    : (plugin_cache * world) * result (option string) :=
  let generators := descript_get elementDescript "CredentialGenerators" in
  let trust_domain_data := descript_get elementDescript "ProxyTrustDomains" in
  match trust_domain_data, generators with
  | Some tdd, Some gens =>
      if py_truthy trust_domain_data && py_truthy generators then
        match py_eval gens with
        | Err e => ((plugins, w), Err e)
        | Ok generators_map =>
            match py_eval tdd with
            | Err e => ((plugins, w), Err e)
            | Ok trust_domain_map =>
                generators_loop (dict_keys generators_map) generators_map
                  trust_domain_map glidein_el group_name trust_domain plugins w
            end
        end
      else ((plugins, w), Ok None)
  | _, _ => ((plugins, w), Ok None)
  end.

(* ===================================================================== *)
(** ** Predicates of the statements below *)
(* ===================================================================== *)

(** [f'] holds no content that [f] did not hold: a regular file of [f']
    is a file of [f], or is empty. *)
Definition no_new_content (f f' : filesystem) : Prop :=
  ∀ q mode d, f' !! q = Some (File mode d) → f !! q = Some (File mode d) ∨ d = [].

(** The three paths [safe_update fname] can touch, and how: the backup
    may go away, the file and its [".new"] sibling may appear, empty. *)
Definition touched_by_safe_update (fname : string) (f f' : filesystem) : Prop :=
  ∀ q, f' !! q = f !! q
       ∨ (q = fname ++ ".old" ∧ f' !! q = None)
       ∨ ((q = fname ∨ q = fname ++ ".new")
          ∧ f !! q = None ∧ f' !! q = Some (File mode_0o600 [])).

Definition is_LogError (e : log_entry) : Prop := ∃ msg, e = LogError msg.

(** A file name of type [scitoken] in the trust domain. *)
Definition scitoken_for (cred_type_map trust_domain_map : classad_t)
    (trust_domain cfname : string) : Prop :=
  dict_get cred_type_map cfname = Some "scitoken"
  ∧ dict_get trust_domain_map cfname = Some trust_domain.

(** Every file name has a type, and a trust domain when the type is
    [scitoken]: the loop meets no [KeyError]. *)
Definition well_keyed (cfnames : list string) (ctm tdm : classad_t) : Prop :=
  ∀ c, c ∈ cfnames →
    ∃ ty, dict_get ctm c = Some ty
          ∧ (ty = "scitoken" → is_Some (dict_get tdm c)).

(** The path [get_scitoken] looks at. *)
Definition scitoken_lookup {bi : PyBuiltins}
    (elementDescript : ElementMergedDescript) (trust_domain : string)
    : result string :=
  match descript_get elementDescript "ProxyTrustDomains",
        descript_get elementDescript "ProxyTypes" with
  | Some tdd, Some ctd =>
      if py_truthy (Some tdd) && py_truthy (Some ctd) then
        let? cred_type_map := py_eval ctd in
        let? trust_domain_map := py_eval tdd in
        scitoken_path (dict_keys cred_type_map) cred_type_map
                      trust_domain_map trust_domain EmptyString
      else Ok EmptyString
  | _, _ => Ok EmptyString
  end.

(** Reading the token file under the [try] of [get_scitoken]. *)
Definition read_token {rt : PyRuntime} {bi : PyBuiltins} (path : string)
    : M (option string) :=
  try_except
    (log_write (LogDebug ("found scitoken " ++ path)) ;;;
     let* stkn := with_as (builtin_open path) read_all in
     ret (Some (str_strip stkn)))
    any_exn
    (λ err, log_write (LogException "failed to read scitoken") ;;; ret None).

(** A plugin of the cache after a call was there before or is what
    [import_module] gives for its name. *)
Definition cache_grown {ps : PluginSource} (plugins plugins' : plugin_cache) : Prop :=
  plugins ⊆ plugins'
  ∧ ∀ g p, plugins' !! g = Some p → plugins !! g = Some p ∨ import_module g = POk p.

(** The token was produced by the plugin of a generator of the trust
    domain. *)
Definition generated_by (generators_map trust_domain_map : classad_t)
    (glidein_el : GlideinEl) (group_name trust_domain : string)
    (plugins' : plugin_cache) (token : string) : Prop :=
  ∃ cfname generator p a lifetime,
    dict_get generators_map cfname = Some generator
    ∧ dict_get trust_domain_map cfname = Some trust_domain
    ∧ plugins' !! generator = Some p
    ∧ attrs glidein_el = Some a
    ∧ get_credential p group_name (entry_of a) trust_domain
      = POk (token, lifetime).

(* ===================================================================== *)
(** ** A sample environment for concrete runs *)
(* ===================================================================== *)

Module Sample.

(** RFC 4648 base64. *)
Definition b64_alphabet : bytes :=
  b_ "ABCDEFGHIJKLMNOPQRSTUVWXYZabcdefghijklmnopqrstuvwxyz0123456789+/".

Definition b64_char (n : N) : byte := nth (N.to_nat n) b64_alphabet x3d.

Fixpoint base64 (l : bytes) : bytes :=
  match l with
  | [] => []
  | [a] =>
      let n := Byte.to_N a in
      [b64_char (n / 4); b64_char ((n mod 4) * 16); x3d; x3d]
  | [a; b] =>
      let n := Byte.to_N a in
      let m := Byte.to_N b in
      [b64_char (n / 4); b64_char ((n mod 4) * 16 + m / 16);
       b64_char ((m mod 16) * 4); x3d]
  | a :: b :: c :: t =>
      let n := Byte.to_N a in
      let m := Byte.to_N b in
      let k := Byte.to_N c in
      b64_char (n / 4) :: b64_char ((n mod 4) * 16 + m / 16)
        :: b64_char ((m mod 16) * 4 + k / 64) :: b64_char (k mod 64) :: base64 t
  end%N.

Definition byte_of (n : N) : byte := default x00 (Byte.of_N (n mod 256)).

Definition le16 (n : N) : bytes := [byte_of n; byte_of (n / 256)]%N.
Definition le32 (n : N) : bytes :=
  [byte_of n; byte_of (n / 256); byte_of (n / 65536); byte_of (n / 16777216)]%N.

(** CRC-32 (IEEE 802.3), bit by bit. *)
Definition crc_step (crc : N) : N :=
  (if N.odd crc then N.lxor (N.shiftr crc 1) 0xEDB88320 else N.shiftr crc 1)%N.
Definition crc_byte (crc : N) (b : byte) : N :=
  Nat.iter 8 crc_step (N.lxor crc (Byte.to_N b)).
Definition crc32 (l : bytes) : N :=
  (N.lxor (fold_left crc_byte l 0xFFFFFFFF) 0xFFFFFFFF)%N.

(** A deflate stream of stored blocks. *)
Fixpoint stored_blocks (fuel : nat) (l : bytes) : bytes :=
  match fuel with
  | O => [x01; x00; x00; xff; xff]
  | S fuel' =>
      let chunk := take (N.to_nat 65535) l in
      let rest := drop (N.to_nat 65535) l in
      let n := N.of_nat (length chunk) in
      match rest with
      | [] => x01 :: le16 n ++ le16 (65535 - n)%N ++ chunk
      | _ => x00 :: le16 n ++ le16 (65535 - n)%N ++ chunk ++ stored_blocks fuel' rest
      end
  end.

Definition gzip_member_body (l : bytes) : bytes :=
  stored_blocks (length l) l ++ le32 (crc32 l) ++ le32 (N.of_nat (length l)).

(** Universal newlines: [\r\n] and [\r] read as [\n]. *)
Fixpoint universal_newlines (s : string) : string :=
  match s with
  | EmptyString => EmptyString
  | String c s' =>
      if bool_decide (c = "013"%char) then
        match s' with
        | String c' s'' =>
            if bool_decide (c' = "010"%char) then String "010" (universal_newlines s'')
            else String "010" (universal_newlines s')
        | EmptyString => String "010" EmptyString
        end
      else String c (universal_newlines s')
  end.

(** A UTF-8 locale; gzip with modification time 0. *)
#[export] Instance runtime : PyRuntime := {
  text_decode b := let? s := decode_utf8 b in Ok (universal_newlines s);
  gzip_header := [x1f; x8b; x08; x00; x00; x00; x00; x00; x02; xff];
  gzip_body := gzip_member_body;
  b64encode_bytes := base64
}.

Definition safe_char (c : ascii) : bool :=
  let n := nat_of_ascii c in
  ((48 <=? n)%nat && (n <=? 57)%nat) || ((65 <=? n)%nat && (n <=? 90)%nat)
  || ((97 <=? n)%nat && (n <=? 122)%nat)
  || bool_decide (c ∈ ["."; "_"; "-"; "@"]%char).

Fixpoint all_chars (p : ascii → bool) (s : string) : bool :=
  match s with
  | EmptyString => true
  | String c s' => p c && all_chars p s'
  end.

(** The ids of the runs below are letters and digits, which escaping
    leaves alone. *)
#[export] Instance factory_lib : FactoryLib := {
  is_str_safe := all_chars safe_char;
  escapeParam s := s;
  get_client_proxies_dir u := "/var/lib/gwms-factory/client-proxies/user_" ++ u
}.

(** A toy cipher: the ciphertext is the plaintext behind the key's tag. *)
Definition sym_key : SymKeyObj := {|
  decrypt_hex c :=
    if String.prefix "k1:" c then Ok (b_ (str_drop 3 c))
    else Err (ValueError "malformed ciphertext")
|}.

Definition pub_key : PubKeyObj := {|
  extract_sym_key code :=
    if bool_decide (code = "code-k1") then Ok sym_key
    else Err (ValueError "cannot extract the symmetric key")
|}.

Definition glidein_descript : GlideinDescript := {| data_PubKeyObj := Some pub_key |}.

Definition frontend_descript : FrontendDescript := {|
  get_identity name :=
    if bool_decide (name = "frontend1") then Some "fe1@cms.example" else None;
  get_username name class :=
    if bool_decide (name = "frontend1") && bool_decide (class = "classA")
    then Some "u1" else None
|}.

(** A request of [frontend1] with the given extra fields. *)
Definition request (fields : classad_t) : classad_t :=
  [ ("ClientName", "client1");
    ("AuthenticatedIdentity", "fe1@cms.example");
    ("ReqEncKeyCode", "code-k1");
    ("ReqEncIdentity", "k1:fe1@cms.example");
    ("GlideinEncParamSecurityName", "k1:frontend1") ] ++ fields.

(** Two embedded ids: [X] has no user mapping, [Y] maps to [u1]. *)
Definition two_ids : classad_t :=
  request [ ("GlideinEncParamSecurityClassX", "k1:classZ");
            ("GlideinEncParamX", "k1:proxy-x");
            ("GlideinEncParamSecurityClassY", "k1:classA");
            ("GlideinEncParamY", "k1:proxy-y") ].

(** One embedded id, mapped to [u1]. *)
Definition one_id : classad_t :=
  request [ ("GlideinEncParamSecurityClassY", "k1:classA");
            ("GlideinEncParamY", "k1:proxy-y") ].

(** The same request claiming another identity than the authenticated one. *)
Definition forged : classad_t :=
  [ ("ClientName", "client1");
    ("AuthenticatedIdentity", "fe1@cms.example");
    ("ReqEncKeyCode", "code-k1");
    ("ReqEncIdentity", "k1:mallory@evil.example");
    ("GlideinEncParamSecurityName", "k1:frontend1");
    ("GlideinEncParamSecurityClassY", "k1:classA");
    ("GlideinEncParamY", "k1:proxy-y") ].

Definition path_Y : string :=
  "/var/lib/gwms-factory/client-proxies/user_u1/credential_client1_Y".

Definition empty_world : world := World ∅ [] 0.

Definition world_with (f : filesystem) : world := World f [] 0.

(** The credential file of [Y] exists and holds [content]. *)
Definition world_Y (content : bytes) : world :=
  world_with {[ path_Y := File mode_0o600 content ]}.

(** A directory sits where the credential file of [Y] belongs. *)
Definition world_dir_at_Y : world := world_with {[ path_Y := Dir ]}.

End Sample.

(* ===================================================================== *)
(** ** A sample environment for the factory and the descript readers *)
(* ===================================================================== *)

Module SampleDescript.

(** Whitespace of the ASCII range, which is all the runs below use. *)
Definition is_space (c : ascii) : bool :=
  let n := nat_of_ascii c in
  ((9 <=? n)%nat && (n <=? 13)%nat) || ((28 <=? n)%nat && (n <=? 32)%nat).

Fixpoint lstrip (s : string) : string :=
  match s with
  | EmptyString => EmptyString
  | String c s' => if is_space c then lstrip s' else s
  end.

Definition strip (s : string) : string :=
  String.rev (lstrip (String.rev (lstrip s))).

Definition repr_field (v : field) : string :=
  match v with
  | Some s => "'" ++ s ++ "'"
  | None => "None"
  end.

Definition types_text : string :=
  "{'/etc/gwms/a.token': 'scitoken', '/etc/gwms/proxy.pem': 'grid_proxy', '/etc/gwms/b.token': 'scitoken'}".
Definition domains_text : string :=
  "{'/etc/gwms/a.token': 'OSG', '/etc/gwms/proxy.pem': 'OSG', '/etc/gwms/b.token': 'OSG'}".
Definition short_domains_text : string :=
  "{'/etc/gwms/a.token': 'OSG', '/etc/gwms/proxy.pem': 'OSG'}".
Definition generators_text : string :=
  "{'/etc/gwms/a.token': 'broken_gen', '/etc/gwms/b.token': 'tokgen'}".

(** The texts above evaluate to their dictionaries; any other text is
    taken to raise. *)
#[export] Instance builtins : PyBuiltins := {
  py_eval text :=
    if bool_decide (text = types_text) then
      Ok [ ("/etc/gwms/a.token", "scitoken"); ("/etc/gwms/proxy.pem", "grid_proxy");
           ("/etc/gwms/b.token", "scitoken") ]
    else if bool_decide (text = domains_text) then
      Ok [ ("/etc/gwms/a.token", "OSG"); ("/etc/gwms/proxy.pem", "OSG");
           ("/etc/gwms/b.token", "OSG") ]
    else if bool_decide (text = short_domains_text) then
      Ok [ ("/etc/gwms/a.token", "OSG"); ("/etc/gwms/proxy.pem", "OSG") ]
    else if bool_decide (text = generators_text) then
      Ok [ ("/etc/gwms/a.token", "broken_gen"); ("/etc/gwms/b.token", "tokgen") ]
    else Err (ValueError "cannot evaluate");
  repr_kwargs krx :=
    "{" ++ String.concat ", "
             ((λ kv : string * field, "'" ++ kv.1 ++ "': " ++ repr_field kv.2)
                <$> map_to_list krx) ++ "}";
  str_strip := strip
}.

(** [tokgen] issues a token for the group, [broken_gen] raises, any
    other module is missing. *)
Definition tokgen : Plugin := {|
  get_credential group entry trust_domain := POk ("token-for-" ++ group, 3600%Z)
|}.

Definition broken_gen : Plugin := {|
  get_credential group entry trust_domain :=
    PErr (PException (ValueError "could not generate the token"))
|}.

#[export] Instance plugin_source : PluginSource := {
  import_module name :=
    if bool_decide (name = "tokgen") then POk tokgen
    else if bool_decide (name = "broken_gen") then POk broken_gen
    else PErr PModuleNotFoundError
}.

Definition descript (domains : string) : ElementMergedDescript := {|
  element_data := {[ "ProxyTypes" := types_text ]};
  frontend_data :=
    {[ "ProxyTrustDomains" := domains; "CredentialGenerators" := generators_text ]}
|}.

Definition bare_descript : ElementMergedDescript := {|
  element_data := {[ "ProxyTypes" := types_text ]};
  frontend_data := ∅
|}.

Definition glidein_el : GlideinEl := {|
  attrs := Some {[ "EntryName" := "entry1";
                   "GLIDEIN_Gatekeeper" := "ce.example.org" ]}
|}.

(** Both token files are there; the second one ends in a newline. *)
Definition token_world : world :=
  World {[ "/etc/gwms/a.token" := File mode_0o600 (b_ "tok-a");
           "/etc/gwms/b.token" :=
             File mode_0o600 (b_ (" tok-b" ++ String "010" EmptyString)) ]} [] 0.

(** The arguments of a [grid_proxy]. *)
Definition proxy_kwargs : kwargs :=
  {[ "cred_loc" := Some "/etc/gwms/proxy.pem"; "sec_class" := Some "classA";
     "trust_dom" := Some "OSG"; "vm_id" := None; "vm_type" := None;
     "pilot_proxy" := None; "creation_script" := None;
     "update_freq" := Some "3600" ]}.

(** The arguments of an [auth_file], [rem_user] apart. *)
Definition auth_kwargs : kwargs :=
  {[ "file" := Some "/etc/gwms/auth"; "sec_class" := Some "classA";
     "trust_dom" := Some "OSG"; "vm_id" := None; "vm_type" := None;
     "pilot_proxy" := None; "creation_script" := None;
     "update_freq" := Some "3600" ]}.

End SampleDescript.

(* ===================================================================== *)
(** * Properties *)
(* ===================================================================== *)

(** ** The monad *)

Lemma fs_preserving_ret {A} (a : A) : fs_preserving (ret a).
Proof. by intros w. Qed.

Lemma fs_preserving_raise {A} e : fs_preserving (@raise A e).
Proof. by intros w. Qed.

Lemma fs_preserving_lift {A} (r : result A) : fs_preserving (lift r).
Proof. by intros w. Qed.

Lemma fs_preserving_log e : fs_preserving (log_write e).
Proof. by intros w. Qed.

Lemma fs_preserving_bind {A B} (m : M A) (k : A → M B) :
  fs_preserving m → (∀ a, fs_preserving (k a)) → fs_preserving (bind m k).
Proof.
  intros Hm Hk w. unfold bind. specialize (Hm w).
  destruct (m w) as [w' [a|e]]; simpl in *; [|done].
  by rewrite Hk.
Qed.

Lemma fs_preserving_try {A} (m : M A) handled (h : exn → M A) :
  fs_preserving m → (∀ e, fs_preserving (h e)) →
  fs_preserving (try_except m handled h).
Proof.
  intros Hm Hh w. unfold try_except. specialize (Hm w).
  destruct (m w) as [w' [a|e]]; simpl in *; [done|].
  destruct (handled e); [|done]. by rewrite Hh.
Qed.

Create HintDb fs_pres.
#[export] Hint Resolve fs_preserving_ret fs_preserving_raise fs_preserving_lift
  fs_preserving_log : fs_pres.

Ltac fs_pres :=
  repeat match goal with
    | |- fs_preserving (bind _ _) => apply fs_preserving_bind
    | |- fs_preserving (try_except _ _ _) => apply fs_preserving_try
    | |- fs_preserving (if ?b then _ else _) => destruct b
    | |- fs_preserving (match ?x with _ => _ end) => destruct x
    | |- fs_preserving _ => solve [eauto with fs_pres]
    | |- ∀ _, _ => intro
    end.

(** A bare [except:] that logs and raises turns every exception of the
    body into the raised one. *)
Lemma try_except_any_err {A} (body : M A) (h : exn → M A) w w' e :
  body w = (w', Err e) → try_except body any_exn h w = h e w'.
Proof. intros Hb. unfold try_except. by rewrite Hb. Qed.

Lemma for_each_app {A} (l1 l2 : list A) (body : A → M unit) w :
  for_each (l1 ++ l2) body w = (for_each l1 body ;;; for_each l2 body) w.
Proof.
  revert w. induction l1 as [|x l1 IH]; intros w; cbn [for_each app].
  - done.
  - unfold bind in *. destruct (body x w) as [w' [[]|e]]; [|done]. apply IH.
Qed.

(** A loop whose body raises on one of the elements raises. *)
Lemma for_each_raises {A} (l : list A) (body : A → M unit) (x : A) :
  x ∈ l →
  (∀ w, ∃ w' e, body x w = (w', Err e)) →
  ∀ w, ∃ w' e, for_each l body w = (w', Err e).
Proof.
  intros Hin Hx. induction l as [|y l IH]; intros w.
  - by apply elem_of_nil in Hin.
  - cbn [for_each]. unfold bind.
    destruct (body y w) as [w1 [[]|e]] eqn:Hy; [|by exists w1, e].
    apply elem_of_cons in Hin as [->|Hin].
    + destruct (Hx w) as (w' & e & Hw). congruence.
    + by apply IH.
Qed.

(** ** Sets of keys *)

Lemma set_truthy_spec (X : gset string) : set_truthy X = true ↔ ∃ k, k ∈ X.
Proof.
  unfold set_truthy. rewrite bool_decide_eq_true. split.
  - apply set_choose_L.
  - intros [k Hk] ->. by apply not_elem_of_empty in Hk.
Qed.

Lemma supported_truthy (l : list string) m :
  m ∈ l → m ∈ SUPPORTED_AUTH_METHODS →
  set_truthy (list_to_set l ∩ list_to_set SUPPORTED_AUTH_METHODS) = true.
Proof.
  intros H1 H2. apply set_truthy_spec. exists m.
  apply elem_of_intersection. by rewrite !elem_of_list_to_set.
Qed.

Lemma in_list_true k l : k ∈ l → in_list k l = true.
Proof. apply bool_decide_eq_true_2. Qed.

Lemma in_list_false k l : k ∉ l → in_list k l = false.
Proof. apply bool_decide_eq_false_2. Qed.

Lemma in_params_spec k (p : gmap string string) : in_params k p = true ↔ k ∈ dom p.
Proof. apply bool_decide_eq_true. Qed.

(** The allow-list test passes exactly when every relevant key that was
    sent is a valid one. *)
Lemma allow_list_spec (params : gmap string string) (valid : gset string) :
  set_truthy (dom params ∩ (relevant_keys ∖ valid)) = false ↔
  ∀ k, k ∈ relevant_keys → k ∈ dom params → k ∈ valid.
Proof.
  rewrite <- not_true_iff_false, set_truthy_spec. split.
  - intros Hno k Hr Hd. destruct (decide (k ∈ valid)) as [|Hn]; [done|].
    exfalso. apply Hno. exists k.
    apply elem_of_intersection. split; [done|]. by apply elem_of_difference.
  - intros Hall (k & Hk). apply elem_of_intersection in Hk as [Hd Hk].
    apply elem_of_difference in Hk as [Hr Hn]. by apply Hn, Hall.
Qed.

Lemma allow_list_violated (params : gmap string string) (valid : gset string) k :
  k ∈ relevant_keys → k ∈ dom params → k ∉ valid →
  set_truthy (dom params ∩ (relevant_keys ∖ valid)) = true.
Proof.
  intros Hr Hd Hn. apply set_truthy_spec. exists k.
  apply elem_of_intersection. split; [done|]. by apply elem_of_difference.
Qed.

(** ** Credential-set validator *)

(** C3. With passthrough disabled, [scitoken] not declared and
    [grid_proxy] declared, [check_security_credentials] accepts the params
    whose only credential-relevant key is [SubmitProxy], raises
    [CredentialError] when [SubmitProxy] comes with another relevant key,
    and raises [CredentialError] when [SubmitProxy] is absent. *)
Theorem check_grid_proxy (auth_method : string) (params : gmap string string)
    (client_int_name entry_name : string) (w : world) :
  "scitoken" ∉ split_on "+" auth_method →
  "grid_proxy" ∈ split_on "+" auth_method →
  let run :=
    check_security_credentials auth_method params client_int_name entry_name
                               false w in
  ("SubmitProxy" ∈ dom params →
   (∀ k, k ∈ relevant_keys → k ∈ dom params → k = "SubmitProxy") →
   run = (w, Ok tt))
  ∧ ("SubmitProxy" ∈ dom params →
     (∃ k, k ∈ relevant_keys ∧ k ∈ dom params ∧ k ≠ "SubmitProxy") →
     run = (w, Err (CredentialError (msg_not_required client_int_name entry_name))))
  ∧ ("SubmitProxy" ∉ dom params →
     run = (w, Err (CredentialError (msg_no_proxy client_int_name entry_name)))).
Proof.
  intros Hsci Hgrid run. subst run. unfold check_security_credentials.
  rewrite (supported_truthy _ "grid_proxy")
    by (done || (unfold SUPPORTED_AUTH_METHODS; set_solver)).
  rewrite (in_list_false "scitoken"), (in_list_true "grid_proxy") by done.
  rewrite andb_false_r. cbn [negb orb].
  rewrite <- !in_params_spec.
  destruct (in_params "SubmitProxy" params); (split; [|split]); try done.
  - intros _ Honly.
    assert (set_truthy (dom params ∩ (relevant_keys ∖ valid_keys_grid_proxy))
            = false) as ->; [|done].
    apply allow_list_spec. intros k Hr Hd.
    rewrite (Honly k Hr Hd). by apply elem_of_singleton.
  - intros _ (k & Hr & Hd & Hne).
    rewrite (allow_list_violated _ _ k); try done.
    unfold valid_keys_grid_proxy. by rewrite elem_of_singleton.
Qed.

(** C4. With passthrough disabled and [cert_pair] declared (neither
    [scitoken] nor [grid_proxy]), [check_security_credentials] raises
    [CredentialError] when [GlideinProxy] is absent; accepts exactly the
    params holding [GlideinProxy], [PublicCert] and [PrivateCert] and no
    relevant key outside the allow-list (which also has [VMId] and
    [VMType]); raises when [PrivateCert] is missing; and raises when a
    relevant key outside the allow-list is present. *)
Theorem check_cert_pair (auth_method : string) (params : gmap string string)
    (client_int_name entry_name : string) (w : world) :
  "scitoken" ∉ split_on "+" auth_method →
  "grid_proxy" ∉ split_on "+" auth_method →
  "cert_pair" ∈ split_on "+" auth_method →
  let run :=
    check_security_credentials auth_method params client_int_name entry_name
                               false w in
  ("GlideinProxy" ∉ dom params →
   run = (w, Err (CredentialError (msg_no_glidein_proxy client_int_name))))
  ∧ (run = (w, Ok tt) ↔
     "GlideinProxy" ∈ dom params ∧ "PublicCert" ∈ dom params ∧
     "PrivateCert" ∈ dom params ∧
     ∀ k, k ∈ relevant_keys → k ∈ dom params → k ∈ valid_keys_cert_pair)
  ∧ ("GlideinProxy" ∈ dom params → "PrivateCert" ∉ dom params →
     run = (w, Err (CredentialError
                      (msg_missing "certificate pair" client_int_name entry_name))))
  ∧ ((∃ k, k ∈ relevant_keys ∧ k ∈ dom params ∧ k ∉ valid_keys_cert_pair) →
     ∃ msg, run = (w, Err (CredentialError msg))).
Proof.
  intros Hsci Hgrid Hcert run. subst run. unfold check_security_credentials.
  rewrite (supported_truthy _ "cert_pair")
    by (done || (unfold SUPPORTED_AUTH_METHODS; set_solver)).
  rewrite (in_list_false "scitoken"), (in_list_false "grid_proxy"),
    (in_list_true "cert_pair") by done.
  rewrite andb_false_r, andb_true_r. cbn [negb orb].
  unfold require_and_allow.
  rewrite <- !in_params_spec, <- allow_list_spec.
  destruct (in_params "GlideinProxy" params),
    (in_params "PublicCert" params), (in_params "PrivateCert" params);
    cbn [negb andb];
    destruct (set_truthy (dom params ∩ (relevant_keys ∖ valid_keys_cert_pair)))
      eqn:Ht;
    unfold raise, ret.
  all: repeat split; try done; try (intros; discriminate); eauto.
  all: try (intros (?&?&?&?); discriminate).
  all: intros (k & Hr & Hd & Hn); exfalso;
    apply not_true_iff_false in Ht; apply Ht;
    by apply (allow_list_violated _ _ k).
Qed.

(** ** Paths *)

Lemma app_suffix_inj (s t u : string) : s ++ t = s ++ u → t = u.
Proof. induction s as [|c s IH]; cbn; [done|]. intros [=]. auto. Qed.

Lemma app_nonempty_ne (s t : string) : t ≠ EmptyString → s ++ t ≠ s.
Proof.
  intros Ht Heq. apply Ht. clear Ht.
  induction s as [|c s IH]; cbn in *; [done|]. injection Heq as Heq. auto.
Qed.

Lemma old_ne fname : fname ++ ".old" ≠ fname.
Proof. by apply app_nonempty_ne. Qed.

Lemma new_ne fname : fname ++ ".new" ≠ fname.
Proof. by apply app_nonempty_ne. Qed.

Lemma old_new_ne fname : fname ++ ".old" ≠ fname ++ ".new".
Proof. intros Heq. by apply app_suffix_inj in Heq. Qed.

(** ** SubmitCredentials *)

(** C5 (code defect). The accessors do raise: both maps are
    [Credentials] containers, whose [__setitem__] raises [TypeError] for
    the path or string the accessors store.  [add_identity_credential]
    raises for every string; the other two return [False] when their
    check fails and raise [TypeError] when it passes, so they never
    return [True]. *)
Theorem submit_credentials_accessors_raise {lib : FactoryLib}
    (self : SubmitCredentials.t) (cred_type filename prefix absfname cred_str : string)
    (w : world) :
  SubmitCredentials.add_identity_credential self cred_type (VStr cred_str) w
    = (w, Err (TypeError "Value must be a credential"))
  ∧ SubmitCredentials.add_factory_credential self cred_type absfname w
    = (w, match fs w !! absfname with
          | Some (File _ _) => Err (TypeError "Value must be a credential")
          | _ => Ok (self, false)
          end)
  ∧ SubmitCredentials.add_security_credential self cred_type filename prefix w
    = (w, if is_str_safe filename then
            match fs w !! os_path_join (SubmitCredentials.cred_dir self)
                                       (prefix ++ filename) with
            | Some (File _ _) => Err (TypeError "Value must be a credential")
            | _ => Ok (self, false)
            end
          else Ok (self, false)).
Proof.
  split; [done|]. split.
  - unfold SubmitCredentials.add_factory_credential, os_path_isfile, bind.
    by destruct (fs w !! absfname) as [[]|].
  - unfold SubmitCredentials.add_security_credential, os_path_isfile, bind.
    destruct (is_str_safe filename); [|done]. cbn [negb].
    by destruct (fs w !! _) as [[]|].
Qed.

Section Pipeline.
Context {rt : PyRuntime} {lib : FactoryLib}.

(** ** Credential store *)

(** C8 (code defect). [compress_credential] returns nothing: the buffer
    is an [io.StringIO], and the header that [gzip.GzipFile] writes to it
    on construction is [bytes], so every call raises [TypeError]. *)
Theorem compress_credential_raises (credential_data : pyval) :
  compress_credential credential_data = Err (TypeError "string argument expected").
Proof. reflexivity. Qed.

(** Creating a file through [os.open] and entering the descriptor. *)
Lemma create_and_enter p data w :
  ∃ w' e, with_as (os_open_creat_wronly p mode_0o600)
                  (λ file, method_write file data) w = (w', Err e)
    ∧ (∀ q, q ≠ p → fs w' !! q = fs w !! q)
    ∧ (fs w !! p = None →
       e = enter_int_error ∧ fs w' !! p = Some (File mode_0o600 []))
    ∧ (is_Some (fs w !! p) → fs w' !! p = fs w !! p).
Proof.
  unfold with_as, bind, os_open_creat_wronly.
  destruct (fs w !! p) as [[m d|]|] eqn:Hp; cbn.
  - eexists _, _. split; [reflexivity|]. cbn. by rewrite Hp.
  - eexists _, _. split; [reflexivity|]. cbn. by rewrite Hp.
  - eexists _, _. split; [reflexivity|]. cbn. split; [|split].
    + intros q Hq. by rewrite lookup_insert_ne.
    + intros _. by rewrite lookup_insert_eq.
    + by intros [? ?].
Qed.

(** Removing the stale backup never aborts. *)
Lemma remove_old_tolerated p w :
  ∃ w', try_except (os_remove p) is_OSError (λ _, ret tt) w = (w', Ok tt)
    ∧ (∀ q, q ≠ p → fs w' !! q = fs w !! q).
Proof.
  unfold try_except, os_remove.
  destruct (fs w !! p) as [[m d|]|] eqn:Hp; cbn.
  - eexists. split; [reflexivity|]. intros q Hq. cbn. by rewrite lookup_delete_ne.
  - by eexists.
  - by eexists.
Qed.

(** [safe_update] on an existing regular file. *)
Lemma safe_update_existing fname mode X data w :
  fs w !! fname = Some (File mode X) →
  safe_update fname data w =
    match text_decode X with
    | Err e => (w, Err e)
    | Ok s =>
        if py_eq data (VStr s) then (w, Ok tt)
        else
          (try_except (os_remove (fname ++ ".old")) is_OSError (λ _, ret tt) ;;;
           with_as (os_open_creat_wronly (fname ++ ".new") mode_0o600)
                   (λ file, method_write file data) ;;;
           try_except (shutil_copy2 fname (fname ++ ".old")) is_OSError
                      (λ _, ret tt) ;;;
           os_rename (fname ++ ".new") fname) w
    end.
Proof.
  intros Hf. unfold safe_update, os_path_isfile, with_as, builtin_open.
  unfold bind at 1. rewrite Hf. cbn [negb].
  unfold bind at 1. unfold bind at 1. rewrite Hf.
  unfold bind at 1. cbn [context_enter ret method_read]. rewrite Hf.
  destruct (text_decode X) as [s|e]; [|done].
  destruct (py_eq data (VStr s)); done.
Qed.

(** The update branch stops at the [with] on the descriptor of the
    [".new"] file: the call raises, the file keeps its content. *)
Lemma safe_update_update_branch fname mode X s data w :
  fs w !! fname = Some (File mode X) →
  text_decode X = Ok s →
  py_eq data (VStr s) = false →
  ∃ w' e, safe_update fname data w = (w', Err e)
    ∧ fs w' !! fname = Some (File mode X)
    ∧ (fs w !! (fname ++ ".new") = None →
       e = enter_int_error
       ∧ fs w' !! (fname ++ ".new") = Some (File mode_0o600 [])).
Proof.
  intros Hf Hdec Hpy. rewrite (safe_update_existing _ _ _ _ _ Hf), Hdec, Hpy.
  destruct (remove_old_tolerated (fname ++ ".old") w) as (w1 & Hrm & Hother).
  unfold bind at 1. rewrite Hrm.
  destruct (create_and_enter (fname ++ ".new") data w1)
    as (w2 & e & Hcr & Hother2 & Hfresh & _).
  unfold bind at 1. rewrite Hcr.
  exists w2, e. split; [done|]. split.
  - rewrite Hother2, Hother; [done| |]; intros Heq; symmetry in Heq.
    + by apply old_ne in Heq.
    + by apply new_ne in Heq.
  - intros Hnew. apply Hfresh. rewrite Hother; [done|].
    intros Heq. symmetry in Heq. by apply old_new_ne in Heq.
Qed.

(** C6 (code defect). Writing to a file the bytes it already holds is
    not a no-op: the file is read in text mode, the [bytes] never equal
    the [str] read, so the update branch runs, creates the [".new"]
    sibling and raises. *)
Theorem safe_update_same_bytes_not_noop (fname : string) (mode : N) (X : bytes)
    (s : string) (w : world) :
  fs w !! fname = Some (File mode X) →
  text_decode X = Ok s →
  fs w !! (fname ++ ".new") = None →
  ∃ w', safe_update fname (VBytes X) w = (w', Err enter_int_error)
    ∧ fs w' !! (fname ++ ".new") = Some (File mode_0o600 []).
Proof.
  intros Hf Hdec Hnew.
  destruct (safe_update_update_branch fname mode X s (VBytes X) w Hf Hdec eq_refl)
    as (w' & e & Hrun & _ & Hfresh).
  destruct (Hfresh Hnew) as [-> Hw']. by exists w'.
Qed.

(** C7 (code defect). Updating a file that holds [X] with other bytes
    [Y] does not install [Y]: the call raises and the path still holds
    [X]. *)
Theorem safe_update_changed_not_installed (fname : string) (mode : N)
    (X Y : bytes) (w : world) :
  fs w !! fname = Some (File mode X) →
  Y ≠ X →
  ∃ w' e, safe_update fname (VBytes Y) w = (w', Err e)
    ∧ fs w' !! fname = Some (File mode X).
Proof.
  intros Hf _.
  destruct (text_decode X) as [s|e] eqn:Hdec.
  - destruct (safe_update_update_branch fname mode X s (VBytes Y) w Hf Hdec eq_refl)
      as (w' & e & Hrun & Hkeep & _). by exists w', e.
  - exists w, e. by rewrite (safe_update_existing _ _ _ _ _ Hf), Hdec.
Qed.

(** What does work: text equal to what the file reads as is left alone. *)
Lemma safe_update_same_text_noop fname mode X s w :
  fs w !! fname = Some (File mode X) →
  text_decode X = Ok s →
  safe_update fname (VStr s) w = (w, Ok tt).
Proof.
  intros Hf Hdec. rewrite (safe_update_existing _ _ _ _ _ Hf), Hdec. cbn.
  by rewrite bool_decide_eq_true_2.
Qed.

(** With [bytes], [safe_update] raises whatever is at the path. *)
Lemma safe_update_bytes_raises fname b w :
  ∃ w' e, safe_update fname (VBytes b) w = (w', Err e).
Proof.
  destruct (fs w !! fname) as [[mode X|]|] eqn:Hf.
  - destruct (text_decode X) as [s|e] eqn:Hdec.
    + destruct (safe_update_update_branch fname mode X s (VBytes b) w Hf Hdec eq_refl)
        as (w' & e & Hrun & _). by exists w', e.
    + exists w, e. by rewrite (safe_update_existing _ _ _ _ _ Hf), Hdec.
  - unfold safe_update, os_path_isfile. unfold bind at 1. rewrite Hf. cbn [negb].
    destruct (create_and_enter fname (VBytes b) w) as (w2 & e & Hcr & _).
    rewrite Hcr. by exists w2, e.
  - unfold safe_update, os_path_isfile. unfold bind at 1. rewrite Hf. cbn [negb].
    destruct (create_and_enter fname (VBytes b) w) as (w2 & e & Hcr & _).
    rewrite Hcr. by exists w2, e.
Qed.

Lemma update_credential_file_raises username client_id b request_clientname w :
  ∃ w' e, update_credential_file username client_id (VBytes b)
                                 request_clientname w = (w', Err e).
Proof.
  unfold update_credential_file. unfold bind at 1, log_write at 1.
  unfold bind at 1.
  match goal with |- context [safe_update ?f (VBytes b) ?w0] =>
    destruct (safe_update_bytes_raises f b w0) as (w' & e & ->)
  end.
  by exists w', e.
Qed.

(** ** Frontend authenticator *)

Lemma get_key_obj_fs pub_key_obj classad :
  fs_preserving (get_key_obj pub_key_obj classad).
Proof. unfold get_key_obj. fs_pres. Qed.

Lemma validate_frontend_fs classad frontend_descript pub_key_obj :
  fs_preserving (validate_frontend classad frontend_descript pub_key_obj).
Proof. unfold validate_frontend. pose proof get_key_obj_fs. fs_pres. Qed.

(** C2. Once the symmetric key is extracted and [ReqEncIdentity]
    decrypts to [eid]: if [eid] differs from the [AuthenticatedIdentity]
    [aid], [validate_frontend] raises and returns no key; if they agree
    and the security name decrypts to [sn], it raises when the policy
    knows no identity for [sn] or expects another one than [aid], and
    otherwise returns the key together with [sn]. *)
Theorem validate_frontend_identity_checks (classad : classad_t)
    (frontend_descript : FrontendDescript) (pub_key_obj : PubKeyObj) (w : world)
    (code : string) (sym_key_obj : SymKeyObj) (aid eid : string) :
  dict_get classad "ReqEncKeyCode" = Some code →
  extract_sym_key pub_key_obj code = Ok sym_key_obj →
  dict_get classad "AuthenticatedIdentity" = Some aid →
  decrypt_str sym_key_obj classad "ReqEncIdentity" = Ok eid →
  let run := validate_frontend classad frontend_descript pub_key_obj w in
  (eid ≠ aid → run = (w, Err (CredentialError (msg_invalid_identity eid aid))))
  ∧ (∀ sn, eid = aid →
       decrypt_str sym_key_obj classad "GlideinEncParamSecurityName" = Ok sn →
       (get_identity frontend_descript sn = None →
        run = (w, Err (CredentialError (msg_not_authorized sn))))
       ∧ (∀ expected, get_identity frontend_descript sn = Some expected →
            expected ≠ aid →
            run = (w, Err (CredentialError msg_identity_mismatch)))
       ∧ (get_identity frontend_descript sn = Some aid →
          run = (w, Ok (sym_key_obj, sn)))).
Proof.
  intros Hcode Hkey Haid Heid run. subst run.
  unfold validate_frontend, get_key_obj, dict_in, getitem, bind, try_except, lift.
  rewrite Hcode. cbn. rewrite Hkey. cbn. rewrite Haid. cbn. rewrite Heid. cbn.
  split.
  - intros Hne. by rewrite bool_decide_eq_false_2.
  - intros sn -> Hsn. rewrite bool_decide_eq_true_2 by done. cbn.
    rewrite Hsn. cbn. repeat split.
    + by intros ->.
    + intros expected -> Hne. by rewrite bool_decide_eq_false_2.
    + intros ->. by rewrite bool_decide_eq_true_2.
Qed.

(** ** Global credential processor *)

(** The handler of [process_global]: whatever the body raised, the call
    raises the one [CredentialError] and the file system stays as the
    body left it. *)
Lemma process_global_body_err classad glidein_descript frontend_descript
    pub_key_obj w w1 e :
  data_PubKeyObj glidein_descript = Some pub_key_obj →
  process_global_body classad frontend_descript pub_key_obj w = (w1, Err e) →
  ∃ w', process_global classad glidein_descript frontend_descript w
        = (w', Err (CredentialError msg_globals))
    ∧ fs w' = fs w1.
Proof.
  intros Hpk Hbody. unfold process_global. rewrite Hpk.
  rewrite (try_except_any_err _ _ _ _ _ Hbody).
  by eexists.
Qed.

(** C1. When [validate_frontend] fails on a ClassAd, [process_global]
    leaves the file system untouched and raises the one
    [CredentialError]; and whenever [process_global] changed the file
    system, [validate_frontend] had returned successfully on that
    ClassAd. *)
Theorem process_global_auth_failure (classad : classad_t)
    (glidein_descript : GlideinDescript) (frontend_descript : FrontendDescript)
    (w : world) :
  (∀ pub_key_obj w1 e,
     data_PubKeyObj glidein_descript = Some pub_key_obj →
     validate_frontend classad frontend_descript pub_key_obj w = (w1, Err e) →
     ∃ w', process_global classad glidein_descript frontend_descript w
           = (w', Err (CredentialError msg_globals))
           ∧ fs w' = fs w)
  ∧ (∀ w' r,
       process_global classad glidein_descript frontend_descript w = (w', r) →
       fs w' ≠ fs w →
       ∃ pub_key_obj w1 sym_key_obj frontend_sec_name,
         data_PubKeyObj glidein_descript = Some pub_key_obj
         ∧ validate_frontend classad frontend_descript pub_key_obj w
           = (w1, Ok (sym_key_obj, frontend_sec_name))).
Proof.
  assert (∀ pk w1 e,
            validate_frontend classad frontend_descript pk w = (w1, Err e) →
            process_global_body classad frontend_descript pk w = (w1, Err e)
            ∧ fs w1 = fs w) as Hfail.
  { intros pk w1 e Hval. split.
    - unfold process_global_body, bind at 1. by rewrite Hval.
    - pose proof (validate_frontend_fs classad frontend_descript pk w) as Hfs.
      by rewrite Hval in Hfs. }
  split.
  - intros pk w1 e Hpk Hval. destruct (Hfail pk w1 e Hval) as [Hbody Hfs].
    destruct (process_global_body_err _ _ _ _ _ _ _ Hpk Hbody) as (w' & Hrun & Hfs').
    exists w'. split; [done|]. congruence.
  - intros w' r Hrun Hchanged.
    destruct (data_PubKeyObj glidein_descript) as [pk|] eqn:Hpk.
    + destruct (validate_frontend classad frontend_descript pk w)
        as [w1 [[k sn]|e]] eqn:Hval.
      * by exists pk, w1, k, sn.
      * exfalso. apply Hchanged.
        destruct (Hfail pk w1 e Hval) as [Hbody Hfs].
        destruct (process_global_body_err _ _ _ _ _ _ _ Hpk Hbody)
          as (w'' & Hrun' & Hfs').
        rewrite Hrun in Hrun'. injection Hrun' as -> _. congruence.
    + exfalso. apply Hchanged. unfold process_global in Hrun.
      rewrite Hpk in Hrun. by injection Hrun as <- _.
Qed.

(** The skip of an id without user mapping: one error logged, nothing
    written, the loop goes on. *)
Lemma process_key_skips classad frontend_descript sym_key_obj frontend_sec_name
    request_clientname key cred_data security_class client w :
  decrypts_to classad sym_key_obj key cred_data security_class →
  get_username frontend_descript frontend_sec_name security_class = None →
  dict_get classad "ClientName" = Some client →
  process_key classad frontend_descript sym_key_obj frontend_sec_name
              request_clientname key w
  = (World (fs w)
           (log w ++ [LogError (msg_no_mapping
                                  (str_drop (String.length class_prefix) key)
                                  client security_class)])
           (nfds w),
     Ok tt).
Proof.
  intros [Hdata Hclass] Huser Hclient. unfold process_key.
  unfold bind at 1, lift at 1. rewrite Hdata.
  unfold bind at 1, lift at 1. rewrite Hclass.
  rewrite Huser. unfold bind, lift, getitem. by rewrite Hclient.
Qed.

(** The turn of an id with a user mapping reaches
    [update_credential_file], and ends as it ends. *)
Lemma process_key_persists classad frontend_descript sym_key_obj frontend_sec_name
    request_clientname key cred_data security_class username w :
  decrypts_to classad sym_key_obj key cred_data security_class →
  get_username frontend_descript frontend_sec_name security_class = Some username →
  process_key classad frontend_descript sym_key_obj frontend_sec_name
              request_clientname key w
  = (update_credential_file username (str_drop (String.length class_prefix) key)
                            (VBytes cred_data) request_clientname ;;; ret tt)
      (log_write (LogDebug ("updating credential for " ++ username)) w).1.
Proof.
  intros [Hdata Hclass] Huser. unfold process_key.
  unfold bind at 1, lift at 1. rewrite Hdata.
  unfold bind at 1, lift at 1. rewrite Hclass.
  by rewrite Huser.
Qed.

(** C9 (code defect). The siblings of a skipped id do not get
    persisted with a normal return: as soon as one embedded id of an
    authenticated ClassAd decrypts and resolves to a user, next to
    skipped ids or not, [process_global] raises [CredentialError],
    because [update_credential_file] raises for every input. *)
Theorem process_global_resolved_id_aborts (classad : classad_t)
    (glidein_descript : GlideinDescript) (frontend_descript : FrontendDescript)
    (pub_key_obj : PubKeyObj) (sym_key_obj : SymKeyObj)
    (frontend_sec_name key security_class username : string) (cred_data : bytes)
    (w w1 : world) :
  data_PubKeyObj glidein_descript = Some pub_key_obj →
  validate_frontend classad frontend_descript pub_key_obj w
    = (w1, Ok (sym_key_obj, frontend_sec_name)) →
  key ∈ mkeys classad →
  decrypts_to classad sym_key_obj key cred_data security_class →
  get_username frontend_descript frontend_sec_name security_class = Some username →
  ∃ w', process_global classad glidein_descript frontend_descript w
        = (w', Err (CredentialError msg_globals)).
Proof.
  intros Hpk Hval Hkey Hdec Huser.
  assert (∃ w2 e, process_global_body classad frontend_descript pub_key_obj w
                  = (w2, Err e)) as (w2 & e & Hbody).
  { unfold process_global_body. unfold bind at 1. rewrite Hval.
    unfold bind at 1, lift at 1.
    destruct (getitem classad "ClientName") as [client|e]; [|by eexists _, _].
    apply (for_each_raises _ _ key Hkey). intros w0.
    rewrite (process_key_persists _ _ _ _ _ _ _ _ _ _ Hdec Huser).
    unfold bind at 1.
    match goal with |- context [update_credential_file ?u ?i (VBytes ?b) ?c ?w0] =>
      destruct (update_credential_file_raises u i b c w0) as (w' & e & ->)
    end.
    by exists w', e. }
  destruct (process_global_body_err _ _ _ _ _ _ _ Hpk Hbody) as (w' & Hrun & _).
  by exists w'.
Qed.

(** C10 (as amended). An error raised while persisting the credential
    of an embedded id, a file-system error included, is not swallowed:
    [process_global] stops at that id and raises [CredentialError] in its
    place, leaving the file system as the failed update left it. *)
Theorem process_global_remaps_persistence_error (classad : classad_t)
    (glidein_descript : GlideinDescript) (frontend_descript : FrontendDescript)
    (pub_key_obj : PubKeyObj) (sym_key_obj : SymKeyObj)
    (frontend_sec_name client key security_class username : string)
    (cred_data : bytes) (pre post : list string) (w w1 w2 w3 : world) (e : exn) :
  data_PubKeyObj glidein_descript = Some pub_key_obj →
  validate_frontend classad frontend_descript pub_key_obj w
    = (w1, Ok (sym_key_obj, frontend_sec_name)) →
  dict_get classad "ClientName" = Some client →
  mkeys classad = (pre ++ key :: post)%list →
  for_each pre (process_key classad frontend_descript sym_key_obj
                            frontend_sec_name client) w1 = (w2, Ok tt) →
  decrypts_to classad sym_key_obj key cred_data security_class →
  get_username frontend_descript frontend_sec_name security_class = Some username →
  update_credential_file username (str_drop (String.length class_prefix) key)
      (VBytes cred_data) client
      (log_write (LogDebug ("updating credential for " ++ username)) w2).1
    = (w3, Err e) →
  ∃ w', process_global classad glidein_descript frontend_descript w
        = (w', Err (CredentialError msg_globals))
    ∧ fs w' = fs w3.
Proof.
  intros Hpk Hval Hclient Hkeys Hpre Hdec Huser Hupd.
  apply (process_global_body_err _ _ _ _ _ w3 e Hpk).
  unfold process_global_body. unfold bind at 1. rewrite Hval.
  unfold bind at 1, lift at 1, getitem. rewrite Hclient.
  rewrite Hkeys, for_each_app. unfold bind at 1. rewrite Hpre.
  cbn [for_each]. unfold bind at 1.
  rewrite (process_key_persists _ _ _ _ _ _ _ _ _ _ Hdec Huser).
  unfold bind at 1. by rewrite Hupd.
Qed.

End Pipeline.

(* ===================================================================== *)
(** * Further properties *)
(* ===================================================================== *)

(** ** Credential-set validator: the other branches *)

Ltac decide_closed :=
  match goal with
  | |- ?P => apply (@bool_decide_unpack P _); vm_compute; exact I
  end.

Lemma set_truthy_false_iff (X : gset string) : set_truthy X = false ↔ ∀ k, k ∉ X.
Proof.
  rewrite <- not_true_iff_false, set_truthy_spec. split.
  - intros Hno k Hk. apply Hno. by exists k.
  - intros Hall [k Hk]. by apply (Hall k).
Qed.

Lemma unsupported_falsy (l : list string) :
  (∀ m, m ∈ l → m ∉ SUPPORTED_AUTH_METHODS) →
  set_truthy (list_to_set l ∩ list_to_set SUPPORTED_AUTH_METHODS) = false.
Proof.
  intros Hl. apply set_truthy_false_iff. intros k Hk.
  apply elem_of_intersection in Hk as [H1 H2].
  rewrite elem_of_list_to_set in H1, H2. by apply (Hl k).
Qed.

(** X1. When none of the declared methods is a supported one, the check
    permits the request whatever it carries: it logs one warning and
    returns, with or without passthrough. *)
Theorem check_unsupported_permits (auth_method : string)
    (params : gmap string string) (client_int_name entry_name : string)
    (scitoken_passthru : bool) (w : world) :
  (∀ m, m ∈ split_on "+" auth_method → m ∉ SUPPORTED_AUTH_METHODS) →
  ∃ msg,
    check_security_credentials auth_method params client_int_name entry_name
                               scitoken_passthru w
    = (World (fs w) (log w ++ [LogWarning msg]) (nfds w), Ok tt).
Proof.
  intros Hl. unfold check_security_credentials.
  rewrite (unsupported_falsy _ Hl). cbn [negb]. by eexists.
Qed.

(** X2. The request is accepted without any look at its keys when
    [scitoken] is declared, and also when passthrough is on and the
    params carry [frontend_scitoken] (some supported method being
    declared). *)
Theorem check_scitoken_accepts (auth_method : string)
    (params : gmap string string) (client_int_name entry_name : string)
    (scitoken_passthru : bool) (w : world) :
  "scitoken" ∈ split_on "+" auth_method
  ∨ ((∃ m, m ∈ split_on "+" auth_method ∧ m ∈ SUPPORTED_AUTH_METHODS)
     ∧ "frontend_scitoken" ∈ dom params ∧ scitoken_passthru = true) →
  check_security_credentials auth_method params client_int_name entry_name
                             scitoken_passthru w
  = (w, Ok tt).
Proof.
  intros Hcase. unfold check_security_credentials.
  destruct Hcase as [Hsci|((m & Hm & Hsup) & Hfs & ->)].
  - rewrite (supported_truthy _ "scitoken")
      by (done || (unfold SUPPORTED_AUTH_METHODS; set_solver)).
    by rewrite (in_list_true "scitoken").
  - rewrite (supported_truthy _ m) by done.
    apply in_params_spec in Hfs. rewrite Hfs.
    by rewrite andb_true_r, orb_true_r.
Qed.

(** X3. With passthrough on, a [grid_proxy] entry accepts every request,
    also one without [SubmitProxy]. *)
Theorem check_grid_proxy_passthru (auth_method : string)
    (params : gmap string string) (client_int_name entry_name : string)
    (w : world) :
  "grid_proxy" ∈ split_on "+" auth_method →
  check_security_credentials auth_method params client_int_name entry_name
                             true w
  = (w, Ok tt).
Proof.
  intros Hgrid. unfold check_security_credentials.
  rewrite (supported_truthy _ "grid_proxy")
    by (done || (unfold SUPPORTED_AUTH_METHODS; set_solver)).
  rewrite (in_list_true "grid_proxy") by done. cbn [negb].
  by destruct (in_list "scitoken" _ || _).
Qed.

Lemma passthru_gate_closed (params : gmap string string) (passthru : bool) :
  ¬ ("frontend_scitoken" ∈ dom params ∧ passthru = true) →
  in_params "frontend_scitoken" params && passthru = false.
Proof.
  intros Hno. destruct (in_params "frontend_scitoken" params) eqn:Hin; [|done].
  destruct passthru; [|done]. exfalso. apply Hno. by apply in_params_spec in Hin.
Qed.

Ltac non_proxy_cases valid :=
  rewrite <- ?in_params_spec, <- ?allow_list_spec;
  repeat match goal with
    | |- context [in_params ?k ?p] => destruct (in_params k p)
    end;
  cbn [negb andb orb];
  destruct (set_truthy (dom _ ∩ (relevant_keys ∖ valid))) eqn:Ht;
  unfold raise, ret;
  (split; [split|]); eauto;
  try (intros; discriminate);
  try (intros (?&?&?&?); discriminate);
  try (intros ([?|?]&?&?&?); discriminate).

(** X4. [key_pair] (neither [scitoken], [grid_proxy] nor [cert_pair]
    declared, the passthrough gate closed): the request is accepted
    exactly when it has [PublicKey] and [PrivateKey], [GlideinProxy]
    unless passthrough is on, and no relevant key outside the allow-list;
    any other request raises [CredentialError]. *)
Theorem check_key_pair (auth_method : string) (params : gmap string string)
    (client_int_name entry_name : string) (scitoken_passthru : bool) (w : world) :
  "scitoken" ∉ split_on "+" auth_method →
  "grid_proxy" ∉ split_on "+" auth_method →
  "cert_pair" ∉ split_on "+" auth_method →
  "key_pair" ∈ split_on "+" auth_method →
  ¬ ("frontend_scitoken" ∈ dom params ∧ scitoken_passthru = true) →
  let run :=
    check_security_credentials auth_method params client_int_name entry_name
                               scitoken_passthru w in
  (run = (w, Ok tt) ↔
   (scitoken_passthru = true ∨ "GlideinProxy" ∈ dom params)
   ∧ "PublicKey" ∈ dom params ∧ "PrivateKey" ∈ dom params
   ∧ ∀ k, k ∈ relevant_keys → k ∈ dom params → k ∈ valid_keys_key_pair)
  ∧ (run = (w, Ok tt) ∨ ∃ msg, run = (w, Err (CredentialError msg))).
Proof.
  intros Hsci Hgrid Hcert Hkey Hgate run. subst run.
  unfold check_security_credentials.
  rewrite (supported_truthy _ "key_pair")
    by (done || (unfold SUPPORTED_AUTH_METHODS; set_solver)).
  rewrite (in_list_false "scitoken"), (in_list_false "grid_proxy"),
    (in_list_false "cert_pair"), (in_list_true "key_pair") by done.
  rewrite (passthru_gate_closed _ _ Hgate). cbn [negb orb].
  unfold require_and_allow. clear Hgate.
  destruct scitoken_passthru; non_proxy_cases valid_keys_key_pair.
Qed.

(** X5. [auth_file] (no method of higher precedence declared): accepted
    exactly with [AuthFile], [GlideinProxy] unless passthrough is on, and
    no relevant key outside the allow-list; otherwise [CredentialError]. *)
Theorem check_auth_file (auth_method : string) (params : gmap string string)
    (client_int_name entry_name : string) (scitoken_passthru : bool) (w : world) :
  "scitoken" ∉ split_on "+" auth_method →
  "grid_proxy" ∉ split_on "+" auth_method →
  "cert_pair" ∉ split_on "+" auth_method →
  "key_pair" ∉ split_on "+" auth_method →
  "auth_file" ∈ split_on "+" auth_method →
  ¬ ("frontend_scitoken" ∈ dom params ∧ scitoken_passthru = true) →
  let run :=
    check_security_credentials auth_method params client_int_name entry_name
                               scitoken_passthru w in
  (run = (w, Ok tt) ↔
   (scitoken_passthru = true ∨ "GlideinProxy" ∈ dom params)
   ∧ "AuthFile" ∈ dom params
   ∧ ∀ k, k ∈ relevant_keys → k ∈ dom params → k ∈ valid_keys_auth_file)
  ∧ (run = (w, Ok tt) ∨ ∃ msg, run = (w, Err (CredentialError msg))).
Proof.
  intros Hsci Hgrid Hcert Hkey Hauth Hgate run. subst run.
  unfold check_security_credentials.
  rewrite (supported_truthy _ "auth_file")
    by (done || (unfold SUPPORTED_AUTH_METHODS; set_solver)).
  rewrite (in_list_false "scitoken"), (in_list_false "grid_proxy"),
    (in_list_false "cert_pair"), (in_list_false "key_pair"),
    (in_list_true "auth_file") by done.
  rewrite (passthru_gate_closed _ _ Hgate). cbn [negb orb].
  unfold require_and_allow. clear Hgate.
  destruct scitoken_passthru; non_proxy_cases valid_keys_auth_file.
  all: try (intros (?&?&?); discriminate).
  all: try (intros ([?|?]&?&?); discriminate).
Qed.

(** X6. [username_password] (no method of higher precedence declared):
    accepted exactly with [Username] and [Password], [GlideinProxy]
    unless passthrough is on, and no relevant key outside the allow-list;
    otherwise [CredentialError]. *)
Theorem check_username_password (auth_method : string)
    (params : gmap string string) (client_int_name entry_name : string)
    (scitoken_passthru : bool) (w : world) :
  "scitoken" ∉ split_on "+" auth_method →
  "grid_proxy" ∉ split_on "+" auth_method →
  "cert_pair" ∉ split_on "+" auth_method →
  "key_pair" ∉ split_on "+" auth_method →
  "auth_file" ∉ split_on "+" auth_method →
  "username_password" ∈ split_on "+" auth_method →
  ¬ ("frontend_scitoken" ∈ dom params ∧ scitoken_passthru = true) →
  let run :=
    check_security_credentials auth_method params client_int_name entry_name
                               scitoken_passthru w in
  (run = (w, Ok tt) ↔
   (scitoken_passthru = true ∨ "GlideinProxy" ∈ dom params)
   ∧ "Username" ∈ dom params ∧ "Password" ∈ dom params
   ∧ ∀ k, k ∈ relevant_keys → k ∈ dom params → k ∈ valid_keys_username_password)
  ∧ (run = (w, Ok tt) ∨ ∃ msg, run = (w, Err (CredentialError msg))).
Proof.
  intros Hsci Hgrid Hcert Hkey Hauth Hup Hgate run. subst run.
  unfold check_security_credentials.
  rewrite (supported_truthy _ "username_password")
    by (done || (unfold SUPPORTED_AUTH_METHODS; set_solver)).
  rewrite (in_list_false "scitoken"), (in_list_false "grid_proxy"),
    (in_list_false "cert_pair"), (in_list_false "key_pair"),
    (in_list_false "auth_file"), (in_list_true "username_password") by done.
  rewrite (passthru_gate_closed _ _ Hgate). cbn [negb orb].
  unfold require_and_allow. clear Hgate.
  destruct scitoken_passthru; non_proxy_cases valid_keys_username_password.
Qed.

(** X7. A supported method without a branch of its own ([idtoken]):
    when the declared methods include a supported one but none of the
    six that are handled, every request is refused, with the missing
    glidein proxy or else with the inconsistency message. *)
Theorem check_no_branch_rejects (auth_method : string)
    (params : gmap string string) (client_int_name entry_name : string)
    (scitoken_passthru : bool) (w : world) :
  (∃ m, m ∈ split_on "+" auth_method ∧ m ∈ SUPPORTED_AUTH_METHODS) →
  (∀ m, m ∈ split_on "+" auth_method →
        m ∉ ["scitoken"; "grid_proxy"; "cert_pair"; "key_pair"; "auth_file";
              "username_password"]) →
  ¬ ("frontend_scitoken" ∈ dom params ∧ scitoken_passthru = true) →
  check_security_credentials auth_method params client_int_name entry_name
                             scitoken_passthru w
  = (w, Err (CredentialError
               (if bool_decide ("GlideinProxy" ∈ dom params) || scitoken_passthru
                then msg_inconsistency
                else msg_no_glidein_proxy client_int_name))).
Proof.
  intros (m & Hm & Hsup) Hnone Hgate. unfold check_security_credentials.
  rewrite (supported_truthy _ m) by done.
  rewrite !in_list_false
    by (intros Hin; apply (Hnone _ Hin); decide_closed).
  rewrite (passthru_gate_closed _ _ Hgate). cbn [negb orb].
  unfold in_params.
  by destruct (bool_decide ("GlideinProxy" ∈ dom params)), scitoken_passthru.
Qed.

Ltac split_ifs :=
  repeat match goal with
    | |- context [if ?b then _ else _] => destruct b
    end.

(** X8. [check_security_credentials] returns or raises
    [CredentialError], nothing else, and leaves the file system alone. *)
Theorem check_raises_only_credential_error (auth_method : string)
    (params : gmap string string) (client_int_name entry_name : string)
    (scitoken_passthru : bool) (w w' : world) (r : result unit) :
  check_security_credentials auth_method params client_int_name entry_name
                             scitoken_passthru w = (w', r) →
  fs w' = fs w
  ∧ (r = Ok tt ∨ ∃ msg, r = Err (CredentialError msg)).
Proof.
  unfold check_security_credentials, require_and_allow.
  split_ifs; intros [= <- <-]; eauto.
Qed.

Lemma in_params_agree k (p p' : gmap string string) :
  (k ∈ dom p ↔ k ∈ dom p') → in_params k p = in_params k p'.
Proof. intros Hk. unfold in_params. by apply bool_decide_ext. Qed.

Lemma allow_list_agree (p p' : gmap string string) (valid : gset string) :
  (∀ k, k ∈ relevant_keys → (k ∈ dom p ↔ k ∈ dom p')) →
  set_truthy (dom p ∩ (relevant_keys ∖ valid))
  = set_truthy (dom p' ∩ (relevant_keys ∖ valid)).
Proof.
  intros Hk. unfold set_truthy. apply bool_decide_ext.
  assert (∀ X Y : gset string, (∀ k, k ∈ X ↔ k ∈ Y) → (X ≠ ∅ ↔ Y ≠ ∅)) as Hne.
  { intros X Y HXY. assert (X = Y) as -> by by apply set_eq. done. }
  apply Hne. intros k. rewrite !elem_of_intersection, !elem_of_difference.
  split; intros [Hd [Hr Hv]]; (split; [by apply (Hk k Hr)|done]).
Qed.

(** X9. Only the credential-relevant keys and [frontend_scitoken]
    count: two requests that agree on them get the same verdict. *)
Theorem check_ignores_irrelevant_keys (auth_method : string)
    (params params' : gmap string string) (client_int_name entry_name : string)
    (scitoken_passthru : bool) (w : world) :
  (∀ k, k ∈ relevant_keys ∨ k = "frontend_scitoken" →
        (k ∈ dom params ↔ k ∈ dom params')) →
  check_security_credentials auth_method params client_int_name entry_name
                             scitoken_passthru w
  = check_security_credentials auth_method params' client_int_name entry_name
                               scitoken_passthru w.
Proof.
  intros Hsame. unfold check_security_credentials, require_and_allow.
  assert (∀ k, k ∈ relevant_keys → in_params k params = in_params k params')
    as Hin by (intros k Hk; apply in_params_agree, Hsame; by left).
  rewrite (in_params_agree "frontend_scitoken" params params')
    by (apply Hsame; by right).
  rewrite !(Hin "SubmitProxy"), !(Hin "GlideinProxy"), !(Hin "PublicCert"),
    !(Hin "PrivateCert"), !(Hin "PublicKey"), !(Hin "PrivateKey"),
    !(Hin "AuthFile"), !(Hin "Username"), !(Hin "Password") by decide_closed.
  rewrite !(allow_list_agree params params') by (intros k Hk; apply Hsame; by left).
  done.
Qed.

(** ** Frontend authenticator: soundness and failures *)

Section AuthenticatorFacts.
Context {rt : PyRuntime} {lib : FactoryLib}.

Lemma get_key_obj_ok pub_key_obj classad w w' sym_key_obj :
  get_key_obj pub_key_obj classad w = (w', Ok sym_key_obj) →
  w' = w ∧ ∃ code, dict_get classad "ReqEncKeyCode" = Some code
                   ∧ extract_sym_key pub_key_obj code = Ok sym_key_obj.
Proof.
  unfold get_key_obj, dict_in, try_except, lift, getitem.
  destruct (dict_get classad "ReqEncKeyCode") as [code|]; cbn; [|done].
  destruct (extract_sym_key pub_key_obj code) as [k|e] eqn:Hex; cbn; [|done].
  intros [= <- <-]. eauto.
Qed.

Lemma get_key_obj_err pub_key_obj classad w w' e :
  get_key_obj pub_key_obj classad w = (w', Err e) →
  ∃ msg, e = CredentialError msg.
Proof.
  unfold get_key_obj, dict_in, try_except, lift, getitem.
  destruct (dict_get classad "ReqEncKeyCode") as [code|]; cbn.
  - destruct (extract_sym_key pub_key_obj code) as [k|e0]; cbn; [done|].
    intros [= _ <-]. eauto.
  - intros [= _ <-]. eauto.
Qed.

(** Decrypting under a [try] with a bare [except]. *)
Lemma guarded_decrypt_ok sym_key_obj classad name msg w w' s :
  try_except (lift (decrypt_str sym_key_obj classad name)) any_exn
    (λ _, log_write (LogException msg) ;;; raise (CredentialError msg)) w
  = (w', Ok s) →
  w' = w ∧ decrypt_str sym_key_obj classad name = Ok s.
Proof.
  unfold try_except, lift.
  destruct (decrypt_str sym_key_obj classad name); cbn; [|done].
  by intros [= <- <-].
Qed.

Lemma guarded_decrypt_err sym_key_obj classad name msg w w' e :
  try_except (lift (decrypt_str sym_key_obj classad name)) any_exn
    (λ _, log_write (LogException msg) ;;; raise (CredentialError msg)) w
  = (w', Err e) →
  e = CredentialError msg.
Proof.
  unfold try_except, lift.
  destruct (decrypt_str sym_key_obj classad name); cbn; [done|].
  by intros [= _ <-].
Qed.

Lemma validate_frontend_ok_inv (classad : classad_t)
    (frontend_descript : FrontendDescript) (pub_key_obj : PubKeyObj)
    (sym_key_obj : SymKeyObj) (frontend_sec_name : string) (w w' : world) :
  validate_frontend classad frontend_descript pub_key_obj w
    = (w', Ok (sym_key_obj, frontend_sec_name)) →
  w' = w
  ∧ ∃ code aid,
      dict_get classad "ReqEncKeyCode" = Some code
      ∧ extract_sym_key pub_key_obj code = Ok sym_key_obj
      ∧ dict_get classad "AuthenticatedIdentity" = Some aid
      ∧ decrypt_str sym_key_obj classad "ReqEncIdentity" = Ok aid
      ∧ decrypt_str sym_key_obj classad "GlideinEncParamSecurityName"
        = Ok frontend_sec_name
      ∧ get_identity frontend_descript frontend_sec_name = Some aid.
Proof.
  unfold validate_frontend. unfold bind at 1.
  destruct (get_key_obj pub_key_obj classad w) as [w1 [k|e]] eqn:Hkey; [|done].
  apply get_key_obj_ok in Hkey as (-> & code & Hcode & Hex).
  unfold bind at 1, lift at 1, getitem.
  destruct (dict_get classad "AuthenticatedIdentity") as [aid|] eqn:Haid; [|done].
  unfold bind at 1.
  match goal with |- context [try_except ?b ?h ?k w] =>
    destruct (try_except b h k w) as [w2 [eid|e]] eqn:Hid; [|done] end.
  apply guarded_decrypt_ok in Hid as (-> & Hid).
  case_bool_decide as Heq; cbn [negb]; [subst eid|done].
  unfold bind at 1.
  match goal with |- context [try_except ?b ?h ?k w] =>
    destruct (try_except b h k w) as [w3 [sn|e]] eqn:Hsn; [|done] end.
  apply guarded_decrypt_ok in Hsn as (-> & Hsn).
  destruct (get_identity frontend_descript sn) as [expected|] eqn:Hexp; [|done].
  case_bool_decide as Heq; cbn [negb]; [subst expected|done].
  intros [= <- <- <-]. split; [done|]. by exists code, aid.
Qed.

(** X10. A ClassAd that [validate_frontend] accepts passed every
    check: the returned key is the one extracted from [ReqEncKeyCode],
    the encrypted identity decrypts to the authenticated identity, the
    returned name is the decrypted security name, and the policy expects
    that identity for it; nothing is logged. *)
Theorem validate_frontend_sound (classad : classad_t)
    (frontend_descript : FrontendDescript) (pub_key_obj : PubKeyObj)
    (sym_key_obj : SymKeyObj) (frontend_sec_name : string) (w w' : world) :
  validate_frontend classad frontend_descript pub_key_obj w
    = (w', Ok (sym_key_obj, frontend_sec_name)) →
  w' = w
  ∧ ∃ code aid,
      dict_get classad "ReqEncKeyCode" = Some code
      ∧ extract_sym_key pub_key_obj code = Ok sym_key_obj
      ∧ dict_get classad "AuthenticatedIdentity" = Some aid
      ∧ decrypt_str sym_key_obj classad "ReqEncIdentity" = Ok aid
      ∧ decrypt_str sym_key_obj classad "GlideinEncParamSecurityName"
        = Ok frontend_sec_name
      ∧ get_identity frontend_descript frontend_sec_name = Some aid.
Proof. apply validate_frontend_ok_inv. Qed.

(** X11. [validate_frontend] fails with [CredentialError], or with
    the [KeyError] of a ClassAd without [AuthenticatedIdentity]; it never
    changes the file system. *)
Theorem validate_frontend_error_kinds (classad : classad_t)
    (frontend_descript : FrontendDescript) (pub_key_obj : PubKeyObj)
    (w w' : world) (e : exn) :
  validate_frontend classad frontend_descript pub_key_obj w = (w', Err e) →
  fs w' = fs w
  ∧ ((∃ msg, e = CredentialError msg)
     ∨ (e = KeyError "AuthenticatedIdentity"
        ∧ dict_get classad "AuthenticatedIdentity" = None)).
Proof.
  intros Hrun. split.
  { pose proof (validate_frontend_fs classad frontend_descript pub_key_obj w) as Hfs.
    by rewrite Hrun in Hfs. }
  revert Hrun. unfold validate_frontend. unfold bind at 1.
  destruct (get_key_obj pub_key_obj classad w) as [w1 [k|e0]] eqn:Hkey.
  2:{ intros [= _ <-]. left. by eapply get_key_obj_err. }
  unfold bind at 1, lift at 1, getitem.
  destruct (dict_get classad "AuthenticatedIdentity") as [aid|] eqn:Haid.
  2:{ intros [= _ <-]. by right. }
  unfold bind at 1.
  match goal with |- context [try_except ?b ?h ?k w1] =>
    destruct (try_except b h k w1) as [w2 [eid|e0]] eqn:Hid end.
  2:{ intros [= _ <-]. left. apply guarded_decrypt_err in Hid. eauto. }
  case_bool_decide; cbn [negb].
  2:{ intros [= _ <-]. eauto. }
  unfold bind at 1.
  match goal with |- context [try_except ?b ?h ?k w2] =>
    destruct (try_except b h k w2) as [w3 [sn|e0]] eqn:Hsn end.
  2:{ intros [= _ <-]. left. apply guarded_decrypt_err in Hsn. eauto. }
  destruct (get_identity frontend_descript sn) as [expected|].
  2:{ intros [= _ <-]. eauto. }
  case_bool_decide; cbn [negb]; [done|].
  intros [= _ <-]. eauto.
Qed.

(** X12. With the key extracted: a ClassAd without
    [AuthenticatedIdentity] raises [KeyError] (not [CredentialError]);
    an identity that cannot be read (missing, undecryptable, not UTF-8)
    raises the identity error and logs it; and the security name is
    only looked at after the identity matched. *)
Theorem validate_frontend_failures (classad : classad_t)
    (frontend_descript : FrontendDescript) (pub_key_obj : PubKeyObj)
    (code : string) (sym_key_obj : SymKeyObj) (w : world) :
  dict_get classad "ReqEncKeyCode" = Some code →
  extract_sym_key pub_key_obj code = Ok sym_key_obj →
  let run := validate_frontend classad frontend_descript pub_key_obj w in
  let after_log msg := World (fs w) (log w ++ [LogException msg]) (nfds w) in
  (dict_get classad "AuthenticatedIdentity" = None →
   run = (w, Err (KeyError "AuthenticatedIdentity")))
  ∧ (∀ aid e,
       dict_get classad "AuthenticatedIdentity" = Some aid →
       decrypt_str sym_key_obj classad "ReqEncIdentity" = Err e →
       run = (after_log msg_identity_undecryptable,
              Err (CredentialError msg_identity_undecryptable)))
  ∧ (∀ aid e,
       dict_get classad "AuthenticatedIdentity" = Some aid →
       decrypt_str sym_key_obj classad "ReqEncIdentity" = Ok aid →
       decrypt_str sym_key_obj classad "GlideinEncParamSecurityName" = Err e →
       run = (after_log msg_name_undecryptable,
              Err (CredentialError msg_name_undecryptable))).
Proof.
  intros Hcode Hkey run after_log. subst run after_log.
  unfold validate_frontend, get_key_obj, dict_in, getitem, bind, try_except, lift.
  rewrite Hcode. cbn. rewrite Hkey. cbn.
  split; [|split].
  - by intros ->.
  - intros aid e -> ->. done.
  - intros aid e -> -> Hsn. cbn. rewrite bool_decide_eq_true_2 by done. cbn.
    by rewrite Hsn.
Qed.
End AuthenticatorFacts.

(** ** Credential store and processor: what is written *)

Lemma no_new_content_refl f : no_new_content f f.
Proof. intros q m d Hq. by left. Qed.

Lemma no_new_content_trans f1 f2 f3 :
  no_new_content f1 f2 → no_new_content f2 f3 → no_new_content f1 f3.
Proof.
  intros H12 H23 q m d Hq. destruct (H23 q m d Hq) as [Hq'| ->]; [|by right].
  by apply H12.
Qed.

Lemma py_eq_str data s : py_eq data (VStr s) = true ↔ data = VStr s.
Proof.
  destruct data; cbn; try (split; [discriminate|intros [=]]).
  rewrite bool_decide_eq_true. split; [by intros ->|by intros [= ->]].
Qed.

Lemma suffix_ne (s t u : string) : t ≠ u → s ++ t ≠ s ++ u.
Proof. intros Hne Heq. by apply Hne, (app_suffix_inj s). Qed.

Section StoreFacts.
Context {rt : PyRuntime} {lib : FactoryLib}.

Lemma remove_old_effect p w :
  ∃ w', try_except (os_remove p) is_OSError (λ _, ret tt) w = (w', Ok tt)
    ∧ (∀ q, q ≠ p → fs w' !! q = fs w !! q)
    ∧ (fs w' !! p = fs w !! p ∨ fs w' !! p = None).
Proof.
  unfold try_except, os_remove.
  destruct (fs w !! p) as [[m d|]|] eqn:Hp; cbn.
  - eexists. split; [reflexivity|]. cbn. split.
    + intros q Hq. by rewrite lookup_delete_ne.
    + right. by rewrite lookup_delete_eq.
  - eexists. split; [reflexivity|]. split; [done|]. by left.
  - eexists. split; [reflexivity|]. split; [done|]. by left.
Qed.

Lemma create_effect p data w :
  ∃ w' e, with_as (os_open_creat_wronly p mode_0o600)
                  (λ file, method_write file data) w = (w', Err e)
    ∧ (∀ q, q ≠ p → fs w' !! q = fs w !! q)
    ∧ (fs w' !! p = fs w !! p
       ∨ (fs w !! p = None ∧ fs w' !! p = Some (File mode_0o600 []))).
Proof.
  destruct (create_and_enter p data w) as (w' & e & Hrun & Hother & Hnone & Hsome).
  exists w', e. split; [done|]. split; [done|].
  destruct (fs w !! p) as [n|] eqn:Hp.
  - left. apply Hsome. by eexists.
  - right. split; [done|]. by apply Hnone.
Qed.

(** Every outcome of [safe_update], by what is at the path. *)
Lemma safe_update_outcomes fname data w :
  ∃ w' r, safe_update fname data w = (w', r)
    ∧ touched_by_safe_update fname (fs w) (fs w')
    ∧ (r = Ok tt →
       w' = w ∧ ∃ mode X s, fs w !! fname = Some (File mode X)
                            ∧ text_decode X = Ok s ∧ data = VStr s).
Proof.
  destruct (fs w !! fname) as [[mode X|]|] eqn:Hf.
  - rewrite (safe_update_existing _ _ _ _ _ Hf).
    destruct (text_decode X) as [s|e] eqn:Hdec.
    2:{ exists w, (Err e). split; [done|]. split; [by left|done]. }
    destruct (py_eq data (VStr s)) eqn:Hpy.
    { exists w, (Ok tt). split; [done|]. split; [by left|]. intros _.
      split; [done|]. apply py_eq_str in Hpy. by exists mode, X, s. }
    destruct (remove_old_effect (fname ++ ".old") w) as (w1 & Hrm & Ho1 & Hat1).
    unfold bind at 1. rewrite Hrm.
    destruct (create_effect (fname ++ ".new") data w1) as (w2 & e & Hcr & Ho2 & Hat2).
    unfold bind at 1. rewrite Hcr.
    exists w2, (Err e). split; [done|]. split; [|done].
    intros q. destruct (decide (q = fname ++ ".new")) as [->|Hnew].
    + rewrite <- (Ho1 (fname ++ ".new")) by (apply suffix_ne; discriminate).
      destruct Hat2 as [->|[Hn Hc]]; [by left|]. right. right. eauto.
    + rewrite (Ho2 q Hnew). destruct (decide (q = fname ++ ".old")) as [->|Hold].
      * destruct Hat1 as [->|Hn]; [by left|]. right. left. eauto.
      * left. by apply Ho1.
  - exists w, (Err (OSError "EISDIR")). split; [|split; [by left|done]].
    unfold safe_update, os_path_isfile, with_as, os_open_creat_wronly.
    unfold bind at 1. rewrite Hf. cbn [negb]. unfold bind at 1. by rewrite Hf.
  - unfold safe_update, os_path_isfile. unfold bind at 1. rewrite Hf. cbn [negb].
    destruct (create_effect fname data w) as (w2 & e & Hcr & Ho2 & Hat2).
    rewrite Hcr. exists w2, (Err e). split; [done|]. split; [|done].
    intros q. destruct (decide (q = fname)) as [->|Hq]; [|left; by apply Ho2].
    destruct Hat2 as [->|[Hn Hc]]; [by left|]. right. right. eauto.
Qed.

Lemma touched_no_new_content fname f f' :
  touched_by_safe_update fname f f' → no_new_content f f'.
Proof.
  intros Ht q m d Hq. destruct (Ht q) as [Heq|[[_ Hn]|(_ & _ & Hc)]].
  - left. congruence.
  - congruence.
  - right. congruence.
Qed.

(** X13. [safe_update] returns normally in one case only: the file
    exists, reads as text, the data is that very [str], and then nothing
    changes. *)
Theorem safe_update_returns_only_as_noop (fname : string) (data : pyval)
    (w w' : world) :
  safe_update fname data w = (w', Ok tt) ↔
  w' = w ∧ ∃ mode X s, fs w !! fname = Some (File mode X)
                       ∧ text_decode X = Ok s ∧ data = VStr s.
Proof.
  split.
  - intros Hrun. destruct (safe_update_outcomes fname data w) as (w1 & r & Hrun' & _ & Hok).
    rewrite Hrun in Hrun'. injection Hrun' as <- <-. by apply Hok.
  - intros (-> & mode & X & s & Hf & Hdec & ->).
    by apply (safe_update_same_text_noop _ mode X).
Qed.

(** X14. Whatever its outcome, [safe_update] changes nothing but: the
    [".old"] backup, which it may remove, and the file and its [".new"]
    sibling, which it may create, empty; it never writes data. *)
Theorem safe_update_touches (fname : string) (data : pyval) (w w' : world)
    (r : result unit) :
  safe_update fname data w = (w', r) →
  touched_by_safe_update fname (fs w) (fs w').
Proof.
  intros Hrun. destruct (safe_update_outcomes fname data w) as (w1 & r1 & Hrun' & Ht & _).
  rewrite Hrun in Hrun'. by injection Hrun' as <- <-.
Qed.

(** X15. The path of a new credential: when nothing is there,
    [safe_update] creates an empty file of mode [0o600], leaks the
    descriptor and raises; when a directory is there it raises [EISDIR]
    and changes nothing. *)
Theorem safe_update_not_a_file (fname : string) (data : pyval) (w : world) :
  (fs w !! fname = None →
   safe_update fname data w
   = (World (<[fname := File mode_0o600 []]> (fs w)) (log w) (S (nfds w)),
      Err enter_int_error))
  ∧ (fs w !! fname = Some Dir →
     safe_update fname data w = (w, Err (OSError "EISDIR"))).
Proof.
  unfold safe_update, os_path_isfile, with_as, os_open_creat_wronly.
  split; intros Hf; unfold bind at 1; rewrite Hf; cbn [negb];
    unfold bind at 1; by rewrite Hf.
Qed.

Lemma update_credential_file_outcome (username client_id : string)
    (credential_data : pyval) (request_clientname : string) (w : world) :
  let fname :=
    os_path_join (get_client_proxies_dir username)
      ("credential_" ++ request_clientname ++ "_" ++ escapeParam client_id) in
  ∃ w' e,
    update_credential_file username client_id credential_data
                           request_clientname w = (w', Err e)
    ∧ touched_by_safe_update fname (fs w) (fs w')
    ∧ ∀ suffix, fs w' !! (fname ++ "_compressed" ++ suffix)
                = fs w !! (fname ++ "_compressed" ++ suffix).
Proof.
  intros fname. unfold update_credential_file. fold fname.
  unfold bind at 1, log_write at 1. unfold bind at 1.
  match goal with |- context [safe_update fname credential_data ?w0] =>
    destruct (safe_update_outcomes fname credential_data w0)
      as (w1 & r & Hrun & Ht & Hok); rewrite Hrun
  end.
  cbn [fs] in Ht.
  assert (∀ suffix, fs w1 !! (fname ++ "_compressed" ++ suffix)
                    = fs w !! (fname ++ "_compressed" ++ suffix)) as Hcomp.
  { intros suffix. destruct (Ht (fname ++ "_compressed" ++ suffix))
      as [Heq|[[Heq _]|([Heq|Heq] & _)]]; [done|exfalso..].
    - by apply app_suffix_inj in Heq.
    - by apply app_nonempty_ne in Heq.
    - by apply app_suffix_inj in Heq. }
  destruct r as [[]|e].
  - destruct (Hok eq_refl) as [-> _]. eexists _, _.
    split; [reflexivity|]. split; [by left|done].
  - by exists w1, e.
Qed.

(** X16. [update_credential_file] raises for every input, and the
    compressed file, with any suffix, is never touched. *)
Theorem update_credential_file_never_returns (username client_id : string)
    (credential_data : pyval) (request_clientname : string) (w : world) :
  let fname :=
    os_path_join (get_client_proxies_dir username)
      ("credential_" ++ request_clientname ++ "_" ++ escapeParam client_id) in
  ∃ w' e,
    update_credential_file username client_id credential_data
                           request_clientname w = (w', Err e)
    ∧ touched_by_safe_update fname (fs w) (fs w')
    ∧ ∀ suffix, fs w' !! (fname ++ "_compressed" ++ suffix)
                = fs w !! (fname ++ "_compressed" ++ suffix).
Proof. apply update_credential_file_outcome. Qed.

(** One turn of the loop: it writes no content, and it ends normally
    only by skipping the id. *)
Lemma process_key_outcome classad frontend_descript sym_key_obj
    frontend_sec_name request_clientname key w :
  ∃ w' r,
    process_key classad frontend_descript sym_key_obj frontend_sec_name
                request_clientname key w = (w', r)
    ∧ no_new_content (fs w) (fs w')
    ∧ (r = Ok tt →
       ∃ cred_data security_class msg,
         decrypts_to classad sym_key_obj key cred_data security_class
         ∧ get_username frontend_descript frontend_sec_name security_class = None
         ∧ w' = World (fs w) (log w ++ [LogError msg]) (nfds w)).
Proof.
  unfold process_key.
  unfold bind at 1, lift at 1.
  destruct (let? c := getitem classad _ in decrypt_hex sym_key_obj c)
    as [cred_data|e] eqn:Hdata.
  2:{ exists w, (Err e). split; [done|]. split; [apply no_new_content_refl|done]. }
  unfold bind at 1, lift at 1.
  destruct (decrypt_str sym_key_obj classad key) as [security_class|e] eqn:Hclass.
  2:{ exists w, (Err e). split; [done|]. split; [apply no_new_content_refl|done]. }
  destruct (get_username frontend_descript frontend_sec_name security_class)
    as [username|] eqn:Huser.
  - unfold bind at 1, log_write at 1. unfold bind at 1.
    match goal with |- context [update_credential_file ?u ?i ?d ?c ?w0] =>
      destruct (update_credential_file_outcome u i d c w0)
        as (w' & e & -> & Ht & _)
    end.
    exists w', (Err e). split; [done|]. split; [|done].
    by eapply touched_no_new_content.
  - unfold bind at 1, lift at 1.
    destruct (getitem classad "ClientName") as [client|e].
    2:{ exists w, (Err e). split; [done|]. split; [apply no_new_content_refl|done]. }
    eexists _, _. split; [reflexivity|]. split; [apply no_new_content_refl|].
    intros _. by eexists cred_data, security_class, _.
Qed.

Lemma for_each_process_key classad frontend_descript sym_key_obj
    frontend_sec_name request_clientname keys w :
  ∃ w' r,
    for_each keys (process_key classad frontend_descript sym_key_obj
                               frontend_sec_name request_clientname) w = (w', r)
    ∧ no_new_content (fs w) (fs w')
    ∧ (r = Ok tt →
       (∀ key, key ∈ keys →
          ∃ cred_data security_class,
            decrypts_to classad sym_key_obj key cred_data security_class
            ∧ get_username frontend_descript frontend_sec_name security_class
              = None)
       ∧ ∃ entries, w' = World (fs w) (log w ++ entries) (nfds w)
                    ∧ length entries = length keys
                    ∧ Forall is_LogError entries).
Proof.
  revert w. induction keys as [|key keys IH]; intros w.
  - exists w, (Ok tt). split; [done|]. split; [apply no_new_content_refl|].
    intros _. split; [by intros key Hkey%elem_of_nil|].
    exists []. rewrite app_nil_r. by destruct w.
  - cbn [for_each]. unfold bind.
    destruct (process_key_outcome classad frontend_descript sym_key_obj
                frontend_sec_name request_clientname key w)
      as (w1 & r1 & -> & Hc1 & Hok1).
    destruct r1 as [[]|e].
    2:{ exists w1, (Err e). done. }
    destruct (Hok1 eq_refl) as (cd & sc & msg & Hdec & Huser & ->).
    destruct (IH (World (fs w) (log w ++ [LogError msg]) (nfds w)))
      as (w2 & r2 & -> & Hc2 & Hok2).
    exists w2, r2. split; [done|]. split; [done|].
    intros ->. destruct (Hok2 eq_refl) as (Hall & entries & -> & Hlen & Hent).
    split.
    + intros k [->|Hk]%elem_of_cons; eauto.
    + exists (LogError msg :: entries). cbn. rewrite <- app_assoc.
      split; [done|]. split; [by rewrite Hlen|].
      constructor; [by exists msg|done].
Qed.

Lemma for_each_all_skipped classad frontend_descript sym_key_obj
    frontend_sec_name request_clientname client keys :
  dict_get classad "ClientName" = Some client →
  (∀ key, key ∈ keys →
     ∃ cred_data security_class,
       decrypts_to classad sym_key_obj key cred_data security_class
       ∧ get_username frontend_descript frontend_sec_name security_class = None) →
  ∀ w, ∃ w', for_each keys (process_key classad frontend_descript sym_key_obj
                              frontend_sec_name request_clientname) w
             = (w', Ok tt).
Proof.
  intros Hclient. induction keys as [|key keys IH]; intros Hall w; [by eexists|].
  cbn [for_each]. unfold bind.
  destruct (Hall key) as (cd & sc & Hdec & Huser); [by left|].
  rewrite (process_key_skips _ _ _ _ _ _ _ _ _ _ Hdec Huser Hclient).
  apply IH. intros k0 Hk0. apply Hall. by right.
Qed.

(** The body of the [try] block, by its outcome. *)
Lemma process_global_body_outcome classad frontend_descript pub_key_obj w :
  ∃ w' r,
    process_global_body classad frontend_descript pub_key_obj w = (w', r)
    ∧ no_new_content (fs w) (fs w')
    ∧ (r = Ok tt ↔
       ∃ sym_key_obj frontend_sec_name,
         validate_frontend classad frontend_descript pub_key_obj w
           = (w, Ok (sym_key_obj, frontend_sec_name))
         ∧ is_Some (dict_get classad "ClientName")
         ∧ ∀ key, key ∈ mkeys classad →
             ∃ cred_data security_class,
               decrypts_to classad sym_key_obj key cred_data security_class
               ∧ get_username frontend_descript frontend_sec_name security_class
                 = None)
    ∧ (r = Ok tt →
       ∃ entries, w' = World (fs w) (log w ++ entries) (nfds w)
                  ∧ length entries = length (mkeys classad)
                  ∧ Forall is_LogError entries).
Proof.
  unfold process_global_body. unfold bind at 1.
  destruct (validate_frontend classad frontend_descript pub_key_obj w)
    as [w1 [[k sn]|e]] eqn:Hval.
  2:{ exists w1, (Err e). split; [done|]. split.
      - pose proof (validate_frontend_fs classad frontend_descript pub_key_obj w) as Hfs.
        rewrite Hval in Hfs. cbn in Hfs. rewrite <- Hfs. apply no_new_content_refl.
      - split; [|done]. split; [done|]. by intros (? & ? & ? & _). }
  destruct (validate_frontend_ok_inv _ _ _ _ _ _ _ Hval) as [-> _].
  unfold bind at 1, lift at 1, getitem.
  destruct (dict_get classad "ClientName") as [client|] eqn:Hclient.
  2:{ eexists _, _. split; [reflexivity|]. split; [apply no_new_content_refl|].
      split; [|done]. split; [done|]. intros (? & ? & _ & [? ?] & _). done. }
  destruct (for_each_process_key classad frontend_descript k sn client
              (mkeys classad) w) as (w' & r & Hfor & Hc & Hok).
  rewrite Hfor. exists w', r. split; [done|]. split; [done|]. split.
  - split.
    + intros Hr. exists k, sn. split; [done|]. split; [by eexists|].
      by apply Hok.
    + intros (k' & sn' & [= <- <-] & _ & Hall).
      destruct r as [[]|e]; [done|]. exfalso.
      (* the loop raised although every id is to be skipped *)
      destruct (for_each_all_skipped classad frontend_descript k sn client
                  client (mkeys classad) Hclient Hall w) as (w2 & Hw2).
      congruence.
  - intros Hr. by apply Hok.
Qed.

Lemma process_global_via_body classad glidein_descript frontend_descript
    pub_key_obj w w1 r1 :
  data_PubKeyObj glidein_descript = Some pub_key_obj →
  process_global_body classad frontend_descript pub_key_obj w = (w1, r1) →
  process_global classad glidein_descript frontend_descript w
  = match r1 with
    | Ok _ => (w1, Ok tt)
    | Err _ =>
        (World (fs w1)
               (log w1 ++ [LogDebug "classad, frontend_descript, pub_key_obj";
                           LogException msg_globals])
               (nfds w1),
         Err (CredentialError msg_globals))
    end.
Proof.
  intros Hpk Hbody. unfold process_global, try_except. rewrite Hpk, Hbody.
  destruct r1 as [[]|e]; [done|]. cbn. by rewrite <- app_assoc.
Qed.

(** X17. [process_global] raises [CredentialError] only: the
    missing-key message, before anything is done, or the one message of
    its handler. *)
Theorem process_global_error_kinds (classad : classad_t)
    (glidein_descript : GlideinDescript) (frontend_descript : FrontendDescript)
    (w w' : world) (e : exn) :
  process_global classad glidein_descript frontend_descript w = (w', Err e) →
  (data_PubKeyObj glidein_descript = None
   ∧ e = CredentialError msg_no_public_key ∧ w' = w)
  ∨ (is_Some (data_PubKeyObj glidein_descript)
     ∧ e = CredentialError msg_globals).
Proof.
  destruct (data_PubKeyObj glidein_descript) as [pk|] eqn:Hpk.
  - destruct (process_global_body classad frontend_descript pk w) as [w1 r1] eqn:Hb.
    rewrite (process_global_via_body _ _ _ _ _ _ _ Hpk Hb).
    destruct r1 as [[]|e1]; [done|]. intros [= <- <-]. right.
    split; [by eexists|done].
  - unfold process_global. rewrite Hpk. intros [= <- <-]. by left.
Qed.

(** X18. [process_global] returns normally exactly when the ClassAd
    authenticates, has a [ClientName], and every embedded id decrypts
    and has no user mapping; it then leaves the file system alone and
    logs one error per id. *)
Theorem process_global_returns_iff (classad : classad_t)
    (glidein_descript : GlideinDescript) (frontend_descript : FrontendDescript)
    (w : world) :
  ((∃ w', process_global classad glidein_descript frontend_descript w
          = (w', Ok tt))
   ↔ ∃ pub_key_obj sym_key_obj frontend_sec_name,
       data_PubKeyObj glidein_descript = Some pub_key_obj
       ∧ validate_frontend classad frontend_descript pub_key_obj w
         = (w, Ok (sym_key_obj, frontend_sec_name))
       ∧ is_Some (dict_get classad "ClientName")
       ∧ ∀ key, key ∈ mkeys classad →
           ∃ cred_data security_class,
             decrypts_to classad sym_key_obj key cred_data security_class
             ∧ get_username frontend_descript frontend_sec_name security_class
               = None)
  ∧ (∀ w', process_global classad glidein_descript frontend_descript w
           = (w', Ok tt) →
       ∃ entries, w' = World (fs w) (log w ++ entries) (nfds w)
                  ∧ length entries = length (mkeys classad)
                  ∧ Forall is_LogError entries).
Proof.
  destruct (data_PubKeyObj glidein_descript) as [pk|] eqn:Hpk.
  2:{ unfold process_global. rewrite Hpk. split; [split|].
      - by intros [w' [=]].
      - by intros (? & ? & ? & [=] & _).
      - by intros w' [=]. }
  destruct (process_global_body_outcome classad frontend_descript pk w)
    as (w1 & r1 & Hb & _ & Hiff & Hok).
  rewrite (process_global_via_body _ _ _ _ _ _ _ Hpk Hb). split; [split|].
  - intros [w' Hrun]. destruct r1 as [[]|e1]; [|done].
    destruct (proj1 Hiff eq_refl) as (k & sn & ?). by exists pk, k, sn.
  - intros (pk' & k & sn & [= <-] & Hrest).
    assert (r1 = Ok tt) as -> by (apply Hiff; by exists k, sn).
    by eexists.
  - intros w'. destruct r1 as [[]|e1]; [|done]. intros [= <-]. by apply Hok.
Qed.

(** X19. [process_global] stores no credential: whatever its outcome,
    a regular file afterwards is a file from before, or is empty. *)
Theorem process_global_writes_no_content (classad : classad_t)
    (glidein_descript : GlideinDescript) (frontend_descript : FrontendDescript)
    (w w' : world) (r : result unit) :
  process_global classad glidein_descript frontend_descript w = (w', r) →
  no_new_content (fs w) (fs w').
Proof.
  destruct (data_PubKeyObj glidein_descript) as [pk|] eqn:Hpk.
  2:{ unfold process_global. rewrite Hpk. intros [= <- _]. apply no_new_content_refl. }
  destruct (process_global_body_outcome classad frontend_descript pk w)
    as (w1 & r1 & Hb & Hc & _).
  rewrite (process_global_via_body _ _ _ _ _ _ _ Hpk Hb).
  destruct r1 as [[]|e1]; by intros [= <- _].
Qed.
End StoreFacts.

(** ** SubmitCredentials: what the accessors store *)


(** ** Credential factory *)

Lemma class_dict_lookup (cred_type : string) (cls : cred_class) :
  foldl (λ d i, <[cls_cred_type i := i]> d) (∅ : gmap string cred_class)
        Credential_subclasses !! cred_type = Some cls ↔
  cls ∈ Credential_subclasses ∧ cls_cred_type cls = cred_type.
Proof.
  cbn [foldl Credential_subclasses cls_cred_type].
  rewrite !lookup_insert, lookup_empty. unfold Credential_subclasses.
  rewrite !elem_of_cons, elem_of_nil.
  repeat case_decide; subst; cbn.
  all: split; [intros [= <-]; cbn; tauto || (split; [tauto|done]) | ].
  all: try (intros [Hin Heq]; repeat destruct Hin as [->|Hin]; cbn in *; done).
Qed.

Section FactoryFacts.
Context {bi : PyBuiltins}.

Lemma subclass_init_type cls krx :
  cls ∈ Credential_subclasses →
  get_cred_type (cls_init cls krx) = cls_cred_type cls
  ∧ cred_common (cls_init cls krx) = common_of krx.
Proof.
  unfold Credential_subclasses. rewrite !elem_of_cons, elem_of_nil.
  intros Hin. repeat destruct Hin as [->|Hin]; done.
Qed.

(** What [create_cred] does once the class is found. *)
Lemma create_cred_found cred_type krx cls :
  cls ∈ Credential_subclasses → cls_cred_type cls = cred_type →
  create_cred cred_type krx =
    if bool_decide (dom krx = list_to_set (cls_params cls))
    then Ok (cls_init cls krx)
    else Err (CredentialError ("Incorrect parameters for credential "
                                 ++ cred_type ++ ": " ++ repr_kwargs krx)).
Proof.
  intros Hin Hty. unfold create_cred.
  rewrite (proj2 (class_dict_lookup cred_type cls)) by done.
  unfold call_class. by case_bool_decide.
Qed.

Lemma create_cred_not_found cred_type krx :
  (∀ cls, cls ∈ Credential_subclasses → cls_cred_type cls ≠ cred_type) →
  create_cred cred_type krx
  = Err (CredentialError ("Unknown Credential type: " ++ cred_type)).
Proof.
  intros Hno. unfold create_cred.
  destruct (foldl _ _ _ !! cred_type) as [cls|] eqn:Hl; [|done].
  apply class_dict_lookup in Hl as [Hin Hty]. by destruct (Hno cls Hin).
Qed.

(** X21. A credential that [create_cred] returns has the requested
    type, carries the common fields as passed, and was given exactly the
    parameters of its class. *)
Theorem create_cred_kind_and_fields (cred_type : string) (krx : kwargs)
    (c : Credential) :
  create_cred cred_type krx = Ok c →
  get_cred_type c = cred_type
  ∧ cred_common c = common_of krx
  ∧ ∃ cls, cls ∈ Credential_subclasses ∧ cls_cred_type cls = cred_type
           ∧ dom krx = list_to_set (cls_params cls).
Proof.
  intros Hrun.
  assert (∃ cls, cls ∈ Credential_subclasses ∧ cls_cred_type cls = cred_type)
    as (cls & Hin & Hty).
  { unfold create_cred in Hrun.
    destruct (foldl _ _ _ !! cred_type) as [cls|] eqn:Hl; [|done].
    exists cls. by apply class_dict_lookup. }
  rewrite (create_cred_found _ _ cls Hin Hty) in Hrun.
  case_bool_decide as Hdom; [|done]. injection Hrun as <-.
  destruct (subclass_init_type cls krx Hin) as [-> ->].
  split; [done|]. split; [done|]. by exists cls.
Qed.

(** X22. [create_cred] raises [CredentialError]: for a type that no
    subclass declares, and for a known type when a parameter is missing
    or an argument is not a parameter. *)
Theorem create_cred_rejects (cred_type : string) (krx : kwargs) :
  (cred_type ∉ cls_cred_type <$> Credential_subclasses →
   create_cred cred_type krx
   = Err (CredentialError ("Unknown Credential type: " ++ cred_type)))
  ∧ (∀ cls name,
       cls ∈ Credential_subclasses → cls_cred_type cls = cred_type →
       (name ∈ cls_params cls ∧ krx !! name = None)
       ∨ ((name ∉ cls_params cls) ∧ is_Some (krx !! name)) →
       create_cred cred_type krx
       = Err (CredentialError ("Incorrect parameters for credential "
                                 ++ cred_type ++ ": " ++ repr_kwargs krx))).
Proof.
  split.
  - intros Hno. apply create_cred_not_found. intros cls Hin Hty. apply Hno.
    apply list_elem_of_fmap. by exists cls.
  - intros cls name Hin Hty Hbad. rewrite (create_cred_found _ _ cls Hin Hty).
    rewrite bool_decide_eq_false_2; [done|]. intros Hdom.
    assert (name ∈ dom krx ↔ name ∈ cls_params cls) as Hiff
      by (by rewrite Hdom, elem_of_list_to_set).
    rewrite elem_of_dom in Hiff.
    destruct Hbad as [[Hp Hk]|[Hp Hk]].
    + apply Hiff in Hp. rewrite Hk in Hp. by destruct Hp.
    + by apply Hp, Hiff.
Qed.

(** X23. [auth_file] requires [rem_user] and forgets it: the created
    credential does not depend on the value passed. *)
Theorem create_cred_auth_file_drops_rem_user (krx : kwargs) (v v' : field)
    (c : Credential) :
  create_cred "auth_file" (<["rem_user" := v]> krx) = Ok c →
  create_cred "auth_file" (<["rem_user" := v']> krx) = Ok c.
Proof.
  set (cls := CredClass "auth_file" ("file" :: common_params ++ ["rem_user"])%list
                (λ krx, auth_file (kwarg krx "file") (common_of krx))).
  assert (cls ∈ Credential_subclasses) as Hin
    by (unfold Credential_subclasses; rewrite !elem_of_cons; tauto).
  rewrite !(create_cred_found "auth_file" _ cls Hin eq_refl).
  rewrite !dom_insert_L.
  case_bool_decide as Hdom; [|done]. intros [= <-].
  cbn [cls_init cls]. unfold common_of, kwarg.
  by rewrite !lookup_insert_ne.
Qed.
End FactoryFacts.

(** ** Local SciToken lookup *)

Lemma dict_get_keys (d : classad_t) k : k ∈ dict_keys d → is_Some (dict_get d k).
Proof.
  unfold dict_keys. induction d as [|[k' v] d IH]; cbn; [by intros ?%elem_of_nil|].
  intros [->|Hin]%elem_of_cons.
  - rewrite bool_decide_eq_true_2 by done. by eexists.
  - case_bool_decide; [by eexists|]. by apply IH.
Qed.

Lemma scitoken_path_ok cfnames ctm tdm td acc p :
  scitoken_path cfnames ctm tdm td acc = Ok p →
  p = acc ∨ (p ∈ cfnames ∧ scitoken_for ctm tdm td p).
Proof.
  revert acc. induction cfnames as [|c rest IH]; intros acc; cbn.
  - intros [= ->]. by left.
  - unfold getitem.
    destruct (dict_get ctm c) as [ty|] eqn:Hty; cbn; [|done].
    case_bool_decide as Hsci.
    + destruct (dict_get tdm c) as [dom|] eqn:Hdom; cbn; [|done].
      intros Hrun. apply IH in Hrun as [->|[Hin Hfor]].
      * case_bool_decide as Htd; [|by left]. right. split; [by left|].
        split; congruence.
      * right. split; [by right|done].
    + intros Hrun. apply IH in Hrun as [->|[Hin Hfor]]; [by left|].
      right. split; [by right|done].
Qed.

Lemma scitoken_path_err cfnames ctm tdm td acc e :
  (∀ c, c ∈ cfnames → is_Some (dict_get ctm c)) →
  scitoken_path cfnames ctm tdm td acc = Err e →
  ∃ cfname, cfname ∈ cfnames ∧ e = KeyError cfname
            ∧ dict_get ctm cfname = Some "scitoken"
            ∧ dict_get tdm cfname = None.
Proof.
  revert acc. induction cfnames as [|c rest IH]; intros acc Hkeys; cbn; [done|].
  unfold getitem.
  destruct (Hkeys c) as [ty Hty]; [by left|]. rewrite Hty. cbn.
  assert (∀ c', c' ∈ rest → is_Some (dict_get ctm c')) as Hrest
    by (intros c' Hc'; apply Hkeys; by right).
  case_bool_decide as Hsci.
  - destruct (dict_get tdm c) as [dom|] eqn:Hdom; cbn.
    + intros Hrun. destruct (IH _ Hrest Hrun) as (cf & Hin & Hrest').
      exists cf. split; [by right|done].
    + intros [= <-]. exists c. split; [by left|]. subst ty. done.
  - intros Hrun. destruct (IH _ Hrest Hrun) as (cf & Hin & Hrest').
    exists cf. split; [by right|done].
Qed.

Lemma scitoken_path_no_match (cfnames : list string) ctm tdm td acc :
  well_keyed cfnames ctm tdm →
  (∀ c, c ∈ cfnames → ¬ scitoken_for ctm tdm td c) →
  scitoken_path cfnames ctm tdm td acc = Ok acc.
Proof.
  induction cfnames as [|c rest IH]; intros Hwk Hno; cbn; [done|].
  destruct (Hwk c) as (ty & Hty & Hdom); [by left|].
  unfold getitem. rewrite Hty. cbn.
  assert (scitoken_path rest ctm tdm td acc = Ok acc) as Hrest.
  { apply IH; [intros c' Hc'; apply Hwk; by right
              |intros c' Hc'; apply Hno; by right]. }
  case_bool_decide as Hsci; [|done].
  destruct (Hdom Hsci) as [d Hd]. rewrite Hd. cbn.
  rewrite bool_decide_eq_false_2; [done|].
  intros ->. apply (Hno c); [by left|]. split; congruence.
Qed.

Lemma scitoken_path_prefix (pre l : list string) ctm tdm td acc :
  well_keyed pre ctm tdm →
  ∃ acc', scitoken_path (pre ++ l) ctm tdm td acc
          = scitoken_path l ctm tdm td acc'.
Proof.
  revert acc. induction pre as [|c pre IH]; intros acc Hwk; cbn; [by eexists|].
  destruct (Hwk c) as (ty & Hty & Hdom); [by left|].
  unfold getitem. rewrite Hty. cbn.
  assert (well_keyed pre ctm tdm) as Hwk' by (intros c' Hc'; apply Hwk; by right).
  case_bool_decide as Hsci; [|by apply IH].
  destruct (Hdom Hsci) as [d Hd]. rewrite Hd. cbn. by apply IH.
Qed.

(** The last matching file name wins. *)
Lemma scitoken_path_last (pre post : list string) cfname ctm tdm td acc :
  well_keyed (pre ++ cfname :: post) ctm tdm →
  scitoken_for ctm tdm td cfname →
  (∀ c, c ∈ post → ¬ scitoken_for ctm tdm td c) →
  scitoken_path (pre ++ cfname :: post) ctm tdm td acc = Ok cfname.
Proof.
  intros Hwk [Hc1 Hc2] Hpost.
  destruct (scitoken_path_prefix pre (cfname :: post) ctm tdm td acc) as [acc' ->].
  { intros c Hc. apply Hwk, elem_of_app. by left. }
  cbn. unfold getitem. rewrite Hc1. cbn. rewrite bool_decide_eq_true_2 by done.
  rewrite Hc2. cbn. rewrite bool_decide_eq_true_2 by done.
  apply scitoken_path_no_match; [|done].
  intros c Hc. apply Hwk, elem_of_app. right. by right.
Qed.

Section SciTokenFacts.
Context {rt : PyRuntime} {bi : PyBuiltins}.

Lemma get_scitoken_unfold elementDescript trust_domain w :
  get_scitoken elementDescript trust_domain w =
    match scitoken_lookup elementDescript trust_domain with
    | Err e => (w, Err e)
    | Ok path =>
        if negb (bool_decide (path = EmptyString))
           && bool_decide (is_Some (fs w !! path))
        then read_token path w
        else (w, Ok None)
    end.
Proof.
  unfold get_scitoken, scitoken_lookup, read_token.
  destruct (descript_get elementDescript "ProxyTrustDomains") as [tdd|];
    destruct (descript_get elementDescript "ProxyTypes") as [ctd|];
    try (unfold bind at 1, ret at 1, os_path_exists; cbn;
         by rewrite ?andb_false_l).
  destruct (py_truthy (Some tdd) && py_truthy (Some ctd)).
  - unfold bind at 1, lift at 1.
    destruct (let? cred_type_map := py_eval ctd in _) as [path|e]; [|done].
    unfold bind at 1, os_path_exists.
    by destruct (negb _ && _).
  - unfold bind at 1, ret at 1, os_path_exists. cbn. by rewrite ?andb_false_l.
Qed.

Lemma read_token_outcome path w :
  ∃ w' r, read_token path w = (w', Ok r)
    ∧ fs w' = fs w
    ∧ (∀ token, r = Some token →
         ∃ mode X s, fs w !! path = Some (File mode X)
                     ∧ text_decode X = Ok s ∧ token = str_strip s)
    ∧ (∀ mode X s, fs w !! path = Some (File mode X) → text_decode X = Ok s →
         r = Some (str_strip s)).
Proof.
  unfold read_token, try_except. unfold bind at 1, log_write at 1.
  unfold bind at 1, with_as, builtin_open. unfold bind at 1. cbn [fs].
  destruct (fs w !! path) as [[mode X|]|] eqn:Hp.
  - unfold bind at 1. cbn [context_enter ret]. unfold read_all, method_read.
    unfold bind at 1. cbn [fs]. rewrite Hp.
    destruct (text_decode X) as [s|e] eqn:Hdec; cbn.
    + eexists _, _. split; [reflexivity|]. split; [done|]. split.
      * intros token [= <-]. by exists mode, X, s.
      * intros m' X' s' [= <- <-] Hs. congruence.
    + eexists _, _. split; [reflexivity|]. split; [done|]. split; [done|].
      intros m' X' s' [= <- <-] Hs. congruence.
  - cbn. eexists _, _. split; [reflexivity|]. split; [done|]. split; done.
  - cbn. eexists _, _. split; [reflexivity|]. split; [done|]. split; done.
Qed.

(** X24. Without [ProxyTypes] or [ProxyTrustDomains] data (absent or
    empty at both levels), [get_scitoken] returns [None]; nothing is
    evaluated, read or logged. *)
Theorem get_scitoken_unconfigured (elementDescript : ElementMergedDescript)
    (trust_domain : string) (w : world) :
  py_truthy (descript_get elementDescript "ProxyTypes") = false
  ∨ py_truthy (descript_get elementDescript "ProxyTrustDomains") = false →
  get_scitoken elementDescript trust_domain w = (w, Ok None).
Proof.
  intros Hno. rewrite get_scitoken_unfold. unfold scitoken_lookup.
  destruct (descript_get elementDescript "ProxyTrustDomains") as [tdd|];
    destruct (descript_get elementDescript "ProxyTypes") as [ctd|];
    try (cbn; by rewrite ?andb_false_l).
  assert (py_truthy (Some tdd) && py_truthy (Some ctd) = false) as ->.
  { destruct Hno as [->| ->]; [by rewrite andb_false_r|done]. }
  by cbn.
Qed.

(** X25. A token that [get_scitoken] returns is the stripped text of
    a regular file that the descript declares as [scitoken] for the
    trust domain. *)
Theorem get_scitoken_token_origin (elementDescript : ElementMergedDescript)
    (trust_domain token : string) (w w' : world) :
  get_scitoken elementDescript trust_domain w = (w', Ok (Some token)) →
  fs w' = fs w
  ∧ ∃ ctd tdd cred_type_map trust_domain_map path mode X s,
      descript_get elementDescript "ProxyTypes" = Some ctd
      ∧ descript_get elementDescript "ProxyTrustDomains" = Some tdd
      ∧ py_eval ctd = Ok cred_type_map
      ∧ py_eval tdd = Ok trust_domain_map
      ∧ scitoken_for cred_type_map trust_domain_map trust_domain path
      ∧ fs w !! path = Some (File mode X)
      ∧ text_decode X = Ok s
      ∧ token = str_strip s.
Proof.
  rewrite get_scitoken_unfold.
  destruct (scitoken_lookup elementDescript trust_domain) as [path|e] eqn:Hl; [|done].
  destruct (negb (bool_decide (path = EmptyString))) eqn:Hne; cbn [andb]; [|done].
  destruct (bool_decide (is_Some (fs w !! path))); [|done].
  destruct (read_token_outcome path w) as (w1 & r & Hrun & Hfs & Hsome & _).
  rewrite Hrun. intros [= <- ->]. split; [done|].
  destruct (Hsome token eq_refl) as (mode & X & s & Hp & Hdec & ->).
  apply negb_true_iff, bool_decide_eq_false in Hne.
  unfold scitoken_lookup in Hl.
  destruct (descript_get elementDescript "ProxyTrustDomains") as [tdd|];
    destruct (descript_get elementDescript "ProxyTypes") as [ctd|];
    try (by injection Hl as <-).
  destruct (py_truthy (Some tdd) && py_truthy (Some ctd)); [|by injection Hl as <-].
  destruct (py_eval ctd) as [ctm|] eqn:Hctm; [|done].
  destruct (py_eval tdd) as [tdm|] eqn:Htdm; [|done]. cbn in Hl.
  apply scitoken_path_ok in Hl as [->|[_ Hfor]]; [done|].
  by exists ctd, tdd, ctm, tdm, path, mode, X, s.
Qed.

(** X26. [get_scitoken] raises only what evaluating the descript data
    raises, or the [KeyError] of a [scitoken] file without trust domain;
    a token file that cannot be read never makes it raise. *)
Theorem get_scitoken_error_kinds (elementDescript : ElementMergedDescript)
    (trust_domain : string) (w w' : world) (e : exn) :
  get_scitoken elementDescript trust_domain w = (w', Err e) →
  w' = w
  ∧ ∃ ctd tdd,
      descript_get elementDescript "ProxyTypes" = Some ctd
      ∧ descript_get elementDescript "ProxyTrustDomains" = Some tdd
      ∧ (py_eval ctd = Err e
         ∨ ∃ cred_type_map,
             py_eval ctd = Ok cred_type_map
             ∧ (py_eval tdd = Err e
                ∨ ∃ trust_domain_map cfname,
                    py_eval tdd = Ok trust_domain_map
                    ∧ e = KeyError cfname
                    ∧ dict_get cred_type_map cfname = Some "scitoken"
                    ∧ dict_get trust_domain_map cfname = None)).
Proof.
  rewrite get_scitoken_unfold.
  destruct (scitoken_lookup elementDescript trust_domain) as [path|e0] eqn:Hl.
  { destruct (negb _ && _); [|done].
    destruct (read_token_outcome path w) as (w1 & r & -> & _). done. }
  intros [= <- <-]. split; [done|].
  unfold scitoken_lookup in Hl.
  destruct (descript_get elementDescript "ProxyTrustDomains") as [tdd|];
    destruct (descript_get elementDescript "ProxyTypes") as [ctd|]; try done.
  destruct (py_truthy (Some tdd) && py_truthy (Some ctd)); [|done].
  exists ctd, tdd. split; [done|]. split; [done|].
  destruct (py_eval ctd) as [ctm|] eqn:Hctm; [|left; by injection Hl as ->].
  right. exists ctm. split; [done|].
  destruct (py_eval tdd) as [tdm|] eqn:Htdm; [|left; by injection Hl as ->].
  right. cbn in Hl.
  apply scitoken_path_err in Hl as (cf & _ & -> & Hty & Hdom);
    [|by apply dict_get_keys].
  by exists tdm, cf.
Qed.

(** X27. When several files are declared [scitoken] for the trust
    domain, the last one in the order of the map is read. *)
Theorem get_scitoken_last_match (elementDescript : ElementMergedDescript)
    (trust_domain ctd tdd cfname s : string)
    (cred_type_map trust_domain_map : classad_t) (pre post : list string)
    (mode : N) (X : bytes) (w : world) :
  descript_get elementDescript "ProxyTypes" = Some ctd → ctd ≠ EmptyString →
  descript_get elementDescript "ProxyTrustDomains" = Some tdd →
  tdd ≠ EmptyString →
  py_eval ctd = Ok cred_type_map →
  py_eval tdd = Ok trust_domain_map →
  (∀ c, dict_get cred_type_map c = Some "scitoken" →
        is_Some (dict_get trust_domain_map c)) →
  dict_keys cred_type_map = (pre ++ cfname :: post)%list →
  scitoken_for cred_type_map trust_domain_map trust_domain cfname →
  (∀ c, c ∈ post → ¬ scitoken_for cred_type_map trust_domain_map trust_domain c) →
  cfname ≠ EmptyString →
  fs w !! cfname = Some (File mode X) →
  text_decode X = Ok s →
  get_scitoken elementDescript trust_domain w
  = (World (fs w) (log w ++ [LogDebug ("found scitoken " ++ cfname)]) (nfds w),
     Ok (Some (str_strip s))).
Proof.
  intros Hct Hctne Htd Htdne Hctm Htdm Hdom Hkeys Hfor Hpost Hne Hfile Hdec.
  rewrite get_scitoken_unfold. unfold scitoken_lookup.
  rewrite Hct, Htd. cbn [py_truthy].
  rewrite !bool_decide_eq_false_2 by done. cbn [negb andb].
  rewrite Hctm, Htdm. cbn [rbind]. rewrite Hkeys.
  rewrite scitoken_path_last; [|..|done|done].
  2:{ intros c Hc. rewrite <- Hkeys in Hc.
      destruct (dict_get_keys _ _ Hc) as [ty Hty]. exists ty. split; [done|].
      intros ->. by apply Hdom. }
  rewrite bool_decide_eq_false_2 by done. rewrite Hfile.
  rewrite bool_decide_eq_true_2 by by eexists. cbn [negb andb].
  unfold read_token, try_except. unfold bind at 1, log_write at 1.
  unfold bind at 1, with_as, builtin_open. unfold bind at 1. cbn [fs].
  rewrite Hfile. unfold bind at 1. cbn [context_enter ret].
  unfold read_all, method_read. unfold bind at 1. cbn [fs]. rewrite Hfile, Hdec.
  done.
Qed.
End SciTokenFacts.

(** ** Credential generator plugins *)

Section PluginFacts.
Context {bi : PyBuiltins} {ps : PluginSource}.

Lemma cache_grown_refl plugins : cache_grown plugins plugins.
Proof. split; [done|]. intros g p Hg. by left. Qed.

Lemma cache_grown_trans p1 p2 p3 :
  cache_grown p1 p2 → cache_grown p2 p3 → cache_grown p1 p3.
Proof.
  intros [Hs1 Hn1] [Hs2 Hn2]. split; [by etrans|].
  intros g p Hg. destruct (Hn2 g p Hg) as [Hg2|Himp]; [|by right]. by apply Hn1.
Qed.

Lemma run_generator_outcome generator group_name glidein_el trust_domain plugins :
  ∃ plugins' r,
    run_generator generator group_name glidein_el trust_domain plugins
    = (plugins', r)
    ∧ cache_grown plugins plugins'
    ∧ ∀ token, r = POk token →
        ∃ p a lifetime, plugins' !! generator = Some p
                        ∧ attrs glidein_el = Some a
                        ∧ get_credential p group_name (entry_of a) trust_domain
                          = POk (token, lifetime).
Proof.
  unfold run_generator.
  destruct (plugins !! generator) as [p|] eqn:Hcached.
  - destruct (attrs glidein_el) as [a|] eqn:Ha.
    + destruct (get_credential p group_name (entry_of a) trust_domain)
        as [[stkn lt]|e] eqn:Hget.
      * eexists _, _. split; [reflexivity|]. split; [apply cache_grown_refl|].
        intros token [= <-]. by exists p, a, lt.
      * eexists _, _. split; [reflexivity|]. split; [apply cache_grown_refl|done].
    + eexists _, _. split; [reflexivity|]. split; [apply cache_grown_refl|done].
  - destruct (import_module generator) as [p|e] eqn:Himp.
    2:{ eexists _, _. split; [reflexivity|]. split; [apply cache_grown_refl|done]. }
    assert (cache_grown plugins (<[generator := p]> plugins)) as Hgrown.
    { split; [by apply insert_subseteq|]. intros g q.
      rewrite lookup_insert. case_decide; [|by left]. intros [= <-]. subst. by right. }
    destruct (attrs glidein_el) as [a|] eqn:Ha.
    + destruct (get_credential p group_name (entry_of a) trust_domain)
        as [[stkn lt]|e] eqn:Hget.
      * eexists _, _. split; [reflexivity|]. split; [done|].
        intros token [= <-]. exists p, a, lt. by rewrite lookup_insert_eq.
      * eexists _, _. split; [reflexivity|]. split; done.
    + eexists _, _. split; [reflexivity|]. split; done.
Qed.

Lemma generators_loop_outcome cfnames generators_map trust_domain_map glidein_el
    group_name trust_domain plugins w :
  ∃ plugins' w' r,
    generators_loop cfnames generators_map trust_domain_map glidein_el
                    group_name trust_domain plugins w = ((plugins', w'), r)
    ∧ fs w' = fs w
    ∧ cache_grown plugins plugins'
    ∧ (∀ token, r = Ok (Some token) →
         generated_by generators_map trust_domain_map glidein_el group_name
                      trust_domain plugins' token)
    ∧ (∀ e, r = Err e →
         ∃ cfname, cfname ∈ cfnames ∧ e = KeyError cfname
                   ∧ (dict_get trust_domain_map cfname = None
                      ∨ dict_get generators_map cfname = None)).
Proof.
  revert plugins w. induction cfnames as [|cfname rest IH]; intros plugins w; cbn.
  { eexists _, _, _. split; [reflexivity|]. split; [done|].
    split; [apply cache_grown_refl|]. split; done. }
  assert (∀ plugins1 w1, fs w1 = fs w → cache_grown plugins plugins1 →
    ∃ plugins' w' r,
      generators_loop rest generators_map trust_domain_map glidein_el
                      group_name trust_domain plugins1 w1 = ((plugins', w'), r)
      ∧ fs w' = fs w
      ∧ cache_grown plugins plugins'
      ∧ (∀ token, r = Ok (Some token) →
           generated_by generators_map trust_domain_map glidein_el group_name
                        trust_domain plugins' token)
      ∧ (∀ e, r = Err e →
           ∃ cf, cf ∈ cfname :: rest ∧ e = KeyError cf
                 ∧ (dict_get trust_domain_map cf = None
                    ∨ dict_get generators_map cf = None))) as Hnext.
  { intros plugins1 w1 Hfs Hgr.
    destruct (IH plugins1 w1) as (p' & w' & r & Hrun & Hfs' & Hgr' & Htok & Herr).
    exists p', w', r. split; [done|]. split; [congruence|].
    split; [by eapply cache_grown_trans|]. split; [done|].
    intros e He. destruct (Herr e He) as (cf & Hin & Hrest).
    exists cf. split; [by right|done]. }
  unfold getitem.
  destruct (dict_get trust_domain_map cfname) as [domain|] eqn:Hdom.
  2:{ eexists _, _, _. split; [reflexivity|]. split; [done|].
      split; [apply cache_grown_refl|]. split; [done|].
      intros e [= <-]. exists cfname. split; [by left|]. split; [done|by left]. }
  case_bool_decide as Htd; [|by apply Hnext; [done|apply cache_grown_refl]].
  destruct (dict_get generators_map cfname) as [generator|] eqn:Hgen.
  2:{ eexists _, _, _. split; [reflexivity|]. split; [done|].
      split; [apply cache_grown_refl|]. split; [done|].
      intros e [= <-]. exists cfname. split; [by left|]. split; [done|by right]. }
  destruct (run_generator_outcome generator group_name glidein_el trust_domain plugins)
    as (plugins1 & r1 & -> & Hgr & Htok).
  destruct r1 as [stkn|[|e1]]; [|by apply Hnext..].
  eexists _, _, _. split; [reflexivity|]. split; [done|]. split; [done|].
  split; [|done]. intros token [= <-].
  destruct (Htok stkn eq_refl) as (p & a & lt & Hp & Ha & Hget).
  exists cfname, generator, p, a, lt. subst domain. done.
Qed.

(** [generate_credential] once the descript data is picked. *)
Lemma generate_credential_outcome elementDescript glidein_el group_name
    trust_domain plugins w :
  ∃ plugins' w' r,
    generate_credential elementDescript glidein_el group_name trust_domain
                        plugins w = ((plugins', w'), r)
    ∧ fs w' = fs w
    ∧ cache_grown plugins plugins'
    ∧ (r = Ok None
       ∨ ∃ gens tdd,
           descript_get elementDescript "CredentialGenerators" = Some gens
           ∧ descript_get elementDescript "ProxyTrustDomains" = Some tdd
           ∧ ((∃ e, r = Err e ∧ py_eval gens = Err e)
              ∨ ∃ generators_map,
                  py_eval gens = Ok generators_map
                  ∧ ((∃ e, r = Err e ∧ py_eval tdd = Err e)
                     ∨ ∃ trust_domain_map,
                         py_eval tdd = Ok trust_domain_map
                         ∧ ((∃ token,
                               r = Ok (Some token)
                               ∧ generated_by generators_map trust_domain_map
                                   glidein_el group_name trust_domain
                                   plugins' token)
                            ∨ ∃ cfname,
                                r = Err (KeyError cfname)
                                ∧ cfname ∈ dict_keys generators_map
                                ∧ dict_get trust_domain_map cfname = None)))).
Proof.
  unfold generate_credential.
  destruct (descript_get elementDescript "ProxyTrustDomains") as [tdd|] eqn:Htd.
  2:{ eexists _, _, _. split; [reflexivity|]. split; [done|].
      split; [apply cache_grown_refl|by left]. }
  destruct (descript_get elementDescript "CredentialGenerators") as [gens|] eqn:Hg.
  2:{ eexists _, _, _. split; [reflexivity|]. split; [done|].
      split; [apply cache_grown_refl|by left]. }
  destruct (py_truthy (Some tdd) && py_truthy (Some gens)).
  2:{ eexists _, _, _. split; [reflexivity|]. split; [done|].
      split; [apply cache_grown_refl|by left]. }
  destruct (py_eval gens) as [gm|e] eqn:Hgm.
  2:{ eexists _, _, _. split; [reflexivity|]. split; [done|].
      split; [apply cache_grown_refl|]. right. exists gens, tdd.
      split; [done|]. split; [done|]. left. by exists e. }
  destruct (py_eval tdd) as [tdm|e] eqn:Htdm.
  2:{ eexists _, _, _. split; [reflexivity|]. split; [done|].
      split; [apply cache_grown_refl|]. right. exists gens, tdd.
      split; [done|]. split; [done|]. right. exists gm. split; [done|].
      left. by exists e. }
  destruct (generators_loop_outcome (dict_keys gm) gm tdm glidein_el group_name
              trust_domain plugins w)
    as (plugins' & w' & r & -> & Hfs & Hgr & Htok & Herr).
  exists plugins', w', r. split; [done|]. split; [done|]. split; [done|].
  destruct r as [[token|]|e]; [|by left|].
  - right. exists gens, tdd. split; [done|]. split; [done|]. right.
    exists gm. split; [done|]. right. exists tdm. split; [done|]. left.
    exists token. split; [done|]. by apply Htok.
  - right. exists gens, tdd. split; [done|]. split; [done|]. right.
    exists gm. split; [done|]. right. exists tdm. split; [done|]. right.
    destruct (Herr e eq_refl) as (cf & Hin & -> & [Hnone|Hnone]).
    + by exists cf.
    + destruct (dict_get_keys _ _ Hin) as [? ?]. congruence.
Qed.

(** X28. A plugin that is missing or raises never makes
    [generate_credential] raise: it raises only what evaluating the
    descript data raises, or the [KeyError] of a generator file without
    trust domain. *)
Theorem generate_credential_error_kinds (elementDescript : ElementMergedDescript)
    (glidein_el : GlideinEl) (group_name trust_domain : string)
    (plugins plugins' : plugin_cache) (w w' : world) (e : exn) :
  generate_credential elementDescript glidein_el group_name trust_domain
                      plugins w = ((plugins', w'), Err e) →
  ∃ gens tdd,
    descript_get elementDescript "CredentialGenerators" = Some gens
    ∧ descript_get elementDescript "ProxyTrustDomains" = Some tdd
    ∧ (py_eval gens = Err e
       ∨ ∃ generators_map,
           py_eval gens = Ok generators_map
           ∧ (py_eval tdd = Err e
              ∨ ∃ trust_domain_map cfname,
                  py_eval tdd = Ok trust_domain_map
                  ∧ e = KeyError cfname
                  ∧ cfname ∈ dict_keys generators_map
                  ∧ dict_get trust_domain_map cfname = None)).
Proof.
  intros Hrun.
  destruct (generate_credential_outcome elementDescript glidein_el group_name
              trust_domain plugins w) as (p1 & w1 & r & Hrun' & _ & _ & Hcases).
  rewrite Hrun in Hrun'. injection Hrun' as <- <- <-.
  destruct Hcases as [?|(gens & tdd & Hg & Ht & Hcases)]; [done|].
  exists gens, tdd. split; [done|]. split; [done|].
  destruct Hcases as [(e' & [= <-] & ?)|(gm & Hgm & Hcases)]; [by left|].
  right. exists gm. split; [done|].
  destruct Hcases as [(e' & [= <-] & ?)|(tdm & Htdm & Hcases)]; [by left|].
  right. destruct Hcases as [(token & ? & _)|(cf & [= ->] & ? & ?)]; [done|].
  by exists tdm, cf.
Qed.

(** X29. A token that [generate_credential] returns was produced by
    the cached plugin of a generator that the descript declares for the
    trust domain, called with the entry built from the glidein. *)
Theorem generate_credential_token_origin
    (elementDescript : ElementMergedDescript)
    (glidein_el : GlideinEl) (group_name trust_domain token : string)
    (plugins plugins' : plugin_cache) (w w' : world) :
  generate_credential elementDescript glidein_el group_name trust_domain
                      plugins w = ((plugins', w'), Ok (Some token)) →
  ∃ gens tdd generators_map trust_domain_map,
    descript_get elementDescript "CredentialGenerators" = Some gens
    ∧ descript_get elementDescript "ProxyTrustDomains" = Some tdd
    ∧ py_eval gens = Ok generators_map
    ∧ py_eval tdd = Ok trust_domain_map
    ∧ generated_by generators_map trust_domain_map glidein_el group_name
                   trust_domain plugins' token.
Proof.
  intros Hrun.
  destruct (generate_credential_outcome elementDescript glidein_el group_name
              trust_domain plugins w) as (p1 & w1 & r & Hrun' & _ & _ & Hcases).
  rewrite Hrun in Hrun'. injection Hrun' as <- <- <-.
  destruct Hcases as [?|(gens & tdd & Hg & Ht & Hcases)]; [done|].
  destruct Hcases as [(e' & ? & ?)|(gm & Hgm & Hcases)]; [done|].
  destruct Hcases as [(e' & ? & ?)|(tdm & Htdm & Hcases)]; [done|].
  destruct Hcases as [(token' & [= <-] & Hgen)|(cf & ? & _)]; [|done].
  by exists gens, tdd, gm, tdm.
Qed.

(** X30. [generate_credential] leaves the file system alone and only
    adds to the plugin cache: a cached plugin stays, a new entry is what
    [import_module] gives for its name. *)
Theorem generate_credential_cache (elementDescript : ElementMergedDescript)
    (glidein_el : GlideinEl) (group_name trust_domain : string)
    (plugins plugins' : plugin_cache) (w w' : world)
    (r : result (option string)) :
  generate_credential elementDescript glidein_el group_name trust_domain
                      plugins w = ((plugins', w'), r) →
  fs w' = fs w ∧ cache_grown plugins plugins'.
Proof.
  intros Hrun.
  destruct (generate_credential_outcome elementDescript glidein_el group_name
              trust_domain plugins w) as (p1 & w1 & r1 & Hrun' & Hfs & Hgr & _).
  rewrite Hrun in Hrun'. by injection Hrun' as <- <- <-.
Qed.
End PluginFacts.

(* ===================================================================== *)
(** * Concrete runs *)
(* ===================================================================== *)

Import Sample.

Ltac by_computation :=
  match goal with
  | |- ?P => apply (@bool_decide_unpack P _); vm_compute; exact I
  end.

(** [grid_proxy]: [{SubmitProxy}] is accepted, [{SubmitProxy, Username}]
    and [{Username, Password}] are rejected. *)
Lemma check_grid_proxy_runs :
  check_security_credentials "grid_proxy" {[ "SubmitProxy" := "p" ]}
                             "client1" "entry1" false Sample.empty_world
    = (Sample.empty_world, Ok tt)
  ∧ check_security_credentials "grid_proxy"
      {[ "SubmitProxy" := "p"; "Username" := "u" ]}
      "client1" "entry1" false Sample.empty_world
    = (Sample.empty_world,
       Err (CredentialError (msg_not_required "client1" "entry1")))
  ∧ check_security_credentials "grid_proxy"
      {[ "Username" := "u"; "Password" := "s" ]}
      "client1" "entry1" false Sample.empty_world
    = (Sample.empty_world, Err (CredentialError (msg_no_proxy "client1" "entry1"))).
Proof.
  split; [|split].
  - apply (check_grid_proxy "grid_proxy"); [by_computation..| |].
    + by_computation.
    + intros k _ Hk. rewrite dom_singleton_L in Hk. by apply elem_of_singleton in Hk.
  - apply (check_grid_proxy "grid_proxy"); [by_computation..| |].
    + by_computation.
    + exists "Username". repeat split; [by_computation..|discriminate].
  - apply (check_grid_proxy "grid_proxy"); by_computation.
Defined.

(** [cert_pair]: the full set is accepted; without [GlideinProxy],
    without [PrivateCert], or with an extra [Username] it is rejected. *)
Lemma check_cert_pair_runs :
  check_security_credentials "cert_pair"
      {[ "PublicCert" := "c"; "PrivateCert" := "k" ]}
      "client1" "entry1" false Sample.empty_world
    = (Sample.empty_world, Err (CredentialError (msg_no_glidein_proxy "client1")))
  ∧ check_security_credentials "cert_pair"
      {[ "GlideinProxy" := "g"; "PublicCert" := "c"; "PrivateCert" := "k" ]}
      "client1" "entry1" false Sample.empty_world
    = (Sample.empty_world, Ok tt)
  ∧ check_security_credentials "cert_pair"
      {[ "GlideinProxy" := "g"; "PublicCert" := "c" ]}
      "client1" "entry1" false Sample.empty_world
    = (Sample.empty_world,
       Err (CredentialError (msg_missing "certificate pair" "client1" "entry1")))
  ∧ ∃ msg, check_security_credentials "cert_pair"
      {[ "GlideinProxy" := "g"; "PublicCert" := "c"; "PrivateCert" := "k";
         "Username" := "u" ]}
      "client1" "entry1" false Sample.empty_world
    = (Sample.empty_world, Err (CredentialError msg)).
Proof.
  split; [|split; [|split]].
  - apply (check_cert_pair "cert_pair"); by_computation.
  - apply (check_cert_pair "cert_pair"); [by_computation..|].
    repeat split; [by_computation..|].
    intros k _ Hk.
    rewrite !dom_insert_L, dom_singleton_L, !elem_of_union, !elem_of_singleton in Hk.
    destruct Hk as [->|[->| ->]]; by_computation.
  - apply (check_cert_pair "cert_pair"); by_computation.
  - apply (check_cert_pair "cert_pair"); [by_computation..|].
    exists "Username". repeat split; by_computation.
Defined.

(** A request claiming another identity than the authenticated one is
    refused; the genuine one yields the key and the security name. *)
Lemma validate_frontend_runs :
  validate_frontend Sample.forged Sample.frontend_descript Sample.pub_key
                    Sample.empty_world
    = (Sample.empty_world,
       Err (CredentialError
              (msg_invalid_identity "mallory@evil.example" "fe1@cms.example")))
  ∧ validate_frontend Sample.one_id Sample.frontend_descript Sample.pub_key
                      Sample.empty_world
    = (Sample.empty_world, Ok (Sample.sym_key, "frontend1")).
Proof.
  split.
  - apply (validate_frontend_identity_checks Sample.forged _ _ _ "code-k1"
             Sample.sym_key "fe1@cms.example" "mallory@evil.example");
      [reflexivity..|discriminate].
  - apply (validate_frontend_identity_checks Sample.one_id _ _ _ "code-k1"
             Sample.sym_key "fe1@cms.example" "fe1@cms.example");
      reflexivity.
Defined.

(** The forged request writes nothing. *)
Lemma process_global_forged_run :
  ∃ w', process_global Sample.forged Sample.glidein_descript
                       Sample.frontend_descript Sample.empty_world
        = (w', Err (CredentialError msg_globals))
    ∧ fs w' = fs Sample.empty_world.
Proof.
  apply (proj1 (process_global_auth_failure Sample.forged Sample.glidein_descript
                  Sample.frontend_descript Sample.empty_world)
           Sample.pub_key Sample.empty_world
           (CredentialError
              (msg_invalid_identity "mallory@evil.example" "fe1@cms.example")));
    [reflexivity|vm_compute; reflexivity].
Defined.

(** Writing [proxy-y] over a file that holds [proxy-y]. *)
Lemma safe_update_same_bytes_run :
  ∃ w', safe_update Sample.path_Y (VBytes (b_ "proxy-y")) (Sample.world_Y (b_ "proxy-y"))
        = (w', Err enter_int_error)
    ∧ fs w' !! (Sample.path_Y ++ ".new") = Some (File mode_0o600 []).
Proof.
  apply (safe_update_same_bytes_not_noop _ mode_0o600 _ "proxy-y");
    vm_compute; reflexivity.
Defined.

(** Writing [proxy-z] over a file that holds [proxy-y]. *)
Lemma safe_update_changed_run :
  ∃ w' e, safe_update Sample.path_Y (VBytes (b_ "proxy-z")) (Sample.world_Y (b_ "proxy-y"))
          = (w', Err e)
    ∧ fs w' !! Sample.path_Y = Some (File mode_0o600 (b_ "proxy-y")).
Proof.
  apply safe_update_changed_not_installed; [vm_compute; reflexivity|discriminate].
Defined.

(** Two embedded ids, [X] without mapping and [Y] mapped to [u1]. *)
Lemma process_global_two_ids_aborts :
  ∃ w', process_global Sample.two_ids Sample.glidein_descript
                       Sample.frontend_descript Sample.empty_world
        = (w', Err (CredentialError msg_globals)).
Proof.
  apply (process_global_resolved_id_aborts Sample.two_ids _ _ Sample.pub_key
           Sample.sym_key "frontend1" "GlideinEncParamSecurityClassY" "classA"
           "u1" (b_ "proxy-y") _ Sample.empty_world);
    [reflexivity|vm_compute; reflexivity|by_computation|split; reflexivity
    |reflexivity].
Defined.

(** What the run on the two ids leaves behind: the skip of [X] is
    logged, the raw file of [Y] is created empty, no compressed file is
    written, and the call raises. *)
Example process_global_two_ids_run :
  let run := process_global Sample.two_ids Sample.glidein_descript
                            Sample.frontend_descript Sample.empty_world in
  run.2 = Err (CredentialError msg_globals)
  ∧ fs run.1 = {[ Sample.path_Y := File mode_0o600 [] ]}
  ∧ log run.1 =
      [ LogError (msg_no_mapping "X" "client1" "classZ");
        LogDebug "updating credential for u1";
        LogDebug ("updating credential file " ++ Sample.path_Y);
        LogDebug "classad, frontend_descript, pub_key_obj";
        LogException msg_globals ].
Proof. vm_compute. done. Qed.

(** A request whose ids all lack a mapping is skipped id by id and the
    call returns. *)
Example process_global_only_skips_run :
  process_global
    (Sample.request [ ("GlideinEncParamSecurityClassX", "k1:classZ");
                      ("GlideinEncParamX", "k1:proxy-x") ])
    Sample.glidein_descript Sample.frontend_descript Sample.empty_world
  = (World ∅ [LogError (msg_no_mapping "X" "client1" "classZ")] 0, Ok tt).
Proof. vm_compute. done. Qed.

(** C10 (counterexample). With a directory where the credential file
    belongs, persisting fails with the file-system error [EISDIR], and
    [process_global] raises [CredentialError], not that error. *)
Lemma persistence_error_not_propagated :
  (update_credential_file "u1" "Y" (VBytes (b_ "proxy-y")) "client1"
                          Sample.world_dir_at_Y).2
    = Err (OSError "EISDIR")
  ∧ (process_global Sample.one_id Sample.glidein_descript
                    Sample.frontend_descript Sample.world_dir_at_Y).2
    = Err (CredentialError msg_globals)
  ∧ (process_global Sample.one_id Sample.glidein_descript
                    Sample.frontend_descript Sample.world_dir_at_Y).2
    ≠ Err (OSError "EISDIR").
Proof. vm_compute. repeat split; [done..|discriminate]. Qed.

(** The same run through the amended statement. *)
Lemma process_global_remaps_run :
  ∃ w', process_global Sample.one_id Sample.glidein_descript
                       Sample.frontend_descript Sample.world_dir_at_Y
        = (w', Err (CredentialError msg_globals))
    ∧ fs w' = {[ Sample.path_Y := Dir ]}.
Proof.
  destruct (process_global_remaps_persistence_error Sample.one_id
              Sample.glidein_descript Sample.frontend_descript Sample.pub_key
              Sample.sym_key "frontend1" "client1" "GlideinEncParamSecurityClassY"
              "classA" "u1" (b_ "proxy-y") [] [] Sample.world_dir_at_Y
              Sample.world_dir_at_Y Sample.world_dir_at_Y
              (World {[ Sample.path_Y := Dir ]}
                     [ LogDebug "updating credential for u1";
                       LogDebug ("updating credential file " ++ Sample.path_Y) ] 0)
              (OSError "EISDIR"))
    as (w' & Hrun & Hfs);
    [reflexivity|vm_compute; reflexivity|reflexivity|reflexivity|reflexivity
    |split; reflexivity|reflexivity|vm_compute; reflexivity|].
  exists w'. split; [exact Hrun|exact Hfs].
Defined.

(** Storing a user name as identity credential. *)
Example add_identity_credential_run :
  SubmitCredentials.add_identity_credential
    (SubmitCredentials.init "u1" "classA") "Username" (VStr "bob")
    Sample.empty_world
  = (Sample.empty_world, Err (TypeError "Value must be a credential")).
Proof. reflexivity. Qed.

(** With a stale backup around: the file keeps [proxy-y], the backup is
    gone, an empty [".new"] stays behind. *)
Example safe_update_changed_leftovers_run :
  let w := Sample.world_with
             {[ Sample.path_Y := File mode_0o600 (b_ "proxy-y");
                Sample.path_Y ++ ".old" := File mode_0o600 (b_ "proxy-x") ]} in
  let run := safe_update Sample.path_Y (VBytes (b_ "proxy-z")) w in
  run.2 = Err enter_int_error
  ∧ fs run.1 = {[ Sample.path_Y := File mode_0o600 (b_ "proxy-y");
                  Sample.path_Y ++ ".new" := File mode_0o600 [] ]}.
Proof. vm_compute. done. Qed.

(** Text that the file already reads as is left alone. *)
Example safe_update_same_text_run :
  safe_update Sample.path_Y (VStr "proxy-y") (Sample.world_Y (b_ "proxy-y"))
  = (Sample.world_Y (b_ "proxy-y"), Ok tt).
Proof. vm_compute. done. Qed.

(* ===================================================================== *)
(** * Further concrete runs *)
(* ===================================================================== *)

Import SampleDescript.

Ltac singleton_list H :=
  cbn in H; apply elem_of_cons in H as [->|H]; [|by apply elem_of_nil in H].

(** An entry of a batch system the factory knows nothing about. *)
Lemma check_unsupported_run :
  ∃ msg,
    check_security_credentials "condor" {[ "Username" := "u" ]}
                               "client1" "entry1" false Sample.empty_world
    = (World ∅ [LogWarning msg] 0, Ok tt).
Proof.
  apply (check_unsupported_permits "condor" _ _ _ false Sample.empty_world).
  intros m Hm. singleton_list Hm. decide_closed.
Defined.

(** A composite entry: the token wins over the proxy contract. *)
Lemma check_scitoken_run :
  check_security_credentials "grid_proxy+scitoken" {[ "Username" := "u" ]}
                             "client1" "entry1" false Sample.empty_world
  = (Sample.empty_world, Ok tt).
Proof. apply check_scitoken_accepts. left. decide_closed. Defined.

Lemma check_grid_proxy_passthru_run :
  check_security_credentials "grid_proxy" {[ "Username" := "u" ]}
                             "client1" "entry1" true Sample.empty_world
  = (Sample.empty_world, Ok tt).
Proof. apply check_grid_proxy_passthru. decide_closed. Defined.

Ltac three_keys Hk :=
  rewrite !dom_insert_L, dom_singleton_L, !elem_of_union, !elem_of_singleton in Hk;
  destruct Hk as [->|[->| ->]]; decide_closed.

Lemma check_key_pair_run :
  check_security_credentials "key_pair"
    {[ "GlideinProxy" := "g"; "PublicKey" := "k"; "PrivateKey" := "s" ]}
    "client1" "entry1" false Sample.empty_world
  = (Sample.empty_world, Ok tt).
Proof.
  apply (check_key_pair "key_pair"); [decide_closed..| |].
  - intros [_ [=]].
  - split; [right; decide_closed|]. repeat split; [decide_closed..|].
    intros k _ Hk. three_keys Hk.
Defined.

Lemma check_auth_file_run :
  check_security_credentials "auth_file"
    {[ "GlideinProxy" := "g"; "AuthFile" := "a"; "VMId" := "vm1" ]}
    "client1" "entry1" false Sample.empty_world
  = (Sample.empty_world, Ok tt).
Proof.
  apply (check_auth_file "auth_file"); [decide_closed..| |].
  - intros [_ [=]].
  - split; [right; decide_closed|]. repeat split; [decide_closed..|].
    intros k _ Hk. three_keys Hk.
Defined.

Lemma check_username_password_run :
  check_security_credentials "username_password"
    {[ "GlideinProxy" := "g"; "Username" := "u"; "Password" := "s" ]}
    "client1" "entry1" false Sample.empty_world
  = (Sample.empty_world, Ok tt).
Proof.
  apply (check_username_password "username_password"); [decide_closed..| |].
  - intros [_ [=]].
  - split; [right; decide_closed|]. repeat split; [decide_closed..|].
    intros k _ Hk. three_keys Hk.
Defined.

(** An [idtoken] entry refuses a request that brings its glidein proxy. *)
Lemma check_idtoken_run :
  check_security_credentials "idtoken" {[ "GlideinProxy" := "g" ]}
                             "client1" "entry1" false Sample.empty_world
  = (Sample.empty_world, Err (CredentialError msg_inconsistency)).
Proof.
  etrans; [apply (check_no_branch_rejects "idtoken" {[ "GlideinProxy" := "g" ]})|].
  - exists "idtoken". split; decide_closed.
  - intros m Hm. singleton_list Hm. decide_closed.
  - intros [_ [=]].
  - vm_compute. reflexivity.
Defined.

Lemma check_error_kind_run :
  fs Sample.empty_world = fs Sample.empty_world
  ∧ (Err (CredentialError (msg_no_proxy "client1" "entry1")) = Ok tt
     ∨ ∃ msg, @Err unit (CredentialError (msg_no_proxy "client1" "entry1"))
              = Err (CredentialError msg)).
Proof.
  apply (check_raises_only_credential_error "grid_proxy" {[ "Username" := "u" ]}
           "client1" "entry1" false Sample.empty_world).
  vm_compute. reflexivity.
Defined.

(** A comment field next to the proxy changes nothing. *)
Lemma check_irrelevant_key_run :
  check_security_credentials "grid_proxy" {[ "SubmitProxy" := "p" ]}
                             "client1" "entry1" false Sample.empty_world
  = check_security_credentials "grid_proxy"
      {[ "SubmitProxy" := "p"; "Comment" := "x" ]}
      "client1" "entry1" false Sample.empty_world.
Proof.
  apply check_ignores_irrelevant_keys. intros k Hk.
  unfold relevant_keys in Hk.
  rewrite !elem_of_union, !elem_of_singleton in Hk.
  repeat destruct Hk as [Hk|Hk]; subst k; decide_closed.
Defined.

(** The accepted request passed every check. *)
Lemma validate_frontend_sound_run :
  Sample.empty_world = Sample.empty_world
  ∧ ∃ code aid,
      dict_get Sample.one_id "ReqEncKeyCode" = Some code
      ∧ extract_sym_key Sample.pub_key code = Ok Sample.sym_key
      ∧ dict_get Sample.one_id "AuthenticatedIdentity" = Some aid
      ∧ decrypt_str Sample.sym_key Sample.one_id "ReqEncIdentity" = Ok aid
      ∧ decrypt_str Sample.sym_key Sample.one_id "GlideinEncParamSecurityName"
        = Ok "frontend1"
      ∧ get_identity Sample.frontend_descript "frontend1" = Some aid.
Proof.
  apply (validate_frontend_sound Sample.one_id Sample.frontend_descript
           Sample.pub_key).
  vm_compute. reflexivity.
Defined.

Lemma validate_frontend_error_kind_run :
  fs Sample.empty_world = fs Sample.empty_world
  ∧ ((∃ msg, CredentialError
               (msg_invalid_identity "mallory@evil.example" "fe1@cms.example")
             = CredentialError msg)
     ∨ (CredentialError
          (msg_invalid_identity "mallory@evil.example" "fe1@cms.example")
        = KeyError "AuthenticatedIdentity"
        ∧ dict_get Sample.forged "AuthenticatedIdentity" = None)).
Proof.
  apply (validate_frontend_error_kinds Sample.forged Sample.frontend_descript
           Sample.pub_key Sample.empty_world).
  vm_compute. reflexivity.
Defined.

(** A ClassAd that carries a key code and nothing else. *)
Lemma validate_frontend_missing_identity_run :
  validate_frontend [("ReqEncKeyCode", "code-k1")] Sample.frontend_descript
                    Sample.pub_key Sample.empty_world
  = (Sample.empty_world, Err (KeyError "AuthenticatedIdentity")).
Proof.
  apply (validate_frontend_failures [("ReqEncKeyCode", "code-k1")]
           Sample.frontend_descript Sample.pub_key "code-k1" Sample.sym_key);
    reflexivity.
Defined.

Lemma safe_update_noop_run :
  safe_update Sample.path_Y (VStr "proxy-y") (Sample.world_Y (b_ "proxy-y"))
  = (Sample.world_Y (b_ "proxy-y"), Ok tt).
Proof.
  apply safe_update_returns_only_as_noop. split; [done|].
  exists mode_0o600, (b_ "proxy-y"), "proxy-y".
  repeat split; vm_compute; reflexivity.
Defined.

Lemma safe_update_touches_run :
  touched_by_safe_update Sample.path_Y
    (fs (Sample.world_Y (b_ "proxy-y")))
    (fs (safe_update Sample.path_Y (VBytes (b_ "proxy-z"))
                     (Sample.world_Y (b_ "proxy-y"))).1).
Proof.
  apply (safe_update_touches Sample.path_Y (VBytes (b_ "proxy-z"))
           (Sample.world_Y (b_ "proxy-y")) _ (Err enter_int_error)).
  vm_compute. reflexivity.
Defined.

(** The first credential of a user. *)
Lemma safe_update_new_file_run :
  safe_update Sample.path_Y (VBytes (b_ "proxy-y")) Sample.empty_world
  = (World {[ Sample.path_Y := File mode_0o600 [] ]} [] 1, Err enter_int_error).
Proof.
  etrans; [apply (proj1 (safe_update_not_a_file Sample.path_Y _ _));
           vm_compute; reflexivity|].
  vm_compute. reflexivity.
Defined.

Lemma process_global_error_kind_run :
  (data_PubKeyObj Sample.glidein_descript = None
   ∧ CredentialError msg_globals = CredentialError msg_no_public_key
   ∧ (process_global Sample.forged Sample.glidein_descript
                     Sample.frontend_descript Sample.empty_world).1
     = Sample.empty_world)
  ∨ (is_Some (data_PubKeyObj Sample.glidein_descript)
     ∧ CredentialError msg_globals = CredentialError msg_globals).
Proof.
  apply (process_global_error_kinds Sample.forged Sample.glidein_descript
           Sample.frontend_descript Sample.empty_world).
  vm_compute. reflexivity.
Defined.

(** A request whose only id has no mapping returns. *)
Lemma process_global_returns_run :
  ∃ w', process_global
          (Sample.request [ ("GlideinEncParamSecurityClassX", "k1:classZ");
                            ("GlideinEncParamX", "k1:proxy-x") ])
          Sample.glidein_descript Sample.frontend_descript Sample.empty_world
        = (w', Ok tt).
Proof.
  apply process_global_returns_iff.
  exists Sample.pub_key, Sample.sym_key, "frontend1".
  split; [reflexivity|]. split; [vm_compute; reflexivity|].
  split; [by eexists|].
  intros key Hkey. singleton_list Hkey.
  exists (b_ "proxy-x"), "classZ". split; [split|]; reflexivity.
Defined.

Lemma process_global_no_content_run :
  no_new_content
    (fs Sample.empty_world)
    (fs (process_global Sample.two_ids Sample.glidein_descript
                        Sample.frontend_descript Sample.empty_world).1).
Proof.
  apply (process_global_writes_no_content Sample.two_ids Sample.glidein_descript
           Sample.frontend_descript Sample.empty_world _
           (Err (CredentialError msg_globals))).
  vm_compute. reflexivity.
Defined.


(** A grid proxy built from its eight arguments. *)
Lemma create_cred_grid_proxy_run :
  let c := grid_proxy (Some "/etc/gwms/proxy.pem")
                      (common_of SampleDescript.proxy_kwargs) in
  get_cred_type c = "grid_proxy"
  ∧ cred_common c = common_of SampleDescript.proxy_kwargs
  ∧ ∃ cls, cls ∈ Credential_subclasses ∧ cls_cred_type cls = "grid_proxy"
           ∧ dom SampleDescript.proxy_kwargs = list_to_set (cls_params cls).
Proof.
  apply (create_cred_kind_and_fields "grid_proxy" SampleDescript.proxy_kwargs).
  vm_compute. reflexivity.
Defined.

Lemma create_cred_unknown_run :
  create_cred "x509" SampleDescript.proxy_kwargs
  = Err (CredentialError "Unknown Credential type: x509").
Proof.
  apply (proj1 (create_cred_rejects "x509" SampleDescript.proxy_kwargs)).
  decide_closed.
Defined.

(** Two remote users, one credential. *)
Lemma create_cred_auth_file_run :
  create_cred "auth_file"
    (<["rem_user" := Some "bob"]> SampleDescript.auth_kwargs)
  = Ok (auth_file (Some "/etc/gwms/auth") (common_of SampleDescript.auth_kwargs)).
Proof.
  apply (create_cred_auth_file_drops_rem_user SampleDescript.auth_kwargs
           (Some "alice")).
  vm_compute. reflexivity.
Defined.

(** Types without trust domains: nothing is looked up. *)
Lemma get_scitoken_unconfigured_run :
  get_scitoken SampleDescript.bare_descript "OSG" SampleDescript.token_world
  = (SampleDescript.token_world, Ok None).
Proof. apply get_scitoken_unconfigured. right. reflexivity. Defined.

Lemma get_scitoken_origin_run :
  fs (logged (LogDebug "found scitoken /etc/gwms/b.token")
             SampleDescript.token_world)
  = fs SampleDescript.token_world
  ∧ ∃ ctd tdd cred_type_map trust_domain_map path mode X s,
      descript_get (SampleDescript.descript SampleDescript.domains_text)
                   "ProxyTypes" = Some ctd
      ∧ descript_get (SampleDescript.descript SampleDescript.domains_text)
                     "ProxyTrustDomains" = Some tdd
      ∧ py_eval ctd = Ok cred_type_map
      ∧ py_eval tdd = Ok trust_domain_map
      ∧ scitoken_for cred_type_map trust_domain_map "OSG" path
      ∧ fs SampleDescript.token_world !! path = Some (File mode X)
      ∧ text_decode X = Ok s
      ∧ "tok-b" = str_strip s.
Proof.
  apply (get_scitoken_token_origin
           (SampleDescript.descript SampleDescript.domains_text) "OSG" "tok-b"
           SampleDescript.token_world).
  vm_compute. reflexivity.
Defined.

(** The second token file has no trust domain. *)
Lemma get_scitoken_error_kind_run :
  SampleDescript.token_world = SampleDescript.token_world
  ∧ ∃ ctd tdd,
      descript_get (SampleDescript.descript SampleDescript.short_domains_text)
                   "ProxyTypes" = Some ctd
      ∧ descript_get (SampleDescript.descript SampleDescript.short_domains_text)
                     "ProxyTrustDomains" = Some tdd
      ∧ (py_eval ctd = Err (KeyError "/etc/gwms/b.token")
         ∨ ∃ cred_type_map,
             py_eval ctd = Ok cred_type_map
             ∧ (py_eval tdd = Err (KeyError "/etc/gwms/b.token")
                ∨ ∃ trust_domain_map cfname,
                    py_eval tdd = Ok trust_domain_map
                    ∧ KeyError "/etc/gwms/b.token" = KeyError cfname
                    ∧ dict_get cred_type_map cfname = Some "scitoken"
                    ∧ dict_get trust_domain_map cfname = None)).
Proof.
  apply (get_scitoken_error_kinds
           (SampleDescript.descript SampleDescript.short_domains_text) "OSG"
           SampleDescript.token_world).
  vm_compute. reflexivity.
Defined.

(** Two token files of the trust domain: the second one is read. *)
Lemma get_scitoken_last_match_run :
  get_scitoken (SampleDescript.descript SampleDescript.domains_text) "OSG"
               SampleDescript.token_world
  = (World (fs SampleDescript.token_world)
           [LogDebug "found scitoken /etc/gwms/b.token"] 0,
     Ok (Some "tok-b")).
Proof.
  etrans;
    [apply (get_scitoken_last_match
              (SampleDescript.descript SampleDescript.domains_text) "OSG"
              SampleDescript.types_text SampleDescript.domains_text
              "/etc/gwms/b.token" (" tok-b" ++ String "010" EmptyString)
              [ ("/etc/gwms/a.token", "scitoken");
                ("/etc/gwms/proxy.pem", "grid_proxy");
                ("/etc/gwms/b.token", "scitoken") ]
              [ ("/etc/gwms/a.token", "OSG"); ("/etc/gwms/proxy.pem", "OSG");
                ("/etc/gwms/b.token", "OSG") ]
              ["/etc/gwms/a.token"; "/etc/gwms/proxy.pem"] []
              mode_0o600 (b_ (" tok-b" ++ String "010" EmptyString))
              SampleDescript.token_world)
    |vm_compute; reflexivity].
  - reflexivity.
  - discriminate.
  - reflexivity.
  - discriminate.
  - reflexivity.
  - reflexivity.
  - intros c. cbn. repeat case_bool_decide; (discriminate || by eexists).
  - reflexivity.
  - split; reflexivity.
  - intros c Hc. by apply elem_of_nil in Hc.
  - discriminate.
  - vm_compute. reflexivity.
  - vm_compute. reflexivity.
Defined.

(** The first generator raises, the second has no trust domain. *)
Lemma generate_credential_error_kind_run :
  ∃ gens tdd,
    descript_get (SampleDescript.descript SampleDescript.short_domains_text)
                 "CredentialGenerators" = Some gens
    ∧ descript_get (SampleDescript.descript SampleDescript.short_domains_text)
                   "ProxyTrustDomains" = Some tdd
    ∧ (py_eval gens = Err (KeyError "/etc/gwms/b.token")
       ∨ ∃ generators_map,
           py_eval gens = Ok generators_map
           ∧ (py_eval tdd = Err (KeyError "/etc/gwms/b.token")
              ∨ ∃ trust_domain_map cfname,
                  py_eval tdd = Ok trust_domain_map
                  ∧ KeyError "/etc/gwms/b.token" = KeyError cfname
                  ∧ cfname ∈ dict_keys generators_map
                  ∧ dict_get trust_domain_map cfname = None)).
Proof.
  apply (generate_credential_error_kinds
           (SampleDescript.descript SampleDescript.short_domains_text)
           SampleDescript.glidein_el "group1" "OSG" ∅
           (<["broken_gen" := SampleDescript.broken_gen]> ∅)
           Sample.empty_world
           (World ∅ [ LogDebug "found credential generator plugin broken_gen";
                      LogWarning "Failed to generate credential" ] 0)).
  vm_compute. reflexivity.
Defined.

(** The first generator raises, the second one issues the token. *)
Lemma generate_credential_origin_run :
  ∃ gens tdd generators_map trust_domain_map,
    descript_get (SampleDescript.descript SampleDescript.domains_text)
                 "CredentialGenerators" = Some gens
    ∧ descript_get (SampleDescript.descript SampleDescript.domains_text)
                   "ProxyTrustDomains" = Some tdd
    ∧ py_eval gens = Ok generators_map
    ∧ py_eval tdd = Ok trust_domain_map
    ∧ generated_by generators_map trust_domain_map SampleDescript.glidein_el
        "group1" "OSG"
        (<["tokgen" := SampleDescript.tokgen]>
           (<["broken_gen" := SampleDescript.broken_gen]> ∅))
        "token-for-group1".
Proof.
  apply (generate_credential_token_origin
           (SampleDescript.descript SampleDescript.domains_text)
           SampleDescript.glidein_el "group1" "OSG" "token-for-group1" ∅
           (<["tokgen" := SampleDescript.tokgen]>
              (<["broken_gen" := SampleDescript.broken_gen]> ∅))
           Sample.empty_world
           (World ∅ [ LogDebug "found credential generator plugin broken_gen";
                      LogWarning "Failed to generate credential";
                      LogDebug "found credential generator plugin tokgen" ] 0)).
  vm_compute. reflexivity.
Defined.

(** Both plugins end up in the cache, the failing one included. *)
Lemma generate_credential_cache_run :
  fs (World ∅ [ LogDebug "found credential generator plugin broken_gen";
                LogWarning "Failed to generate credential";
                LogDebug "found credential generator plugin tokgen" ] 0)
  = fs Sample.empty_world
  ∧ cache_grown ∅ (<["tokgen" := SampleDescript.tokgen]>
                     (<["broken_gen" := SampleDescript.broken_gen]> ∅)).
Proof.
  apply (generate_credential_cache
           (SampleDescript.descript SampleDescript.domains_text)
           SampleDescript.glidein_el "group1" "OSG" ∅ _ Sample.empty_world _
           (Ok (Some "token-for-group1"))).
  vm_compute. reflexivity.
Defined.
